(** * KosherZmanim: the astronomical calendar, the almanac calculator and Zman

    A shallow embedding of [src/AstronomicalCalendar.ts],
    [src/util/SunTimesCalculator.ts], [src/util/Zman.ts] and of the helpers
    of [src/polyfills/Utils.ts] they call, followed by the properties the
    specification states about them.  In the sources at hand the class
    [SunTimesCalculator] follows [Zman] in [src/util/Zman.ts], and the
    helpers of [polyfills/Utils.ts] follow the exports of [src/index.ts].
    Further properties cover more of these files, [padZeros], the Daf Yomi
    Bavli of [src/hebrewcalendar/YomiCalculator.ts] and the Hebrew numbers of
    [src/hebrewcalendar/HebrewDateFormatter.ts].

    Modelling conventions.
    - A JavaScript [number] is [NaN] or an exact rational: rounding of
      IEEE-754 doubles is left out, and so are the infinities.
    - Instants ([Temporal.ZonedDateTime]) are their epoch milliseconds and a
      time-zone identifier; a calendar date ([Temporal.PlainDate]) is its
      day number since 1970-01-01.  The range limits of Temporal are left out.
    - A call that may raise returns an [outcome]; a loop without a bound in
      the source is run with fuel and returns [None] when the fuel is used up.
    - The relational operators the source applies to two instants are their
      chronological order. *)

From Stdlib Require Import ZArith QArith Qround Qabs Qpower Bool List String Ascii Lia
  Lqa.
From Equations Require Import Equations.
Import ListNotations.

Set Implicit Arguments.
Local Open Scope Z_scope.

(** ** Exceptions *)

Inductive exn : Type :=
| RangeError
| TypeError.

Inductive outcome (A : Type) : Type :=
| Ret (a : A)
| Throw (e : exn).
Arguments Ret {A} a.
Arguments Throw {A} e.

Definition bind {A B : Type} (m : outcome A) (k : A -> outcome B) : outcome B :=
  match m with
  | Ret a => k a
  | Throw e => Throw e
  end.

Notation "x <- m ;; k" := (bind m (fun x => k))
  (at level 61, m at next level, right associativity).

(** [while (cond) body] with fuel; [None] when the fuel runs out first. *)
Fixpoint while_loop {S : Type} (fuel : nat) (cond : S -> bool)
    (body : S -> outcome S) (s : S) : option (outcome S) :=
  match fuel with
  | O => None
  | Datatypes.S fuel' =>
      if cond s then
        match body s with
        | Ret s' => while_loop fuel' cond body s'
        | Throw e => Some (Throw e)
        end
      else Some (Ret s)
  end.

(** Computations that contain such a loop. *)
Definition run (A : Type) : Type := option (outcome A).

Definition bind_run {A B : Type} (m : run A) (k : A -> run B) : run B :=
  match m with
  | None => None
  | Some (Throw e) => Some (Throw e)
  | Some (Ret a) => k a
  end.

Notation "x <~ m ;; k" := (bind_run m (fun x => k))
  (at level 61, m at next level, right associativity).

(** ** JavaScript numbers *)

Inductive number : Type :=
| NaN
| Fin (q : Q).

Declare Scope num_scope.
Delimit Scope num_scope with num.
Bind Scope num_scope with number.

Module Number.

Definition of_Z (z : Z) : number := Fin (inject_Z z).

Definition lift2 (f : Q -> Q -> Q) (a b : number) : number :=
  match a, b with
  | Fin x, Fin y => Fin (f x y)
  | _, _ => NaN
  end.

Definition add : number -> number -> number := lift2 Qplus.
Definition sub : number -> number -> number := lift2 Qminus.
Definition mul : number -> number -> number := lift2 Qmult.

Definition neg (a : number) : number :=
  match a with
  | Fin x => Fin (- x)%Q
  | NaN => NaN
  end.

(** [a / b].  JavaScript answers an infinity for a non-zero dividend over 0;
    without infinities the quotient by 0 is [NaN].  The one divisor of this
    program that is not a constant is in [getCosLocalHourAngle], whose
    quotient only feeds [Math.acos], and that maps both to [NaN]. *)
Definition div (a b : number) : number :=
  match a, b with
  | Fin x, Fin y => if Qeq_bool y 0 then NaN else Fin (x / y)%Q
  | _, _ => NaN
  end.

Definition isNaN (a : number) : bool :=
  match a with
  | NaN => true
  | Fin _ => false
  end.

(** [a < b], [a > b], [a >= b], [a === b]: all false on [NaN]. *)
Definition ltb (a b : number) : bool :=
  match a, b with
  | Fin x, Fin y => match Qcompare x y with Lt => true | _ => false end
  | _, _ => false
  end.

Definition gtb (a b : number) : bool := ltb b a.

Definition geb (a b : number) : bool :=
  match a, b with
  | Fin x, Fin y => match Qcompare x y with Lt => false | _ => true end
  | _, _ => false
  end.

Definition eqb (a b : number) : bool :=
  match a, b with
  | Fin x, Fin y => Qeq_bool x y
  | _, _ => false
  end.

(** Truthiness of a number: [NaN] and [0] are falsy. *)
Definition truthy (a : number) : bool :=
  match a with
  | NaN => false
  | Fin x => negb (Qeq_bool x 0)
  end.

End Number.

Notation "a + b" := (Number.add a b) : num_scope.
Notation "a - b" := (Number.sub a b) : num_scope.
Notation "a * b" := (Number.mul a b) : num_scope.
Notation "a / b" := (Number.div a b) : num_scope.
Notation "- a" := (Number.neg a) : num_scope.
Notation "a <? b" := (Number.ltb a b) : num_scope.
Notation "a >? b" := (Number.gtb a b) : num_scope.
Notation "a >=? b" := (Number.geb a b) : num_scope.
Notation "a === b" := (Number.eqb a b) (at level 70, no associativity) : num_scope.

(** A numeric literal of the source. *)
Definition lit (z : Z) : number := Number.of_Z z.
Definition dec (n : Z) (d : positive) : number := Fin (n # d).

(** [polyfills/Utils.ts]: [export const Long_MIN_VALUE = NaN]. *)
Definition Long_MIN_VALUE : number := NaN.

(** ** The [Math] object *)

(** The transcendental functions on a finite argument, left open: each
    answers a finite number there.  [Math.acos] and [Math.asin] answer [NaN]
    outside [-1, 1]; this is fixed below, whatever the functions are. *)
Class MathLibrary : Type := {
  sin_fin : Q -> Q;
  cos_fin : Q -> Q;
  tan_fin : Q -> Q;
  asin_fin : Q -> Q;
  acos_fin : Q -> Q;
  atan_fin : Q -> Q
}.

Module Math.

(** [Math.PI], the double nearest to pi. *)
Definition PI : number := Fin (884279719003555 # 281474976710656).

(** Rounding toward zero of a rational. *)
Definition Qtrunc (x : Q) : Z :=
  match Qcompare x 0 with
  | Lt => Qceiling x
  | _ => Qfloor x
  end.

Definition trunc (a : number) : number :=
  match a with
  | Fin x => Number.of_Z (Qtrunc x)
  | NaN => NaN
  end.

Definition floor (a : number) : number :=
  match a with
  | Fin x => Number.of_Z (Qfloor x)
  | NaN => NaN
  end.

Section Transcendental.

Context {M : MathLibrary}.

Definition lift1 (f : Q -> Q) (a : number) : number :=
  match a with
  | Fin x => Fin (f x)
  | NaN => NaN
  end.

Definition sin : number -> number := lift1 sin_fin.
Definition cos : number -> number := lift1 cos_fin.
Definition tan : number -> number := lift1 tan_fin.
Definition atan : number -> number := lift1 atan_fin.

Definition within_unit (x : Q) : bool := Qle_bool (-1) x && Qle_bool x 1.

Definition acos (a : number) : number :=
  match a with
  | Fin x => if within_unit x then Fin (acos_fin x) else NaN
  | NaN => NaN
  end.

Definition asin (a : number) : number :=
  match a with
  | Fin x => if within_unit x then Fin (asin_fin x) else NaN
  | NaN => NaN
  end.

End Transcendental.

End Math.

(** ** [polyfills/Utils.ts] *)

Module MathUtils.

Definition degreesToRadians (degrees : number) : number :=
  (degrees * Math.PI / lit 180)%num.

Definition radiansToDegrees (radians : number) : number :=
  (radians * lit 180 / Math.PI)%num.

End MathUtils.

Module IntegerUtils.

Definition compare (x y : number) : number :=
  if (x === y)%num then lit 0
  else if (x >? y)%num then lit 1 else lit (-1).

End IntegerUtils.

Module StringUtils.

Definition charCodeAt (s : string) (k : nat) : Z :=
  match String.get k s with
  | Some c => Z.of_nat (nat_of_ascii c)
  | None => 0
  end.

(** The loop of [compareTo] from index [k] on, with [n] indices left below
    [Math.min(string1.length, string2.length)]. *)
Fixpoint compareTo_from (n k : nat) (string1 string2 : string) : number :=
  match n with
  | O => lit (Z.of_nat (String.length string1) - Z.of_nat (String.length string2))
  | S n' =>
      if String.eqb (String.substring k 1 string1) (String.substring k 1 string2)
      then compareTo_from n' (S k) string1 string2
      else lit (charCodeAt string1 k - charCodeAt string2 k)
  end.

Definition compareTo (string1 string2 : string) : number :=
  compareTo_from (Nat.min (String.length string1) (String.length string2)) 0
    string1 string2.

End StringUtils.

(** ** The part of Temporal the program uses *)

Module Temporal.

(** [Temporal.PlainDate], as the number of days since 1970-01-01. *)
Record PlainDate : Type := mkPlainDate { epochDay : Z }.

(** Day number of a proleptic Gregorian date, and back. *)
Definition days_from_civil (y m d : Z) : Z :=
  let y := if m <=? 2 then y - 1 else y in
  let era := y / 400 in
  let yoe := y - era * 400 in
  let mp := if 2 <? m then m - 3 else m + 9 in
  let doy := (153 * mp + 2) / 5 + d - 1 in
  let doe := yoe * 365 + yoe / 4 - yoe / 100 + doy in
  era * 146097 + doe - 719468.

Definition civil_from_days (z : Z) : Z * Z * Z :=
  let z := z + 719468 in
  let era := z / 146097 in
  let doe := z - era * 146097 in
  let yoe := (doe - doe / 1460 + doe / 36524 - doe / 146096) / 365 in
  let y := yoe + era * 400 in
  let doy := doe - (365 * yoe + yoe / 4 - yoe / 100) in
  let mp := (5 * doy + 2) / 153 in
  let d := doy - (153 * mp + 2) / 5 + 1 in
  let m := if mp <? 10 then mp + 3 else mp - 9 in
  ((if m <=? 2 then y + 1 else y), m, d).

Definition PlainDate_of (y m d : Z) : PlainDate :=
  mkPlainDate (days_from_civil y m d).

Definition year (date : PlainDate) : Z := fst (fst (civil_from_days (epochDay date))).
Definition month (date : PlainDate) : Z := snd (fst (civil_from_days (epochDay date))).
Definition day (date : PlainDate) : Z := snd (civil_from_days (epochDay date)).

Definition dayOfYear (date : PlainDate) : Z :=
  epochDay date - days_from_civil (year date) 1 1 + 1.

(** [date.add({ days: n })]. *)
Definition add_days (date : PlainDate) (n : Z) : PlainDate :=
  mkPlainDate (epochDay date + n).

(** [Temporal.PlainTime] down to the millisecond. *)
Record PlainTime : Type := mkPlainTime {
  hour : Z;
  minute : Z;
  second : Z;
  millisecond : Z
}.

(** An argument of a Temporal constructor is turned into an integer by
    truncation; [NaN] is refused. *)
Definition toIntegerWithTruncation (a : number) : outcome Z :=
  match a with
  | NaN => Throw RangeError
  | Fin x => Ret (Math.Qtrunc x)
  end.

Definition in_range (lo hi z : Z) : bool := (lo <=? z) && (z <=? hi).

(** [new Temporal.PlainTime(hour, minute, second, millisecond)]: a field out
    of its range is refused. *)
Definition PlainTime_new (h m s ms : number) : outcome PlainTime :=
  h <- toIntegerWithTruncation h ;;
  m <- toIntegerWithTruncation m ;;
  s <- toIntegerWithTruncation s ;;
  ms <- toIntegerWithTruncation ms ;;
  if in_range 0 23 h && in_range 0 59 m && in_range 0 59 s && in_range 0 999 ms
  then Ret (mkPlainTime h m s ms)
  else Throw RangeError.

(** [Temporal.ZonedDateTime]: the instant and the zone it is shown in. *)
Record ZonedDateTime : Type := mkZonedDateTime {
  epochMilliseconds : Z;
  timeZone : string
}.

Definition MS_PER_DAY : Z := 86400000.

(** [date.toZonedDateTime({ timeZone: 'UTC', plainTime })]. *)
Definition toZonedDateTimeUTC (date : PlainDate) (plainTime : PlainTime) : ZonedDateTime :=
  mkZonedDateTime
    (epochDay date * MS_PER_DAY
     + hour plainTime * 3600000 + minute plainTime * 60000
     + second plainTime * 1000 + millisecond plainTime)
    "UTC".

(** [zdt.withTimeZone(tz)]: the same instant in another zone. *)
Definition withTimeZone (zdt : ZonedDateTime) (tz : string) : ZonedDateTime :=
  mkZonedDateTime (epochMilliseconds zdt) tz.

(** A duration field must be a whole number; [NaN] and fractions are refused. *)
Definition toIntegerIfIntegral (a : number) : outcome Z :=
  match a with
  | NaN => Throw RangeError
  | Fin x => if Qeq_bool x (inject_Z (Qfloor x)) then Ret (Qfloor x) else Throw RangeError
  end.

(** [zdt.add({ milliseconds: n })]. *)
Definition add_milliseconds (zdt : ZonedDateTime) (n : number) : outcome ZonedDateTime :=
  n <- toIntegerIfIntegral n ;;
  Ret (mkZonedDateTime (epochMilliseconds zdt + n) (timeZone zdt)).

(** [Temporal.Instant.fromEpochMilliseconds(n).toZonedDateTimeISO('UTC').toPlainDate()]. *)
Definition plainDate_of_epochMilliseconds (n : number) : outcome PlainDate :=
  ms <- toIntegerIfIntegral n ;;
  Ret (mkPlainDate (ms / MS_PER_DAY)).

(** [a < b] and [a > b] on two instants that may be [null]; with a [null]
    operand neither holds. *)
Definition before (a b : option ZonedDateTime) : bool :=
  match a, b with
  | Some x, Some y => epochMilliseconds x <? epochMilliseconds y
  | _, _ => false
  end.

Definition after (a b : option ZonedDateTime) : bool := before b a.

End Temporal.

(** ** [util/GeoLocation.ts], as far as the calendar reads it *)

Module GeoLocation.

Inductive AntimeridianAdjustment : Type :=
| AdjustBack      (* -1 *)
| AdjustNone      (* 0 *)
| AdjustForward.  (* 1 *)

Definition days (a : AntimeridianAdjustment) : Z :=
  match a with
  | AdjustBack => -1
  | AdjustNone => 0
  | AdjustForward => 1
  end.

Record t : Type := make {
  getLatitude : number;
  getLongitude : number;
  getElevation : number;
  getTimeZone : string;
  getAntimeridianAdjustment : AntimeridianAdjustment
}.

End GeoLocation.

(** ** [util/AstronomicalCalculator.ts]: what a calculator offers the calendar *)

Module AstronomicalCalculator.

Record t : Type := make {
  getCalculatorName : string;
  getUTCSunrise : Temporal.PlainDate -> GeoLocation.t -> number -> bool -> number;
  getUTCSunset : Temporal.PlainDate -> GeoLocation.t -> number -> bool -> number
}.

End AstronomicalCalculator.

(** ** [big.js], as far as the dip searches use it: exact decimals *)

Module Big.

Definition t : Type := Q.
Definition zero : t := 0%Q.
Definition add (a b : t) : t := Qred (a + b).
Definition sub (a b : t) : t := Qred (a - b).
Definition toNumber (a : t) : number := Fin a.

End Big.

(** ** [util/SunTimesCalculator.ts] *)

Module SunTimesCalculator.

Definition inspect {A : Type} (a : A) : {b : A | a = b} := exist _ a eq_refl.

(** How often the first loop of [getTimeUTC] runs, and the second. *)
Definition steps_below_zero (p : number) : nat :=
  match p with
  | Fin q => Z.to_nat (- Qfloor (q / 24))
  | NaN => O
  end.

Definition steps_above_24 (p : number) : nat :=
  match p with
  | Fin q => Z.to_nat (Qfloor (q / 24))
  | NaN => O
  end.

(** [Qfloor x = z] from [z <= x < z + 1]. *)
Ltac floor_is z :=
  apply Z.le_antisymm;
  [ apply Z.lt_succ_r; unfold Z.succ; rewrite Zlt_Qlt;
    eapply Qle_lt_trans; [apply Qfloor_le|]; rewrite inject_Z_plus
  | rewrite <- (Qfloor_Z z); apply Qfloor_resp_le ].

(** [while (processedTime < 0) processedTime += 24]. *)
Equations? add24_while_negative (processedTime : number) : number
  by wf (steps_below_zero processedTime) lt :=
  add24_while_negative processedTime with inspect (processedTime <? lit 0)%num := {
    | exist _ true Hlt => add24_while_negative (processedTime + lit 24)%num;
    | exist _ false _ => processedTime }.
Proof.
  destruct processedTime as [|q]; [discriminate|].
  assert (Hq : (q < 0)%Q).
  { apply Qlt_alt. unfold Number.ltb, lit, Number.of_Z in Hlt.
    destruct (Qcompare q (inject_Z 0)) eqn:E; try discriminate. exact E. }
  change (Fin q + lit 24)%num with (Fin (q + inject_Z 24)).
  unfold steps_below_zero.
  pose proof (Qfloor_le (q / 24)) as Hlo.
  pose proof (Qlt_floor (q / 24)) as Hhi.
  rewrite inject_Z_plus in Hhi.
  assert (E : Qfloor ((q + inject_Z 24) / 24) = Qfloor (q / 24) + 1).
  { floor_is (Qfloor (q / 24) + 1).
    all: rewrite inject_Z_plus; change (inject_Z 24) with 24%Q;
      change (inject_Z 1) with 1%Q in *;
      setoid_replace ((q + 24) / 24)%Q with (q / 24 + 1)%Q by field;
      set (x := (q / 24)%Q) in *; lra. }
  rewrite E.
  assert (Qfloor (q / 24) < 0).
  { rewrite Zlt_Qlt. eapply Qle_lt_trans; [exact Hlo|]. change (inject_Z 0) with 0%Q. set (x := (q / 24)%Q) in *. assert (x == q * (1#24))%Q by (unfold x; field). lra. }
  lia.
Qed.

(** [while (processedTime >= 24) processedTime -= 24]. *)
Equations? sub24_while_at_least_24 (processedTime : number) : number
  by wf (steps_above_24 processedTime) lt :=
  sub24_while_at_least_24 processedTime with inspect (processedTime >=? lit 24)%num := {
    | exist _ true Hge => sub24_while_at_least_24 (processedTime - lit 24)%num;
    | exist _ false _ => processedTime }.
Proof.
  destruct processedTime as [|q]; [discriminate|].
  assert (Hq : (24 <= q)%Q).
  { unfold Number.geb, lit, Number.of_Z in Hge.
    destruct (Qcompare q (inject_Z 24)) eqn:E; try discriminate.
    - apply Qeq_alt in E. rewrite E. apply Qle_refl.
    - apply Qgt_alt in E. apply Qlt_le_weak. exact E. }
  change (Fin q - lit 24)%num with (Fin (q - inject_Z 24)).
  unfold steps_above_24.
  pose proof (Qfloor_le (q / 24)) as Hlo.
  pose proof (Qlt_floor (q / 24)) as Hhi.
  rewrite inject_Z_plus in Hhi.
  assert (E : Qfloor ((q - inject_Z 24) / 24) = Qfloor (q / 24) - 1).
  { floor_is (Qfloor (q / 24) - 1).
    all: unfold Z.sub; rewrite inject_Z_plus; change (inject_Z 24) with 24%Q;
      change (inject_Z 1) with 1%Q in *; change (inject_Z (- (1))) with (- (1))%Q;
      setoid_replace ((q - 24) / 24)%Q with (q / 24 - 1)%Q by field;
      set (x := (q / 24)%Q) in *; lra. }
  rewrite E.
  assert (1 <= Qfloor (q / 24)).
  { rewrite <- (Qfloor_Z 1). apply Qfloor_resp_le. change (inject_Z 1) with 1%Q. set (x := (q / 24)%Q) in *. assert (x == q * (1#24))%Q by (unfold x; field). lra. }
  lia.
Qed.

Section Calculator.

Context {M : MathLibrary}.

(** [adjustZenith] is inherited from [AstronomicalCalculator], whose file
    is not part of the sources at hand. *)
Variable adjustZenith : number -> number -> number.

Definition DEG_PER_HOUR : number := (lit 360 / lit 24)%num.

Definition sinDeg (deg : number) : number := Math.sin (MathUtils.degreesToRadians deg).
Definition acosDeg (x : number) : number := MathUtils.radiansToDegrees (Math.acos x).
Definition asinDeg (x : number) : number := MathUtils.radiansToDegrees (Math.asin x).
Definition tanDeg (deg : number) : number := Math.tan (MathUtils.degreesToRadians deg).
Definition cosDeg (deg : number) : number := Math.cos (MathUtils.degreesToRadians deg).

Definition getHoursFromMeridian (longitude : number) : number :=
  (longitude / DEG_PER_HOUR)%num.

Definition getApproxTimeDays (dayOfYear hoursFromMeridian : number) (isSunrise : bool)
  : number :=
  if isSunrise then (dayOfYear + ((lit 6 - hoursFromMeridian) / lit 24))%num
  else (dayOfYear + ((lit 18 - hoursFromMeridian) / lit 24))%num.

Definition getMeanAnomaly (dayOfYear longitude : number) (isSunrise : bool) : number :=
  ((dec 9856 10000
    * getApproxTimeDays dayOfYear (getHoursFromMeridian longitude) isSunrise)
   - dec 3289 1000)%num.

Definition getSunTrueLongitude (sunMeanAnomaly : number) : number :=
  let l := (sunMeanAnomaly + (dec 1916 1000 * sinDeg sunMeanAnomaly)
            + (dec 20 1000 * sinDeg (lit 2 * sunMeanAnomaly)) + dec 282634 1000)%num in
  let l := if (l >=? lit 360)%num then (l - lit 360)%num else l in
  let l := if (l <? lit 0)%num then (l + lit 360)%num else l in
  l.

Definition getSunRightAscensionHours (sunTrueLongitude : number) : number :=
  let a := (dec 91764 100000 * tanDeg sunTrueLongitude)%num in
  let ra := (lit 360 / (lit 2 * Math.PI) * Math.atan a)%num in
  let lQuadrant := (Math.floor (sunTrueLongitude / lit 90) * lit 90)%num in
  let raQuadrant := (Math.floor (ra / lit 90) * lit 90)%num in
  let ra := (ra + (lQuadrant - raQuadrant))%num in
  (ra / DEG_PER_HOUR)%num.

Definition getCosLocalHourAngle (sunTrueLongitude latitude zenith : number) : number :=
  let sinDec := (dec 39782 100000 * sinDeg sunTrueLongitude)%num in
  let cosDec := cosDeg (asinDeg sinDec) in
  ((cosDeg zenith - (sinDec * sinDeg latitude)) / (cosDec * cosDeg latitude))%num.

Definition getLocalMeanTime (localHour sunRightAscensionHours approxTimeDays : number)
  : number :=
  (localHour + sunRightAscensionHours - (dec 6571 100000 * approxTimeDays)
   - dec 6622 1000)%num.

(** [getTimeUTC] up to its two loops: the value [processedTime] starts with. *)
Definition getTimeUTC_unwrapped (date : Temporal.PlainDate)
    (longitude latitude zenith : number) (isSunrise : bool) : number :=
  let dayOfYear := lit (Temporal.dayOfYear date) in
  let sunMeanAnomaly := getMeanAnomaly dayOfYear longitude isSunrise in
  let sunTrueLong := getSunTrueLongitude sunMeanAnomaly in
  let sunRightAscensionHours := getSunRightAscensionHours sunTrueLong in
  let cosLocalHourAngle := getCosLocalHourAngle sunTrueLong latitude zenith in
  let localHourAngle :=
    if isSunrise then (lit 360 - acosDeg cosLocalHourAngle)%num
    else acosDeg cosLocalHourAngle in
  let localHour := (localHourAngle / DEG_PER_HOUR)%num in
  let localMeanTime :=
    getLocalMeanTime localHour sunRightAscensionHours
      (getApproxTimeDays dayOfYear (getHoursFromMeridian longitude) isSunrise) in
  (localMeanTime - getHoursFromMeridian longitude)%num.

Definition getTimeUTC (date : Temporal.PlainDate)
    (longitude latitude zenith : number) (isSunrise : bool) : number :=
  let processedTime := getTimeUTC_unwrapped date longitude latitude zenith isSunrise in
  let processedTime := add24_while_negative processedTime in
  let processedTime := sub24_while_at_least_24 processedTime in
  processedTime.

Definition getCalculatorName : string := "US Naval Almanac Algorithm".

Definition getUTCSunrise (date : Temporal.PlainDate) (geoLocation : GeoLocation.t)
    (zenith : number) (adjustForElevation : bool) : number :=
  let elevation := if adjustForElevation then GeoLocation.getElevation geoLocation else lit 0 in
  let adjustedZenith := adjustZenith zenith elevation in
  let doubleTime :=
    getTimeUTC date (GeoLocation.getLongitude geoLocation)
      (GeoLocation.getLatitude geoLocation) adjustedZenith true in
  doubleTime.

Definition getUTCSunset (date : Temporal.PlainDate) (geoLocation : GeoLocation.t)
    (zenith : number) (adjustForElevation : bool) : number :=
  let elevation := if adjustForElevation then GeoLocation.getElevation geoLocation else lit 0 in
  let adjustedZenith := adjustZenith zenith elevation in
  let doubleTime :=
    getTimeUTC date (GeoLocation.getLongitude geoLocation)
      (GeoLocation.getLatitude geoLocation) adjustedZenith false in
  doubleTime.

(** The calculator as the calendar holds it. *)
Definition calculator : AstronomicalCalculator.t :=
  AstronomicalCalculator.make getCalculatorName getUTCSunrise getUTCSunset.

End Calculator.

End SunTimesCalculator.

(** ** [util/Zman.ts] *)

Module Zman.

Record t : Type := make {
  label : option string;
  zman : option Temporal.ZonedDateTime;
  duration : option number;
  description : option string;
  geoLocation : option GeoLocation.t
}.

(** [label || null] and [label || ''] on a string that may be missing. *)
Definition nonempty (s : option string) : option string :=
  match s with
  | Some EmptyString => None
  | other => other
  end.

Definition string_or_empty (s : option string) : string :=
  match s with
  | Some s => s
  | None => EmptyString
  end.

(** The constructor, with its three signatures: the first argument is an
    instant or a duration, the second a label or a location. *)
Definition new (dateOrDuration : number + Temporal.ZonedDateTime)
    (labelOrGeoLocation : option string + GeoLocation.t) (label : option string) : t :=
  let label0 := nonempty label in
  let '(label1, geo) :=
    match labelOrGeoLocation with
    | inr g => (label0, Some g)
    | inl l => (l, None)
    end in
  match dateOrDuration with
  | inr date => make label1 (Some date) None None geo
  | inl duration => make label1 None (Some duration) None geo
  end.

(** [zman.zman?.epochMilliseconds || 0]. *)
Definition epochMilliseconds_or_0 (z : t) : number :=
  match zman z with
  | Some date =>
      let ms := lit (Temporal.epochMilliseconds date) in
      if Number.truthy ms then ms else lit 0
  | None => lit 0
  end.

(** [zman.duration || 0]. *)
Definition duration_or_0 (z : t) : number :=
  match duration z with
  | Some d => if Number.truthy d then d else lit 0
  | None => lit 0
  end.

Definition compareDateOrder (zman1 zman2 : t) : number :=
  let firstMillis := epochMilliseconds_or_0 zman1 in
  let secondMillis := epochMilliseconds_or_0 zman2 in
  IntegerUtils.compare firstMillis secondMillis.

Definition compareNameOrder (zman1 zman2 : t) : number :=
  StringUtils.compareTo (string_or_empty (nonempty (label zman1)))
    (string_or_empty (nonempty (label zman2))).

Definition compareDurationOrder (zman1 zman2 : t) : number :=
  IntegerUtils.compare (duration_or_0 zman1) (duration_or_0 zman2).

End Zman.

(** ** [AstronomicalCalendar.ts] *)

Module AstronomicalCalendar.

Import Temporal.

Record t : Type := make {
  date : PlainDate;
  geoLocation : GeoLocation.t;
  astronomicalCalculator : AstronomicalCalculator.t
}.

Definition GEOMETRIC_ZENITH : number := lit 90.
Definition CIVIL_ZENITH : number := lit 96.
Definition NAUTICAL_ZENITH : number := lit 102.
Definition ASTRONOMICAL_ZENITH : number := lit 108.
Definition MINUTE_MILLIS : number := (lit 60 * lit 1000)%num.
Definition HOUR_MILLIS : number := (MINUTE_MILLIS * lit 60)%num.

Definition getDate (this : t) : PlainDate := date this.
Definition getGeoLocation (this : t) : GeoLocation.t := geoLocation this.
Definition getAstronomicalCalculator (this : t) : AstronomicalCalculator.t :=
  astronomicalCalculator this.

Definition setGeoLocation (this : t) (g : GeoLocation.t) : t :=
  make (date this) g (astronomicalCalculator this).
Definition setAstronomicalCalculator (this : t) (c : AstronomicalCalculator.t) : t :=
  make (date this) (geoLocation this) c.

Definition getAdjustedDate (this : t) : PlainDate :=
  match GeoLocation.getAntimeridianAdjustment (getGeoLocation this) with
  | GeoLocation.AdjustNone => getDate this
  | offset => add_days (getDate this) (GeoLocation.days offset)
  end.

Definition getUTCSunrise (this : t) (zenith : number) : number :=
  AstronomicalCalculator.getUTCSunrise (getAstronomicalCalculator this)
    (getAdjustedDate this) (getGeoLocation this) zenith true.

Definition getUTCSeaLevelSunrise (this : t) (zenith : number) : number :=
  AstronomicalCalculator.getUTCSunrise (getAstronomicalCalculator this)
    (getAdjustedDate this) (getGeoLocation this) zenith false.

Definition getUTCSunset (this : t) (zenith : number) : number :=
  AstronomicalCalculator.getUTCSunset (getAstronomicalCalculator this)
    (getAdjustedDate this) (getGeoLocation this) zenith true.

Definition getUTCSeaLevelSunset (this : t) (zenith : number) : number :=
  AstronomicalCalculator.getUTCSunset (getAstronomicalCalculator this)
    (getAdjustedDate this) (getGeoLocation this) zenith false.

Definition getDateFromTime (this : t) (time : number) (isSunrise : bool)
  : outcome (option ZonedDateTime) :=
  if Number.isNaN time then Ret None else
  let calculatedTime := time in
  let cal := getAdjustedDate this in
  let hours := Math.trunc calculatedTime in
  let calculatedTime := (calculatedTime - hours)%num in
  let calculatedTime := (calculatedTime * lit 60)%num in
  let minutes := Math.trunc calculatedTime in
  let calculatedTime := (calculatedTime - minutes)%num in
  let calculatedTime := (calculatedTime * lit 60)%num in
  let seconds := Math.trunc calculatedTime in
  let calculatedTime := (calculatedTime - seconds)%num in
  let localTimeHours :=
    Math.trunc (GeoLocation.getLongitude (getGeoLocation this) / lit 15)%num in
  let cal :=
    if isSunrise && (localTimeHours + hours >? lit 18)%num then add_days cal (-1)
    else if negb isSunrise && (localTimeHours + hours <? lit 6)%num then add_days cal 1
    else cal in
  plainTime <- PlainTime_new hours minutes seconds
                 (Math.trunc (calculatedTime * lit 1000)%num) ;;
  Ret (Some (withTimeZone (toZonedDateTimeUTC cal plainTime)
               (GeoLocation.getTimeZone (geoLocation this)))).

Definition getSunrise (this : t) : outcome (option ZonedDateTime) :=
  let sunrise := getUTCSunrise this GEOMETRIC_ZENITH in
  if Number.isNaN sunrise then Ret None else getDateFromTime this sunrise true.

Definition getSeaLevelSunrise (this : t) : outcome (option ZonedDateTime) :=
  let sunrise := getUTCSeaLevelSunrise this GEOMETRIC_ZENITH in
  if Number.isNaN sunrise then Ret None else getDateFromTime this sunrise true.

Definition getSunset (this : t) : outcome (option ZonedDateTime) :=
  let sunset := getUTCSunset this GEOMETRIC_ZENITH in
  if Number.isNaN sunset then Ret None else getDateFromTime this sunset false.

Definition getSeaLevelSunset (this : t) : outcome (option ZonedDateTime) :=
  let sunset := getUTCSeaLevelSunset this GEOMETRIC_ZENITH in
  if Number.isNaN sunset then Ret None else getDateFromTime this sunset false.

Definition getSunriseOffsetByDegrees (this : t) (offsetZenith : number)
  : outcome (option ZonedDateTime) :=
  let dawn := getUTCSunrise this offsetZenith in
  if Number.isNaN dawn then Ret None else getDateFromTime this dawn true.

Definition getSunsetOffsetByDegrees (this : t) (offsetZenith : number)
  : outcome (option ZonedDateTime) :=
  let sunset := getUTCSunset this offsetZenith in
  if Number.isNaN sunset then Ret None else getDateFromTime this sunset false.

Definition getBeginCivilTwilight (this : t) := getSunriseOffsetByDegrees this CIVIL_ZENITH.
Definition getBeginNauticalTwilight (this : t) := getSunriseOffsetByDegrees this NAUTICAL_ZENITH.
Definition getBeginAstronomicalTwilight (this : t) :=
  getSunriseOffsetByDegrees this ASTRONOMICAL_ZENITH.
Definition getEndCivilTwilight (this : t) := getSunsetOffsetByDegrees this CIVIL_ZENITH.
Definition getEndNauticalTwilight (this : t) := getSunsetOffsetByDegrees this NAUTICAL_ZENITH.
Definition getEndAstronomicalTwilight (this : t) :=
  getSunsetOffsetByDegrees this ASTRONOMICAL_ZENITH.

Definition getTimeOffset (time : option ZonedDateTime) (offset : number)
  : outcome (option ZonedDateTime) :=
  match time with
  | None => Ret None
  | Some time =>
      if (offset === Long_MIN_VALUE)%num || Number.isNaN offset then Ret None
      else r <- add_milliseconds time (Math.trunc offset) ;; Ret (Some r)
  end.

Definition getTemporalHour (startOfday endOfDay : option ZonedDateTime) : number :=
  match startOfday, endOfDay with
  | Some startOfday, Some endOfDay =>
      let delta := epochMilliseconds endOfDay - epochMilliseconds startOfday in
      Math.floor (Number.of_Z delta / lit 12)%num
  | _, _ => Long_MIN_VALUE
  end.

Definition getSunTransit (startOfDay endOfDay : option ZonedDateTime)
  : outcome (option ZonedDateTime) :=
  let temporalHour := getTemporalHour startOfDay endOfDay in
  getTimeOffset startOfDay (temporalHour * lit 6)%num.

(** The two methods called without arguments: the bounds default to the
    sea-level sunrise and sunset. *)
Definition getTemporalHour_default (this : t) : outcome number :=
  startOfday <- getSeaLevelSunrise this ;;
  endOfDay <- getSeaLevelSunset this ;;
  Ret (getTemporalHour startOfday endOfDay).

Definition getSunTransit_default (this : t) : outcome (option ZonedDateTime) :=
  startOfDay <- getSeaLevelSunrise this ;;
  endOfDay <- getSeaLevelSunset this ;;
  getSunTransit startOfDay endOfDay.

(** *** The solar-dip searches *)

Record dip_state : Type := mkDip {
  degrees : Big.t;
  offsetByDegrees : option ZonedDateTime
}.

Definition step_degrees (minutes : number) (incrementor degrees : Big.t) : Big.t :=
  if (minutes >? lit 0)%num then Big.add degrees incrementor
  else Big.sub degrees incrementor.

Definition sunrise_incrementor : Big.t := (1 # 10000)%Q.
Definition sunset_incrementor : Big.t := (1 # 1000)%Q.

Definition sunrise_dip_cond (minutes : number) (offsetByTime : option ZonedDateTime)
    (s : dip_state) : bool :=
  match offsetByDegrees s with
  | None => true
  | Some _ =>
      ((minutes <? lit 0)%num && before (offsetByDegrees s) offsetByTime)
      || ((minutes >? lit 0)%num && after (offsetByDegrees s) offsetByTime)
  end.

Definition sunrise_dip_body (this : t) (minutes : number) (s : dip_state)
  : outcome dip_state :=
  let degrees := step_degrees minutes sunrise_incrementor (degrees s) in
  offsetByDegrees <-
    getSunriseOffsetByDegrees this (GEOMETRIC_ZENITH + Big.toNumber degrees)%num ;;
  Ret (mkDip degrees offsetByDegrees).

Definition getSunriseSolarDipFromOffset (fuel : nat) (this : t) (minutes : number)
  : run (option number) :=
  if Number.isNaN minutes then Some (Ret None) else
  offsetByDegrees <~ Some (getSeaLevelSunrise this) ;;
  seaLevelSunrise <~ Some (getSeaLevelSunrise this) ;;
  offsetByTime <~ Some (getTimeOffset seaLevelSunrise (- (minutes * MINUTE_MILLIS))%num) ;;
  final <~ while_loop fuel (sunrise_dip_cond minutes offsetByTime)
             (sunrise_dip_body this minutes) (mkDip Big.zero offsetByDegrees) ;;
  Some (Ret (Some (Big.toNumber (degrees final)))).

Definition sunset_dip_cond (minutes : number) (offsetByTime : option ZonedDateTime)
    (s : dip_state) : bool :=
  match offsetByDegrees s with
  | None => true
  | Some _ =>
      ((minutes >? lit 0)%num && before (offsetByDegrees s) offsetByTime)
      || ((minutes <? lit 0)%num && after (offsetByDegrees s) offsetByTime)
  end.

Definition sunset_dip_body (this : t) (minutes : number) (s : dip_state)
  : outcome dip_state :=
  let degrees := step_degrees minutes sunset_incrementor (degrees s) in
  offsetByDegrees <-
    getSunsetOffsetByDegrees this (GEOMETRIC_ZENITH + Big.toNumber degrees)%num ;;
  Ret (mkDip degrees offsetByDegrees).

Definition getSunsetSolarDipFromOffset (fuel : nat) (this : t) (minutes : number)
  : run (option number) :=
  if Number.isNaN minutes then Some (Ret None) else
  offsetByDegrees <~ Some (getSeaLevelSunset this) ;;
  seaLevelSunset <~ Some (getSeaLevelSunset this) ;;
  offsetByTime <~ Some (getTimeOffset seaLevelSunset (minutes * MINUTE_MILLIS)%num) ;;
  final <~ while_loop fuel (sunset_dip_cond minutes offsetByTime)
             (sunset_dip_body this minutes) (mkDip Big.zero offsetByDegrees) ;;
  Some (Ret (Some (Big.toNumber (degrees final)))).

(** *** [setDate] *)

(** The values a caller can hand to [setDate] at run time: the four shapes
    of its signature, and others. *)
Inductive jsvalue : Type :=
| JPlainDate (d : PlainDate)
| JDate (getTime : number)
| JString (s : string)
| JNumber (n : number)
| JUndefined
| JNull
| JBoolean (b : bool)
| JZonedDateTime (z : ZonedDateTime).

Definition supported (v : jsvalue) : bool :=
  match v with
  | JPlainDate _ | JDate _ | JString _ | JNumber _ => true
  | _ => false
  end.

Section SetDate.

(** [Temporal.PlainDate.from] on a string: the parser of Temporal. *)
Variable PlainDate_from : string -> outcome PlainDate.

Definition setDate (this : t) (date : jsvalue) : outcome t :=
  match date with
  | JPlainDate d =>
      Ret (make d (geoLocation this) (astronomicalCalculator this))
  | JDate getTime =>
      d <- plainDate_of_epochMilliseconds getTime ;;
      Ret (make d (geoLocation this) (astronomicalCalculator this))
  | JString s =>
      d <- PlainDate_from s ;;
      Ret (make d (geoLocation this) (astronomicalCalculator this))
  | JNumber n =>
      d <- plainDate_of_epochMilliseconds n ;;
      Ret (make d (geoLocation this) (astronomicalCalculator this))
  | _ => Ret this
  end.

End SetDate.

End AstronomicalCalendar.

Import Temporal AstronomicalCalendar.

(** ** What the properties are stated with *)

(** The time of day of a fractional hour, cut to whole milliseconds, and the
    clock fields of a number of milliseconds. *)
Definition time_of_day_ms (q : Q) : Z := Qfloor (q * inject_Z 3600000).

Definition clock_fields (T : Z) : PlainTime :=
  mkPlainTime (T / 3600000) ((T / 60000) mod 60) ((T / 1000) mod 60) (T mod 1000).

(** The hour offset [getDateFromTime] derives from the longitude, and the day
    it moves the date by. *)
Definition localOffsetHours (this : AstronomicalCalendar.t) : number :=
  Math.trunc (GeoLocation.getLongitude (getGeoLocation this) / lit 15)%num.

Definition day_correction (this : AstronomicalCalendar.t) (hours : Z) (isSunrise : bool) : Z :=
  if isSunrise && (localOffsetHours this + lit hours >? lit 18)%num then -1
  else if negb isSunrise && (localOffsetHours this + lit hours <? lit 6)%num then 1
  else 0.


(** Modelled from the spec's words: "let localOffsetHours = floor(longitude /
    15); if computing a sunrise and localOffsetHours + hour > 18, subtract one
    day from the date before attaching the time; if computing a sunset and
    localOffsetHours + hour < 6, add one day". *)
Definition localOffsetHours_spec (this : AstronomicalCalendar.t) : number :=
  Math.floor (GeoLocation.getLongitude (getGeoLocation this) / lit 15)%num.

Definition day_correction_spec (this : AstronomicalCalendar.t) (hours : Z)
    (isSunrise : bool) : Z :=
  if isSunrise && (localOffsetHours_spec this + lit hours >? lit 18)%num then -1
  else if negb isSunrise && (localOffsetHours_spec this + lit hours <? lit 6)%num then 1
  else 0.

Definition dateFromTime_spec (this : AstronomicalCalendar.t) (q : Q) (isSunrise : bool)
  : ZonedDateTime :=
  withTimeZone
    (toZonedDateTimeUTC
       (add_days (getAdjustedDate this) (day_correction_spec this (Qfloor q) isSunrise))
       (clock_fields (time_of_day_ms q)))
    (GeoLocation.getTimeZone (geoLocation this)).

(** Modelled from the spec's words: [sunTransit(a, b)] is "the exact midpoint
    of a and b". *)
Definition sunTransit_is_exact_midpoint (a b : ZonedDateTime) : Prop :=
  exists t : ZonedDateTime,
    getSunTransit (Some a) (Some b) = Ret (Some t)
    /\ 2 * epochMilliseconds t = epochMilliseconds a + epochMilliseconds b.

(** *** What the calculator answers *)

Definition absent_or_within_day (result : number) : Prop :=
  result = NaN \/ exists t : Q, result = Fin t /\ (0 <= t < 24)%Q.

Definition wrapped_into_day (processedTime result : number) : Prop :=
  match processedTime with
  | NaN => result = NaN
  | Fin p =>
      exists (t : Q) (k : Z),
        result = Fin t /\ (0 <= t < 24)%Q /\ (t == p + 24 * inject_Z k)%Q
  end.

Definition absent_when_unreachable (cosLocalHourAngle result : number) : Prop :=
  match cosLocalHourAngle with
  | NaN => result = NaN
  | Fin c => if Math.within_unit c then True else result = NaN
  end.

(** *** The dip searches *)

(** The state after [n] rounds of a loop body. *)
Fixpoint iterate_body {S : Type} (n : nat) (body : S -> outcome S) (s : S) : outcome S :=
  match n with
  | O => Ret s
  | Datatypes.S n' => bind (body s) (iterate_body n' body)
  end.

Definition dip_direction (minutes : number) : Q :=
  if (minutes >? lit 0)%num then 1%Q else (-1)%Q.

(** A calculator whose times move with the zenith, six minutes a degree. *)
Definition linear_calculator : AstronomicalCalculator.t :=
  AstronomicalCalculator.make "linear"
    (fun _ _ zenith _ => (lit 6 - (zenith - lit 90) / lit 10)%num)
    (fun _ _ zenith _ => (lit 18 + (zenith - lit 90) / lit 10)%num).

Definition greenwich : AstronomicalCalendar.t :=
  AstronomicalCalendar.make (PlainDate_of 2020 3 20)
    (GeoLocation.make (lit 0) (lit 0) (lit 0) "UTC" GeoLocation.AdjustNone)
    linear_calculator.

(** What a dip search that answers [d] with [fuel] rounds at hand has done. *)
Definition dip_search_exit (body : dip_state -> outcome dip_state)
    (cond : dip_state -> bool) (minutes : number) (incrementor : Q)
    (start : option ZonedDateTime) (fuel : nat) (d : number) : Prop :=
  exists (n : nat) (final : dip_state),
    (n < fuel)%nat
    /\ iterate_body n body (mkDip Big.zero start) = Ret final
    /\ d = Fin (degrees final)
    /\ (degrees final == dip_direction minutes * inject_Z (Z.of_nat n) * incrementor)%Q
    /\ cond final = false
    /\ forall j : nat, (j < n)%nat ->
         exists sj : dip_state,
           iterate_body j body (mkDip Big.zero start) = Ret sj /\ cond sj = true.

(** *** The comparators *)

(** A comparator answers whole numbers that order its arguments: equal to
    itself, antisymmetric, transitive. *)
Definition consistent_comparator {A : Type} (cmp : A -> A -> number) : Prop :=
  exists f : A -> A -> Z,
    (forall a b, cmp a b = lit (f a b))
    /\ (forall a, f a a = 0)
    /\ (forall a b, f b a = - f a b)
    /\ (forall a b c, f a b <= 0 -> f b c <= 0 -> f a c <= 0).

Definition three_valued {A : Type} (cmp : A -> A -> number) : Prop :=
  forall a b, cmp a b = lit (-1) \/ cmp a b = lit 0 \/ cmp a b = lit 1.

(** The order of two rationals as [IntegerUtils.compare] answers it. *)
Definition Qsign_compare (x y : Q) : Z :=
  match Qcompare x y with
  | Eq => 0
  | Lt => -1
  | Gt => 1
  end.

(** [StringUtils.compareTo], by recursion on the two strings. *)
Fixpoint compareTo_rec (string1 string2 : string) : Z :=
  match string1, string2 with
  | String c1 rest1, String c2 rest2 =>
      if Ascii.eqb c1 c2 then compareTo_rec rest1 rest2
      else Z.of_nat (nat_of_ascii c1) - Z.of_nat (nat_of_ascii c2)
  | _, _ => Z.of_nat (String.length string1) - Z.of_nat (String.length string2)
  end.

Definition duration_value (z : Zman.t) : Q :=
  match Zman.duration z with
  | Some (Fin d) => if Qeq_bool d 0 then 0%Q else d
  | _ => 0%Q
  end.

(** *** The fixture of [tests/AstronomicalCalendar.test.ts]

    Denver, 1636 m, on 2020-06-05.  The test runs the NOAA calculator, which
    is not among the sources at hand; [fixture_calculator] answers the four
    times of day the test pins down (UTC, in hours), whatever the zenith. *)
Definition denver_location : GeoLocation.t :=
  GeoLocation.make (dec 3973915 100000) (dec (-1049847) 10000) (lit 1636)
    "America/Denver" GeoLocation.AdjustNone.

Definition fixture_calculator : AstronomicalCalculator.t :=
  AstronomicalCalculator.make "fixture"
    (fun _ _ _ adjustForElevation =>
       if adjustForElevation then Fin (41070501 # 3600000) else Fin (41546007 # 3600000))
    (fun _ _ _ adjustForElevation =>
       if adjustForElevation then Fin (9177848 # 3600000) else Fin (8701588 # 3600000)).

Definition denver : AstronomicalCalendar.t :=
  AstronomicalCalendar.make (PlainDate_of 2020 6 5) denver_location fixture_calculator.

(** A calculator for which no event occurs, as on a polar day, and a calendar
    that holds it. *)
Definition no_event_calculator : AstronomicalCalculator.t :=
  AstronomicalCalculator.make "no event" (fun _ _ _ _ => NaN) (fun _ _ _ _ => NaN).

Definition polar_location : GeoLocation.t :=
  GeoLocation.make (lit 89) (lit 0) (lit 0) "UTC" GeoLocation.AdjustNone.

Definition polar : AstronomicalCalendar.t :=
  AstronomicalCalendar.make (PlainDate_of 2020 6 21) polar_location no_event_calculator.

(** *** Running the almanac calculator

    [series_math] stands in for the [Math] object so that the calculator can
    be run: sine and cosine by their series, the inverse functions by
    bisection, in fixed point with 64 binary places.  The properties of the
    calculator below hold for every [MathLibrary]; this one only serves to
    evaluate it at given inputs. *)

Module SeriesMath.

(** Fixed-point numbers: an integer [z] stands for [z / 2^64]. *)
Definition places : Z := 64.
Definition of_Q (x : Q) : Z := Qfloor (x * inject_Z (2 ^ places)).
Definition to_Q (z : Z) : Q := z # (2 ^ 64).
Definition mul (a b : Z) : Z := Z.shiftr (a * b) places.

Definition pi : Z := of_Q (884279719003555 # 281474976710656).

(** [n] more terms of a sine or cosine series: [term] is the last one added,
    of degree [k]. *)
Fixpoint series (n : nat) (k : Z) (term acc x2 : Z) : Z :=
  match n with
  | O => acc
  | S n' =>
      let term' := - mul term x2 / ((k + 1) * (k + 2)) in
      series n' (k + 2) term' (acc + term') x2
  end.

Definition sin_series (x : Z) : Z := series 16 1 x x (mul x x).
Definition cos_series (x : Z) : Z := series 16 0 (2 ^ places) (2 ^ places) (mul x x).

(** The argument brought into [-pi, pi]. *)
Definition reduce (x : Z) : Z := x - 2 * pi * ((x + pi) / (2 * pi)).

Definition sin (x : Q) : Q := to_Q (sin_series (reduce (of_Q x))).
Definition cos (x : Q) : Q := to_Q (cos_series (reduce (of_Q x))).
Definition tan (x : Q) : Q :=
  let y := reduce (of_Q x) in (inject_Z (sin_series y) / inject_Z (cos_series y))%Q.

(** The zero of an increasing [f] between [lo] and [hi], by [n] halvings. *)
Fixpoint bisect (n : nat) (f : Z -> Z) (lo hi : Z) : Z :=
  match n with
  | O => Z.shiftr (lo + hi) 1
  | S n' =>
      let mid := Z.shiftr (lo + hi) 1 in
      if f mid <? 0 then bisect n' f mid hi else bisect n' f lo mid
  end.

Definition acos (x : Q) : Q :=
  let x := of_Q x in to_Q (bisect 66 (fun y => x - cos_series y) 0 pi).
Definition asin (x : Q) : Q := (to_Q pi / 2 - acos x)%Q.
Definition atan (x : Q) : Q :=
  to_Q (bisect 66
          (fun y => Qfloor (inject_Z (sin_series y) - x * inject_Z (cos_series y))%Q)
          (- Z.shiftr pi 1) (Z.shiftr pi 1)).

End SeriesMath.

Definition series_math : MathLibrary :=
  Build_MathLibrary SeriesMath.sin SeriesMath.cos SeriesMath.tan
    SeriesMath.asin SeriesMath.acos SeriesMath.atan.


(** Modelled from the spec: [adjustZenith] of [AstronomicalCalculator] "adds
    atmospheric refraction and solar-disk-radius constants (fixed, about 5/6
    degree combined) plus an elevation dip term; elevation dip grows with the
    observer's height above sea level and must be zero when elevation is
    zero".  The constants are 34 and 16 arc minutes, the dip is the angle to
    the horizon of a sphere of radius 6356.9 km, and, as the documentation of
    [GEOMETRIC_ZENITH] says, only the zenith of 90 degrees is adjusted. *)
Definition adjustZenith_model {M : MathLibrary} (zenith elevation : number) : number :=
  if (zenith === lit 90)%num then
    (zenith
     + (dec 16 60 + dec 34 60
        + MathUtils.radiansToDegrees
            (Math.acos (dec 63569 10 / (dec 63569 10 + (elevation / lit 1000))))))%num
  else zenith.

Definition almanac_calculator : AstronomicalCalculator.t :=
  @SunTimesCalculator.calculator series_math (@adjustZenith_model series_math).

(** Wrangel Island, which the 180th meridian crosses, at 1000 m: once with the
    longitude written -180, in January, and once written 180, in November. *)
Definition wrangel_west : AstronomicalCalendar.t :=
  AstronomicalCalendar.make (PlainDate_of 2020 1 22)
    (GeoLocation.make (dec 712 10) (lit (-180)) (lit 1000) "Etc/GMT+12"
       GeoLocation.AdjustNone)
    almanac_calculator.

Definition wrangel_east : AstronomicalCalendar.t :=
  AstronomicalCalendar.make (PlainDate_of 2020 11 19)
    (GeoLocation.make (dec 712 10) (lit 180) (lit 1000) "Etc/GMT-12"
       GeoLocation.AdjustNone)
    almanac_calculator.

(** The fixture of the tests with the almanac calculator. *)
Definition denver_almanac : AstronomicalCalendar.t :=
  setAstronomicalCalculator denver almanac_calculator.

(** *** What the further properties are stated with *)

(** The calculator of a calendar answers [NaN] or a time of day, at every
    zenith. *)
Definition answers_times_of_day (this : AstronomicalCalendar.t) : Prop :=
  forall (zenith : number) (adjust : bool),
    absent_or_within_day
      (AstronomicalCalculator.getUTCSunrise (getAstronomicalCalculator this)
         (getAdjustedDate this) (getGeoLocation this) zenith adjust)
    /\ absent_or_within_day
         (AstronomicalCalculator.getUTCSunset (getAstronomicalCalculator this)
            (getAdjustedDate this) (getGeoLocation this) zenith adjust).

(** An event is [null], or shown in the zone [tz] and within the [days] UTC
    days that start with the day [first]. *)
Definition null_or_dated (first days : Z) (tz : string)
    (event : outcome (option ZonedDateTime)) : Prop :=
  event = Ret None
  \/ exists t : ZonedDateTime,
       event = Ret (Some t)
       /\ first * MS_PER_DAY <= epochMilliseconds t < (first + days) * MS_PER_DAY
       /\ timeZone t = tz.

(** What a dip search has found when it answers [d] after [n] rounds: the
    last candidate [c], which is the sea-level event when no round was run
    and the event at [90 + d] degrees otherwise. *)
Definition dip_candidate (offsetBy : number -> outcome (option ZonedDateTime))
    (seaLevel : ZonedDateTime) (n : nat) (d : number) (c : ZonedDateTime) : Prop :=
  match n with
  | O => c = seaLevel
  | S _ => offsetBy (GEOMETRIC_ZENITH + d)%num = Ret (Some c)
  end.

(** ** Further sources

    [padZeros] of [polyfills/Utils.ts], and of the Hebrew calendar the
    classes that stand on their own: [YomiCalculator] and the numbers of
    [HebrewDateFormatter].  In the sources at hand the two classes are in
    [unnamed/part_000]. *)

(** *** [padZeros] of [polyfills/Utils.ts] *)

Module JSString.

Fixpoint repeat_string (s : string) (count : nat) : string :=
  match count with
  | O => EmptyString
  | S count' => (s ++ repeat_string s count')%string
  end.

(** [s.repeat(count)]: a negative count is refused.  The limit an engine
    puts on the length of a string is left out. *)
Definition repeat (s : string) (count : Z) : outcome string :=
  if count <? 0 then Throw RangeError else Ret (repeat_string s (Z.to_nat count)).

(** [s.slice(start)]: a negative [start] counts from the end. *)
Definition slice (s : string) (start : Z) : string :=
  let len := Z.of_nat (String.length s) in
  let from := if start <? 0 then Z.max (len + start) 0 else Z.min start len in
  String.substring (Z.to_nat from) (Z.to_nat (len - from)) s.

Definition digit_char (d : Z) : ascii := ascii_of_nat (48 + Z.to_nat d).

(** The decimal digits of a whole number that is not negative. *)
Equations? digits (n : Z) : string by wf (Z.to_nat (Z.log2 n)) lt :=
  digits n with SunTimesCalculator.inspect (n <? 10) := {
    | exist _ true _ => String (digit_char n) EmptyString;
    | exist _ false H => (digits (n / 10) ++ String (digit_char (n mod 10)) EmptyString)%string }.
Proof.
  apply Z.ltb_ge in H.
  assert (A : n / 10 <= Z.shiftr n 3).
  { rewrite Z.shiftr_div_pow2 by lia. change (2 ^ 3) with 8.
    apply Z.div_le_compat_l; lia. }
  assert (B : Z.log2 (Z.shiftr n 3) = Z.log2 n - 3).
  { rewrite Z.log2_shiftr by lia.
    assert (3 <= Z.log2 n) by (apply Z.log2_le_pow2; [lia | change (2 ^ 3) with 8; lia]).
    lia. }
  pose proof (Z.log2_le_mono _ _ A) as C.
  pose proof (Z.log2_nonneg (n / 10)).
  lia.
Qed.

(** [n.toString()] on a whole number or [NaN].  The exponent notation that
    JavaScript turns to from 10^21 on is left out, and so are the digits of a
    fraction. *)
Definition toString (a : number) : string :=
  match a with
  | NaN => "NaN"
  | Fin q =>
      let z := Qfloor q in
      if z <? 0 then String "-" (digits (- z)) else digits z
  end.

End JSString.

(** [Math.pow(10, places)] for a whole number of places. *)
Definition pow10 (places : Z) : number := Fin (Qpower (inject_Z 10) places).

Definition padZeros (num : number) (places : Z) : outcome string :=
  let int := Math.trunc num in
  if (int >=? pow10 places)%num then Ret (JSString.toString int)
  else
    zeros <- JSString.repeat "0" places ;;
    Ret (JSString.slice (zeros ++ JSString.toString int) (- places)).

(** *** [hebrewcalendar/YomiCalculator.ts]

    [IllegalArgumentException] is of [polyfills/errors], [Daf] of
    [hebrewcalendar/Daf.ts] and the month numbers of [Calendar] in
    [polyfills/Utils.ts].  The calendar [getDafYomiBavli] is given is read for
    its date only, so the model takes the date. *)

(** [a % b] on two numbers: the remainder has the sign of [a]. *)
Definition Number_rem (a b : number) : number :=
  match a, b with
  | Fin x, Fin y =>
      if Qeq_bool y 0 then NaN else Fin (x - y * inject_Z (Math.Qtrunc (x / y)))%Q
  | _, _ => NaN
  end.

(** What the Hebrew calendar classes raise. *)
Inductive error : Type :=
| IllegalArgumentException.

Inductive result (A : Type) : Type :=
| Ok (a : A)
| Raise (e : error).
Arguments Ok {A} a.
Arguments Raise {A} e.

Module Calendar.
Definition JUNE : Z := 5.
Definition SEPTEMBER : Z := 8.
End Calendar.

Module Daf.
Record t : Type := make { getMasechtaNumber : number; getDaf : number }.
End Daf.

Module YomiCalculator.

Definition getJulianDay (date : PlainDate) : number :=
  let year := lit (year date) in
  let month := lit (month date) in
  let day := lit (day date) in
  let '(year, month) :=
    if (lit 2 >=? month)%num then ((year - lit 1)%num, (month + lit 12)%num)
    else (year, month) in
  let a := Math.trunc (year / lit 100)%num in
  let b := (lit 2 - a + Math.trunc (a / lit 4))%num in
  Math.trunc
    (Math.floor (dec 36525 100 * (year + lit 4716))
     + Math.floor (dec 306001 10000 * (month + lit 1)) + day + b - dec 15245 10)%num.

Definition dafYomiStartDate : PlainDate := PlainDate_of 1923 (Calendar.SEPTEMBER + 1) 11.
Definition dafYomiJulianStartDay : number := getJulianDay dafYomiStartDate.
Definition shekalimChangeDate : PlainDate := PlainDate_of 1975 (Calendar.JUNE + 1) 24.
Definition shekalimJulianChangeDay : number := getJulianDay shekalimChangeDate.

Definition blattPerMasechta : list Z :=
  [64; 157; 105; 121; 22; 88; 56; 40; 35; 31; 32; 29; 27; 122; 112; 91; 66; 49; 90; 82;
   119; 119; 176; 113; 24; 49; 76; 14; 120; 110; 142; 61; 34; 34; 28; 22; 4; 9; 5; 73].

(** [array[i] = v]: past the end JavaScript would extend the array, which
    does not happen with index 4 here. *)
Fixpoint set_nth (l : list Z) (i : nat) (v : Z) : list Z :=
  match l, i with
  | [], _ => []
  | _ :: rest, O => v :: rest
  | x :: rest, S i' => x :: set_nth rest i' v
  end.

(** The [for ... of] loop over the table, with its [break]. *)
Fixpoint find_daf (table : list Z) (dafNo : number) (total masechta : Z) : option Daf.t :=
  match table with
  | [] => None
  | blattInMasechta :: rest =>
      let masechta := masechta + 1 in
      let total := total + blattInMasechta - 1 in
      if (dafNo <? lit total)%num then
        let blatt := (lit 1 + lit blattInMasechta - (lit total - dafNo))%num in
        let blatt :=
          if masechta =? 36 then (blatt + lit 21)%num
          else if masechta =? 37 then (blatt + lit 24)%num
          else if masechta =? 38 then (blatt + lit 32)%num
          else blatt in
        Some (Daf.make (lit masechta) blatt)
      else find_daf rest dafNo total masechta
  end.

(** [undefined], which the source would return had the loop found no daf,
    is [None]. *)
Definition getDafYomiBavli (date : PlainDate) : result (option Daf.t) :=
  let julianDay := getJulianDay date in
  if epochDay date <? epochDay dafYomiStartDate then Raise IllegalArgumentException else
  let '(cycleNo, dafNo) :=
    if (epochDay shekalimChangeDate <? epochDay date)
       || (epochDay date =? epochDay shekalimChangeDate)
    then ((lit 8 + ((julianDay - shekalimJulianChangeDay) / lit 2711))%num,
          Number_rem (julianDay - shekalimJulianChangeDay)%num (lit 2711))
    else ((lit 1 + ((julianDay - dafYomiJulianStartDay) / lit 2702))%num,
          Number_rem (julianDay - dafYomiJulianStartDay)%num (lit 2702)) in
  let table :=
    if (lit 7 >=? cycleNo)%num then set_nth blattPerMasechta 4 13 else blattPerMasechta in
  Ok (find_daf table dafNo 0 (-1)).

End YomiCalculator.

(** *** [formatHebrewNumber] of [hebrewcalendar/HebrewDateFormatter.ts] *)

(** A string with characters beyond ASCII: its UTF-16 code units. *)
Definition ustring : Type := list Z.

Module UString.

(** [s.substr(start, length)]. *)
Definition substr (s : ustring) (start length : Z) : ustring :=
  let size := Z.of_nat (List.length s) in
  let start := if start <? 0 then Z.max (size + start) 0 else Z.min start size in
  let length := Z.min (Z.max length 0) (size - start) in
  firstn (Z.to_nat length) (skipn (Z.to_nat start) s).

Definition length (s : ustring) : Z := Z.of_nat (List.length s).

End UString.

Module HebrewDateFormatter.

(** The settings [formatHebrewNumber] reads. *)
Record t : Type := make {
  hebrewFormat : bool;
  useLonghebrewYears : bool;
  useGershGershayim : bool;
  useFinalFormLetters : bool
}.

Definition isUseGershGershayim (this : t) : bool := useGershGershayim this.
Definition isUseFinalFormLetters (this : t) : bool := useFinalFormLetters this.

Definition GERESH : ustring := [0x05F3].
Definition GERSHAYIM : ustring := [0x05F4].

Definition ALAFIM : ustring := [0x05D0; 0x05DC; 0x05E4; 0x05D9; 0x05DD].
Definition EFES : ustring := [0x05D0; 0x05E4; 0x05E1].

Definition jHundreds : list ustring :=
  [[]; [0x05E7]; [0x05E8]; [0x05E9]; [0x05EA]; [0x05EA; 0x05E7]; [0x05EA; 0x05E8];
   [0x05EA; 0x05E9]; [0x05EA; 0x05EA]; [0x05EA; 0x05EA; 0x05E7]].
Definition jTens : list ustring :=
  [[]; [0x05D9]; [0x05DB]; [0x05DC]; [0x05DE]; [0x05E0]; [0x05E1]; [0x05E2]; [0x05E4];
   [0x05E6]].
Definition jTenEnds : list ustring :=
  [[]; [0x05D9]; [0x05DA]; [0x05DC]; [0x05DD]; [0x05DF]; [0x05E1]; [0x05E2]; [0x05E3];
   [0x05E5]].
Definition tavTaz : list ustring := [[0x05D8; 0x05D5]; [0x05D8; 0x05D6]].
Definition jOnes : list ustring :=
  [[]; [0x05D0]; [0x05D1]; [0x05D2]; [0x05D3]; [0x05D4]; [0x05D5]; [0x05D6]; [0x05D7];
   [0x05D8]].

(** [array[i]] on an index of the array; the tables above are only read
    inside their bounds. *)
Definition at_index (array : list ustring) (i : Z) : ustring :=
  nth (Z.to_nat i) array [].

(** [formatHebrewNumber] once its argument is known to be a whole number from
    0 to 9999. *)
Definition formatWholeNumber (this : t) (num : Z) : ustring :=
  if num =? 0 then EFES else
  let shortNumber := Z.rem num 1000 in
  let singleDigitNumber :=
    (shortNumber <? 11)
    || ((shortNumber <? 100) && (Z.rem shortNumber 10 =? 0))
    || ((shortNumber <=? 400) && (Z.rem shortNumber 100 =? 0)) in
  let thousands := Z.quot num 1000 in
  let sb : ustring := [] in
  if Z.rem num 1000 =? 0 then
    let sb := sb ++ at_index jOnes thousands in
    let sb := if isUseGershGershayim this then sb ++ GERESH else sb in
    let sb := sb ++ [0x20] in
    let sb := sb ++ ALAFIM in
    sb
  else
  let sb :=
    if useLonghebrewYears this && (1000 <=? num) then
      let sb := sb ++ at_index jOnes thousands in
      let sb := if isUseGershGershayim this then sb ++ GERESH else sb in
      sb ++ [0x20]
    else sb in
  let num := Z.rem num 1000 in
  let hundreds := Z.quot num 100 in
  let sb := sb ++ at_index jHundreds hundreds in
  let num := Z.rem num 100 in
  let sb :=
    if num =? 15 then sb ++ at_index tavTaz 0
    else if num =? 16 then sb ++ at_index tavTaz 1
    else
      let tens := Z.quot num 10 in
      if Z.rem num 10 =? 0 then
        if negb singleDigitNumber then
          if isUseFinalFormLetters this then sb ++ at_index jTenEnds tens
          else sb ++ at_index jTens tens
        else sb ++ at_index jTens tens
      else
        let sb := sb ++ at_index jTens tens in
        let num := Z.rem num 10 in
        sb ++ at_index jOnes num in
  if isUseGershGershayim this then
    if singleDigitNumber then sb ++ GERESH
    else
      UString.substr sb 0 (UString.length sb - 1)
      ++ GERSHAYIM ++ UString.substr sb (UString.length sb - 1) 1
  else sb.

Definition formatHebrewNumber (this : t) (num0 : number) : result ustring :=
  let num := num0 in
  if negb (num === Math.trunc num)%num then Raise IllegalArgumentException
  else if (num <? lit 0)%num then Raise IllegalArgumentException
  else if (num >? lit 9999)%num then Raise IllegalArgumentException
  else
    match num with
    | Fin q => Ok (formatWholeNumber this (Qfloor q))
    | NaN => Raise IllegalArgumentException
    end.

End HebrewDateFormatter.

(** *** What the properties of the further sources are stated with *)

(** The number a string of decimal digits reads as. *)
Fixpoint decimal_value (acc : Z) (s : string) : Z :=
  match s with
  | EmptyString => acc
  | String c rest => decimal_value (acc * 10 + (Z.of_nat (nat_of_ascii c) - 48)) rest
  end.

(** The Julian day of [getJulianDay] in whole numbers. *)
Definition julian_day_of_civil (y m d : Z) : Z :=
  let y' := if m <=? 2 then y - 1 else y in
  let m' := if m <=? 2 then m + 12 else m in
  let a := y' / 100 in
  let b := 2 - a + a / 4 in
  (36525 * (y' + 4716)) / 100 + (306001 * (m' + 1)) / 10000 + d + b - 1525.

(** [f] holds for the [n] whole numbers from [lo] on. *)
Fixpoint all_from (n : nat) (lo : Z) (f : Z -> bool) : bool :=
  match n with
  | O => true
  | S n' => f lo && all_from n' (lo + 1) f
  end.

(** The daf found for a whole [dafNo], as a pair of whole numbers. *)
Definition whole_daf (table : list Z) (dafNo : Z) : option (Z * Z) :=
  match YomiCalculator.find_daf table (lit dafNo) 0 (-1) with
  | Some (Daf.make (Fin (m # 1)) (Fin (b # 1))) => Some (m, b)
  | _ => None
  end.

(** A masechta from 0 to 39 and a daf from 2 to 176. *)
Definition daf_in_range (table : list Z) (dafNo : Z) : bool :=
  match whole_daf table dafNo with
  | Some (m, b) => (0 <=? m) && (m <=? 39) && (2 <=? b) && (b <=? 176)
  | None => false
  end.

(** A daf as one whole number, the masechta first. *)
Definition daf_code (table : list Z) (dafNo : Z) : Z :=
  match whole_daf table dafNo with
  | Some (m, b) => m * 1000 + b
  | None => -1
  end.

(** The table with the 13 blatt of Shekalim of the early cycles. *)
Definition old_table : list Z := YomiCalculator.set_nth YomiCalculator.blattPerMasechta 4 13.

(** Masechta 4, Shekalim, has no daf above 13. *)
Definition shekalim_check (table : list Z) (dafNo : Z) : bool :=
  match whole_daf table dafNo with
  | Some (m, b) => if m =? 4 then b <=? 13 else true
  | None => false
  end.

(** The value of a Hebrew letter, final forms included; 0 for any other
    character. *)
Definition letter_value (c : Z) : Z :=
  match c with
  | 0x05D0 => 1 | 0x05D1 => 2 | 0x05D2 => 3 | 0x05D3 => 4 | 0x05D4 => 5
  | 0x05D5 => 6 | 0x05D6 => 7 | 0x05D7 => 8 | 0x05D8 => 9 | 0x05D9 => 10
  | 0x05DA => 20 | 0x05DB => 20 | 0x05DC => 30 | 0x05DD => 40 | 0x05DE => 40
  | 0x05DF => 50 | 0x05E0 => 50 | 0x05E1 => 60 | 0x05E2 => 70 | 0x05E3 => 80
  | 0x05E4 => 80 | 0x05E5 => 90 | 0x05E6 => 90 | 0x05E7 => 100 | 0x05E8 => 200
  | 0x05E9 => 300 | 0x05EA => 400
  | _ => 0
  end.

(** The Hebrew letters of a string. *)
Definition letters (s : ustring) : ustring := filter (fun c => 0 <? letter_value c) s.

(** The sum of the values of the letters of a string. *)
Definition letter_sum (s : ustring) : Z := fold_right (fun c acc => letter_value c + acc) 0 s.

(** No yod directly followed by he or vav. *)
Fixpoint spares_the_name (s : ustring) : bool :=
  match s with
  | c :: (c' :: _) as rest =>
      negb ((c =? 0x05D9) && ((c' =? 0x05D4) || (c' =? 0x05D5))) && spares_the_name rest
  | _ => true
  end.

(** What the letters of the Hebrew number [n] are to fulfil, as a test. *)
Definition hebrew_number_check (this : HebrewDateFormatter.t) (n : Z) : bool :=
  let s := HebrewDateFormatter.formatWholeNumber this n in
  (if n mod 1000 =? 0
   then letter_sum s =? n / 1000 + letter_sum HebrewDateFormatter.ALAFIM
   else letter_sum s
        =? n mod 1000
           + (if HebrewDateFormatter.useLonghebrewYears this && (1000 <=? n)
              then n / 1000 else 0))
  && spares_the_name (letters s)
  && (HebrewDateFormatter.useGershGershayim this
      || (List.length (letters s) + (if existsb (Z.eqb 0x20) s then 1 else 0)
          =? List.length s)%nat).

(** * Properties *)

Unset Implicit Arguments.

(** ** Rationals *)

Section Rationals.

Lemma Qfloor_unique (x : Q) (z : Z) :
  (inject_Z z <= x)%Q -> (x < inject_Z (z + 1))%Q -> Qfloor x = z.
Proof.
  intros Hlo Hhi. apply Z.le_antisymm.
  - apply Z.lt_succ_r. unfold Z.succ. rewrite Zlt_Qlt.
    eapply Qle_lt_trans; [apply Qfloor_le | exact Hhi].
  - rewrite <- (Qfloor_Z z). apply Qfloor_resp_le. exact Hlo.
Qed.

Lemma Qfloor_bounds (x : Q) :
  (inject_Z (Qfloor x) <= x)%Q /\ (x < inject_Z (Qfloor x) + 1)%Q.
Proof.
  split; [apply Qfloor_le|].
  pose proof (Qlt_floor x) as H. rewrite inject_Z_plus in H. exact H.
Qed.

Lemma Qtrunc_nonneg (x : Q) : (0 <= x)%Q -> Math.Qtrunc x = Qfloor x.
Proof.
  intros H. unfold Math.Qtrunc.
  destruct (Qcompare x 0) eqn:E; try reflexivity.
  apply Qlt_alt in E. lra.
Qed.

Lemma Qtrunc_neg (x : Q) : (x < 0)%Q -> Math.Qtrunc x = Qceiling x.
Proof.
  intros H. unfold Math.Qtrunc.
  destruct (Qcompare x 0) eqn:E; try reflexivity.
  - apply Qeq_alt in E. lra.
  - apply Qgt_alt in E. lra.
Qed.

Lemma Qtrunc_Z (z : Z) : Math.Qtrunc (inject_Z z) = z.
Proof.
  unfold Math.Qtrunc. destruct (Qcompare (inject_Z z) 0); 
    auto using Qfloor_Z, Qceiling_Z.
Qed.

(** Scaling then flooring: the floor of [x] is the floor of [k x] divided by [k]. *)
Lemma Qfloor_scaled (x : Q) (k : Z) :
  0 < k -> Qfloor x = Qfloor (x * inject_Z k) / k.
Proof.
  intros Hk.
  destruct (Qfloor_bounds x) as [Hlo Hhi].
  destruct (Qfloor_bounds (x * inject_Z k)) as [Klo Khi].
  set (f := Qfloor x) in *. set (g := Qfloor (x * inject_Z k)) in *.
  assert (Hk' : (0 < inject_Z k)%Q) by (change 0%Q with (inject_Z 0); rewrite <- Zlt_Qlt; exact Hk).
  assert (A : f * k <= g).
  { apply Z.lt_succ_r. unfold Z.succ. rewrite Zlt_Qlt.
    rewrite inject_Z_plus, inject_Z_mult. change (inject_Z 1) with 1%Q.
    assert (inject_Z f * inject_Z k <= x * inject_Z k)%Q by (apply Qmult_le_compat_r; lra).
    lra. }
  assert (B : g < (f + 1) * k).
  { rewrite Zlt_Qlt. rewrite inject_Z_mult, inject_Z_plus. change (inject_Z 1) with 1%Q.
    assert (x * inject_Z k < (inject_Z f + 1) * inject_Z k)%Q by (apply Qmult_lt_compat_r; lra).
    lra. }
  apply Z.div_unique with (r := g - f * k); lia.
Qed.

Lemma Qfloor_sub_Z (x : Q) (z : Z) : Qfloor (x - inject_Z z) = Qfloor x - z.
Proof.
  destruct (Qfloor_bounds x) as [Hlo Hhi].
  apply Qfloor_unique.
  - unfold Z.sub. rewrite inject_Z_plus, inject_Z_opp. lra.
  - unfold Z.sub. rewrite !inject_Z_plus, inject_Z_opp. change (inject_Z 1) with 1%Q. lra.
Qed.

Lemma Qtrunc_resp_le (x y : Q) : (x <= y)%Q -> Math.Qtrunc x <= Math.Qtrunc y.
Proof.
  intros H. unfold Math.Qtrunc.
  destruct (Qcompare x 0) eqn:Ex; destruct (Qcompare y 0) eqn:Ey;
    try (apply Qfloor_resp_le; exact H); try (apply Qceiling_resp_le; exact H).
  - apply Qeq_alt in Ex. apply Qlt_alt in Ey. lra.
  - apply Qlt_alt in Ex.
    apply Z.le_trans with 0.
    + rewrite <- (Qceiling_Z 0). apply Qceiling_resp_le. apply Qlt_le_weak. exact Ex.
    + rewrite <- (Qfloor_Z 0). apply Qfloor_resp_le. apply Qeq_alt in Ey. rewrite Ey. apply Qle_refl.
  - apply Qlt_alt in Ex.
    apply Z.le_trans with 0.
    + rewrite <- (Qceiling_Z 0). apply Qceiling_resp_le. apply Qlt_le_weak. exact Ex.
    + rewrite <- (Qfloor_Z 0). apply Qfloor_resp_le. apply Qgt_alt in Ey. apply Qlt_le_weak. exact Ey.
  - apply Qgt_alt in Ex. apply Qlt_alt in Ey. lra.
Qed.

End Rationals.

(** ** Examples *)


Example dayOfYear_2020_06_05 :
  Temporal.dayOfYear (Temporal.PlainDate_of 2020 6 5) = 157
  /\ Temporal.epochDay (Temporal.PlainDate_of 2020 6 5) = 18418
  /\ Temporal.civil_from_days 18418 = (2020, 6, 5).
Proof. repeat split; reflexivity. Qed.

(** ** [getDateFromTime] *)

Lemma repeated_truncation (q : Q) :
  (0 <= q)%Q ->
  let T := time_of_day_ms q in
  let h := Qfloor q in
  let c1 := ((q - inject_Z h) * inject_Z 60)%Q in
  let m := Qfloor c1 in
  let c2 := ((c1 - inject_Z m) * inject_Z 60)%Q in
  let s := Qfloor c2 in
  let c3 := (c2 - inject_Z s)%Q in
  let ms := Qfloor (c3 * inject_Z 1000) in
  h = T / 3600000 /\ m = (T / 60000) mod 60 /\ s = (T / 1000) mod 60 /\ ms = T mod 1000
  /\ (0 <= c1)%Q /\ (0 <= c2)%Q /\ (0 <= c3 * inject_Z 1000)%Q.
Proof.
  intros Hq T h c1 m c2 s c3 ms.
  set (T60 := Qfloor (q * inject_Z 60)).
  set (T3600 := Qfloor (q * inject_Z 60 * inject_Z 60)).
  assert (ET : T = Qfloor (q * inject_Z 60 * inject_Z 60 * inject_Z 1000)).
  { unfold T, time_of_day_ms. apply Qfloor_comp. 
    change (inject_Z 3600000) with 3600000%Q. change (inject_Z 60) with 60%Q.
    change (inject_Z 1000) with 1000%Q. ring. }
  assert (E1 : h = T60 / 60) by (apply Qfloor_scaled; lia).
  assert (E2 : T60 = T3600 / 60) by (apply Qfloor_scaled; lia).
  assert (E3 : T3600 = T / 1000) by (rewrite ET; apply Qfloor_scaled; lia).
  assert (Em : m = T60 - 60 * h).
  { unfold m, c1, T60. rewrite <- Qfloor_sub_Z. apply Qfloor_comp.
    rewrite inject_Z_mult. change (inject_Z 60) with 60%Q. ring. }
  assert (Es : s = T3600 - 60 * T60).
  { unfold s, c2, c1. rewrite Em. unfold T3600. rewrite <- Qfloor_sub_Z. apply Qfloor_comp.
    unfold T60.  rewrite inject_Z_mult. unfold Z.sub. rewrite inject_Z_plus, inject_Z_opp.
    rewrite inject_Z_mult. change (inject_Z 60) with 60%Q. ring. }
  assert (Ems : ms = T - 1000 * T3600).
  { unfold ms, c3, c2, c1. rewrite ET, Es, Em. rewrite <- Qfloor_sub_Z. apply Qfloor_comp.
     rewrite inject_Z_mult. unfold Z.sub.
    rewrite !inject_Z_plus, !inject_Z_opp, !inject_Z_mult.
    change (inject_Z 60) with 60%Q. change (inject_Z 1000) with 1000%Q. ring. }
  destruct (Qfloor_bounds q) as [Hlo _]. fold h in Hlo.
  destruct (Qfloor_bounds c1) as [H1 _]. fold m in H1.
  destruct (Qfloor_bounds c2) as [H2 _]. fold s in H2.
  assert (0 <= m).
  { rewrite Em, E1. pose proof (Z.mod_pos_bound T60 60). rewrite Z.mod_eq in H by lia. lia. }
  assert (0 <= s).
  { rewrite Es, E2. pose proof (Z.mod_pos_bound T3600 60). rewrite Z.mod_eq in H0 by lia. lia. }
  assert (F1 : T / 60000 = T60).
  { rewrite E2, E3, Z.div_div by lia. reflexivity. }
  assert (F2 : T / 3600000 = h).
  { rewrite E1, <- F1, Z.div_div by lia. reflexivity. }
  rewrite F1, F2, <- E3, !Z.mod_eq by lia.
  repeat split; try lia.
  - unfold c1. change (inject_Z 60) with 60%Q. lra.
  - unfold c2. change (inject_Z 60) with 60%Q. lra.
  - unfold c3. change (inject_Z 1000) with 1000%Q. lra.
Qed.

Lemma trunc_nonneg (x : Q) : (0 <= x)%Q -> Math.trunc (Fin x) = lit (Qfloor x).
Proof. intros H. unfold Math.trunc, lit. rewrite Qtrunc_nonneg by exact H. reflexivity. Qed.

Lemma toIntegerWithTruncation_lit (z : Z) : toIntegerWithTruncation (lit z) = Ret z.
Proof. unfold toIntegerWithTruncation, lit, Number.of_Z. rewrite Qtrunc_Z. reflexivity. Qed.

Lemma add_days_0 (d : PlainDate) : add_days d 0 = d.
Proof. destruct d. unfold add_days. simpl. rewrite Z.add_0_r. reflexivity. Qed.

Lemma time_of_day_ms_bounds (q : Q) :
  (0 <= q < 24)%Q -> 0 <= time_of_day_ms q < 86400000.
Proof.
  intros [Hlo Hhi]. unfold time_of_day_ms.
  destruct (Qfloor_bounds (q * inject_Z 3600000)) as [A B].
  change (inject_Z 3600000) with 3600000%Q in *.
  split.
  - rewrite <- (Qfloor_Z 0). apply Qfloor_resp_le. change (inject_Z 0) with 0%Q. lra.
  - rewrite Zlt_Qlt. eapply Qle_lt_trans; [exact A|]. change (inject_Z 86400000) with 86400000%Q. lra.
Qed.

Lemma getDateFromTime_fields (this : AstronomicalCalendar.t) (q : Q) (isSunrise : bool) :
  (0 <= q < 24)%Q ->
  getDateFromTime this (Fin q) isSunrise
  = Ret (Some (withTimeZone
                 (toZonedDateTimeUTC
                    (add_days (getAdjustedDate this) (day_correction this (Qfloor q) isSunrise))
                    (clock_fields (time_of_day_ms q)))
                 (GeoLocation.getTimeZone (geoLocation this)))).
Proof.
  intros [Hlo Hhi].
  destruct (repeated_truncation q Hlo) as (Eh & Em & Es & Ems & C1 & C2 & C3).
  pose proof (time_of_day_ms_bounds q (conj Hlo Hhi)) as HT.
  unfold getDateFromTime. cbv zeta. simpl Number.isNaN. cbv iota.
  rewrite (trunc_nonneg q Hlo).
  change (Fin q - lit (Qfloor q))%num with (Fin (q - inject_Z (Qfloor q))).
  change (Fin (q - inject_Z (Qfloor q)) * lit 60)%num
    with (Fin ((q - inject_Z (Qfloor q)) * inject_Z 60)).
  rewrite (trunc_nonneg _ C1).
  set (c1 := ((q - inject_Z (Qfloor q)) * inject_Z 60)%Q) in *.
  change (Fin c1 - lit (Qfloor c1))%num with (Fin (c1 - inject_Z (Qfloor c1))).
  change (Fin (c1 - inject_Z (Qfloor c1)) * lit 60)%num
    with (Fin ((c1 - inject_Z (Qfloor c1)) * inject_Z 60)).
  rewrite (trunc_nonneg _ C2).
  set (c2 := ((c1 - inject_Z (Qfloor c1)) * inject_Z 60)%Q) in *.
  change (Fin c2 - lit (Qfloor c2))%num with (Fin (c2 - inject_Z (Qfloor c2))).
  change (Fin (c2 - inject_Z (Qfloor c2)) * lit 1000)%num
    with (Fin ((c2 - inject_Z (Qfloor c2)) * inject_Z 1000)).
  rewrite (trunc_nonneg _ C3).
  unfold PlainTime_new. rewrite !toIntegerWithTruncation_lit. cbn [bind].
  rewrite Ems, Es, Em, Eh.
  set (T := time_of_day_ms q) in *.
  assert (R : in_range 0 23 (T / 3600000) && in_range 0 59 ((T / 60000) mod 60)
              && in_range 0 59 ((T / 1000) mod 60) && in_range 0 999 (T mod 1000) = true).
  { unfold in_range.
    pose proof (Z.mod_pos_bound (T / 60000) 60).
    pose proof (Z.mod_pos_bound (T / 1000) 60).
    pose proof (Z.mod_pos_bound T 1000).
    assert (0 <= T / 3600000 <= 23).
    { split; [apply Z.div_pos; lia|]. apply Z.lt_succ_r. apply Z.div_lt_upper_bound; lia. }
    repeat (apply andb_true_intro; split); apply Z.leb_le; lia. }
  rewrite R. cbn [bind].
  fold (localOffsetHours this).
  unfold day_correction, clock_fields.
  destruct (isSunrise && (localOffsetHours this + lit (T / 3600000) >? lit 18)%num).
  - reflexivity.
  - destruct (negb isSunrise && (localOffsetHours this + lit (T / 3600000) <? lit 6)%num).
    + reflexivity.
    + rewrite add_days_0. reflexivity.
Qed.

(** C1, as the code has it.  For a fractional hour [q] in [0, 24),
    [getDateFromTime] answers the instant whose clock fields are the hour,
    minute, second and millisecond of [q] cut to whole milliseconds (repeated
    truncation, no rounding), on the adjusted date moved by [day_correction]:
    one day back for a sunrise with [localOffsetHours + hour > 18], one day
    forward for a sunset with [localOffsetHours + hour < 6], where
    [localOffsetHours] is [longitude / 15] truncated toward zero (not its
    floor). *)
Theorem getDateFromTime_day_boundary (this : AstronomicalCalendar.t) (q : Q)
    (isSunrise : bool) :
  (0 <= q < 24)%Q ->
  let T := time_of_day_ms q in
  getDateFromTime this (Fin q) isSunrise
  = Ret (Some (withTimeZone
                 (toZonedDateTimeUTC
                    (add_days (getAdjustedDate this) (day_correction this (Qfloor q) isSunrise))
                    (mkPlainTime (T / 3600000) ((T / 60000) mod 60) ((T / 1000) mod 60)
                       (T mod 1000)))
                 (GeoLocation.getTimeZone (geoLocation this))))
  /\ T / 3600000 = Qfloor q
  /\ T = T / 3600000 * 3600000 + (T / 60000) mod 60 * 60000 + (T / 1000) mod 60 * 1000
         + T mod 1000
  /\ localOffsetHours this
     = Math.trunc (GeoLocation.getLongitude (geoLocation this) / lit 15)%num
  /\ day_correction this (Qfloor q) isSunrise
     = (if isSunrise && (localOffsetHours this + lit (Qfloor q) >? lit 18)%num then -1
        else if negb isSunrise && (localOffsetHours this + lit (Qfloor q) <? lit 6)%num then 1
        else 0).
Proof.
  intros Hq T. split; [exact (getDateFromTime_fields this q isSunrise Hq)|].
  destruct Hq as [Hlo Hhi].
  destruct (repeated_truncation q Hlo) as (Eh & _).
  repeat split.
  - symmetry. exact Eh.
  - fold T in Eh. clearbody T. clear.
    assert (A : T / 60000 = T / 1000 / 60) by (rewrite Z.div_div by lia; reflexivity).
    assert (B : T / 3600000 = T / 1000 / 60 / 60) by (rewrite !Z.div_div by lia; reflexivity).
    rewrite A, B, !Z.mod_eq by lia. lia.
Qed.

(** The elevation-adjusted sunset of the fixture: 02:32:57.848 UTC, moved to
    the next day. *)
Lemma getDateFromTime_day_boundary_witness :
  getDateFromTime denver (Fin (9177848 # 3600000)) false
  = Ret (Some (mkZonedDateTime (18419 * 86400000 + 9177848) "America/Denver")).
Proof.
  destruct (getDateFromTime_day_boundary denver (9177848 # 3600000) false) as [H _].
  - split; [unfold Qle | unfold Qlt]; simpl; lia.
  - rewrite H. reflexivity.
Defined.

(** C1 as the specification words it fails in Denver (longitude -104.9847)
    for a sunset at 12:30 UTC: [floor(longitude / 15) = -7] asks for the next
    day ([-7 + 12 < 6]), the code truncates to [-6] and keeps the date. *)
Lemma getDateFromTime_floor_counterexample :
  localOffsetHours denver = lit (-6)
  /\ localOffsetHours_spec denver = lit (-7)
  /\ getDateFromTime denver (Fin (25 # 2)) false
     = Ret (Some (mkZonedDateTime (18418 * 86400000 + 45000000) "America/Denver"))
  /\ dateFromTime_spec denver (25 # 2) false
     = mkZonedDateTime (18419 * 86400000 + 45000000) "America/Denver"
  /\ getDateFromTime denver (Fin (25 # 2)) false
     <> Ret (Some (dateFromTime_spec denver (25 # 2) false)).
Proof.
  repeat split; try reflexivity.
  intro H. vm_compute in H. discriminate H.
Qed.

(** ** [getTemporalHour], [getTimeOffset] and [getSunTransit] *)

Lemma floor_of_Z_div (n m : Z) :
  m <> 0 -> Math.floor (Number.of_Z n / lit m)%num = lit (n / m).
Proof.
  intros Hm. unfold Number.div, Number.of_Z, lit, Number.of_Z, Math.floor.
  assert (E : Qeq_bool (inject_Z m) 0 = false).
  { apply not_true_iff_false. intro H. apply Qeq_bool_iff in H.
    unfold Qeq in H. simpl in H. lia. }
  rewrite E. unfold Number.of_Z. rewrite <- Zdiv_Qdiv. reflexivity.
Qed.

Lemma getTemporalHour_some (a b : ZonedDateTime) :
  getTemporalHour (Some a) (Some b)
  = lit ((epochMilliseconds b - epochMilliseconds a) / 12).
Proof. unfold getTemporalHour. apply floor_of_Z_div. lia. Qed.

(** C4.  For two instants [a] before [b], [getTemporalHour] is their
    difference in whole milliseconds divided by 12 with truncation; it is the
    absent value ([Long_MIN_VALUE], which is [NaN]) as soon as a bound is
    [null]. *)
Theorem getTemporalHour_twelfth (a b : ZonedDateTime) :
  epochMilliseconds a < epochMilliseconds b ->
  getTemporalHour (Some a) (Some b)
  = lit ((epochMilliseconds b - epochMilliseconds a) ÷ 12)
  /\ getTemporalHour None (Some b) = Long_MIN_VALUE
  /\ getTemporalHour (Some a) None = Long_MIN_VALUE
  /\ getTemporalHour None None = Long_MIN_VALUE
  /\ Number.isNaN Long_MIN_VALUE = true.
Proof.
  intros Hab. repeat split.
  rewrite getTemporalHour_some, Z.quot_div_nonneg by lia. reflexivity.
Qed.

(** The sea-level day of the fixture: 53 555 581 ms, a temporal hour of
    4 462 965 ms. *)
Lemma getTemporalHour_twelfth_witness :
  getTemporalHour
    (Some (mkZonedDateTime (18418 * 86400000 + 41546007) "America/Denver"))
    (Some (mkZonedDateTime (18419 * 86400000 + 8701588) "America/Denver"))
  = lit 4462965.
Proof.
  refine (proj1 (getTemporalHour_twelfth
                   (mkZonedDateTime (18418 * 86400000 + 41546007) "America/Denver")
                   (mkZonedDateTime (18419 * 86400000 + 8701588) "America/Denver") _)).
  reflexivity.
Defined.

Lemma trunc_lit (z : Z) : Math.trunc (lit z) = lit z.
Proof. unfold Math.trunc, lit, Number.of_Z. rewrite Qtrunc_Z. reflexivity. Qed.

Lemma toIntegerIfIntegral_lit (z : Z) : toIntegerIfIntegral (lit z) = Ret z.
Proof.
  unfold toIntegerIfIntegral, lit, Number.of_Z. rewrite Qfloor_Z.
  assert (E : Qeq_bool (inject_Z z) (inject_Z z) = true) by (apply Qeq_bool_iff; reflexivity).
  rewrite E. reflexivity.
Qed.

Lemma getTimeOffset_finite (t : ZonedDateTime) (q : Q) :
  getTimeOffset (Some t) (Fin q)
  = Ret (Some (mkZonedDateTime (epochMilliseconds t + Math.Qtrunc q) (timeZone t))).
Proof.
  unfold getTimeOffset. cbn [Number.eqb Long_MIN_VALUE Number.isNaN orb].
  change (Math.trunc (Fin q)) with (lit (Math.Qtrunc q)).
  unfold add_milliseconds. rewrite toIntegerIfIntegral_lit. reflexivity.
Qed.

Lemma getTimeOffset_whole (t : ZonedDateTime) (z : Z) :
  getTimeOffset (Some t) (lit z)
  = Ret (Some (mkZonedDateTime (epochMilliseconds t + z) (timeZone t))).
Proof.
  unfold lit, Number.of_Z. rewrite getTimeOffset_finite, Qtrunc_Z. reflexivity.
Qed.

Lemma getSunTransit_some (a b : ZonedDateTime) :
  getSunTransit (Some a) (Some b)
  = Ret (Some (mkZonedDateTime
                 (epochMilliseconds a
                  + 6 * ((epochMilliseconds b - epochMilliseconds a) / 12))
                 (timeZone a))).
Proof.
  unfold getSunTransit. rewrite getTemporalHour_some.
  set (h := (epochMilliseconds b - epochMilliseconds a) / 12).
  change (lit h * lit 6)%num with (Fin (inject_Z h * inject_Z 6)).
  rewrite getTimeOffset_finite. rewrite <- inject_Z_mult, Qtrunc_Z.
  rewrite (Z.mul_comm h 6). reflexivity.
Qed.


(** C5, as the code has it.  For two instants [a] before [b],
    [getSunTransit] is [a] plus six temporal hours; the temporal hour being
    cut to whole milliseconds, this instant is the midpoint of [a] and [b] or
    up to 6 ms (exclusive) before it, and it is the exact midpoint exactly
    when [b - a] is a multiple of 12 ms. *)
Theorem getSunTransit_six_temporal_hours (a b : ZonedDateTime) :
  epochMilliseconds a < epochMilliseconds b ->
  let h := (epochMilliseconds b - epochMilliseconds a) / 12 in
  let transit := epochMilliseconds a + 6 * h in
  getTemporalHour (Some a) (Some b) = lit h
  /\ getSunTransit (Some a) (Some b) = Ret (Some (mkZonedDateTime transit (timeZone a)))
  /\ getSunTransit (Some a) (Some b)
     = getTimeOffset (Some a) (lit 6 * getTemporalHour (Some a) (Some b))%num
  /\ 0 <= epochMilliseconds a + epochMilliseconds b - 2 * transit < 12
  /\ ((epochMilliseconds b - epochMilliseconds a) mod 12 = 0 <->
      sunTransit_is_exact_midpoint a b).
Proof.
  intros Hab h transit.
  unfold sunTransit_is_exact_midpoint.
  rewrite getSunTransit_some, getTemporalHour_some. fold h.
  change (lit 6 * lit h)%num with (Fin (inject_Z 6 * inject_Z h)).
  rewrite getTimeOffset_finite, <- inject_Z_mult, Qtrunc_Z.
  pose proof (Z.mod_pos_bound (epochMilliseconds b - epochMilliseconds a) 12 ltac:(lia)) as Hm.
  pose proof (Z.div_mod (epochMilliseconds b - epochMilliseconds a) 12 ltac:(lia)) as Hd.
  fold h in Hd. subst transit.
  set (r := (epochMilliseconds b - epochMilliseconds a) mod 12) in *.
  clearbody r h.
  repeat split; try lia.
  - intros H0. exists (mkZonedDateTime (epochMilliseconds a + 6 * h) (timeZone a)).
    split; [reflexivity|]. cbn [epochMilliseconds]. lia.
  - intros (t & Ht & Hmid).
    assert (Et : t = mkZonedDateTime (epochMilliseconds a + 6 * h) (timeZone a)) by congruence.
    subst t. change (epochMilliseconds (mkZonedDateTime ?x ?y)) with x in Hmid. lia.
Qed.

Lemma getSunTransit_six_temporal_hours_witness :
  getSunTransit
    (Some (mkZonedDateTime (18418 * 86400000 + 41546007) "America/Denver"))
    (Some (mkZonedDateTime (18419 * 86400000 + 8701588) "America/Denver"))
  = Ret (Some (mkZonedDateTime (18418 * 86400000 + 68323797) "America/Denver")).
Proof.
  refine (proj1 (proj2 (getSunTransit_six_temporal_hours
                   (mkZonedDateTime (18418 * 86400000 + 41546007) "America/Denver")
                   (mkZonedDateTime (18419 * 86400000 + 8701588) "America/Denver") _))).
  reflexivity.
Defined.

(** C5 as the specification words it fails on the fixture: the sea-level day
    lasts 53 555 581 ms, the transit of the test (12:58:43.797 local) is half
    a millisecond before the midpoint. *)
Lemma sunTransit_midpoint_counterexample :
  getSeaLevelSunrise denver
  = Ret (Some (mkZonedDateTime (18418 * 86400000 + 41546007) "America/Denver"))
  /\ getSeaLevelSunset denver
     = Ret (Some (mkZonedDateTime (18419 * 86400000 + 8701588) "America/Denver"))
  /\ getSunTransit_default denver
     = Ret (Some (mkZonedDateTime (18418 * 86400000 + 68323797) "America/Denver"))
  /\ 2 * (18418 * 86400000 + 68323797)
     <> (18418 * 86400000 + 41546007) + (18419 * 86400000 + 8701588)
  /\ ~ sunTransit_is_exact_midpoint
         (mkZonedDateTime (18418 * 86400000 + 41546007) "America/Denver")
         (mkZonedDateTime (18419 * 86400000 + 8701588) "America/Denver").
Proof.
  repeat split; try reflexivity.
  - lia.
  - intros (t & Ht & Hmid). rewrite getSunTransit_some in Ht.
    assert (Et : epochMilliseconds t = 18418 * 86400000 + 68323797) by (injection Ht as <-; reflexivity).
    rewrite Et in Hmid. vm_compute in Hmid. discriminate Hmid.
Qed.

(** C6.  Offsetting by the geometric zenith of 90 degrees is the sunrise,
    respectively the sunset, whatever the date, location and calculator. *)
Theorem offsetByDegrees_90_is_sunrise_and_sunset (this : AstronomicalCalendar.t) :
  getSunriseOffsetByDegrees this (lit 90) = getSunrise this
  /\ getSunsetOffsetByDegrees this (lit 90) = getSunset this.
Proof. split; reflexivity. Qed.

(** ** Absence *)

Lemma getTimeOffset_absent (time : option ZonedDateTime) (offset : number) :
  Number.isNaN offset = true -> getTimeOffset time offset = Ret None.
Proof.
  intros H. unfold getTimeOffset. destruct time; [|reflexivity].
  rewrite H, orb_true_r. reflexivity.
Qed.

Lemma getSunTransit_absent (a b : option ZonedDateTime) :
  a = None \/ b = None -> getSunTransit a b = Ret None.
Proof.
  intros [-> | ->]; unfold getSunTransit.
  - reflexivity.
  - apply getTimeOffset_absent. destruct a; reflexivity.
Qed.

(** C2.  Absence propagates: when the calculator answers [NaN] the sunrise,
    sunset, sea-level and offset-by-degrees methods answer [null];
    [getTemporalHour] answers the absent value when a bound is [null];
    [getSunTransit] answers [null] when one of its default bounds is [null];
    [getTimeOffset] answers [null] for a [null] time or an absent offset, and
    otherwise the time plus the offset in (whole) milliseconds. *)
Theorem absence_propagates (this : AstronomicalCalendar.t) (zenith offset : number)
    (time : option ZonedDateTime) :
  (Number.isNaN (getUTCSunrise this GEOMETRIC_ZENITH) = true -> getSunrise this = Ret None)
  /\ (Number.isNaN (getUTCSunset this GEOMETRIC_ZENITH) = true -> getSunset this = Ret None)
  /\ (Number.isNaN (getUTCSeaLevelSunrise this GEOMETRIC_ZENITH) = true ->
      getSeaLevelSunrise this = Ret None)
  /\ (Number.isNaN (getUTCSeaLevelSunset this GEOMETRIC_ZENITH) = true ->
      getSeaLevelSunset this = Ret None)
  /\ (Number.isNaN (getUTCSunrise this zenith) = true ->
      getSunriseOffsetByDegrees this zenith = Ret None)
  /\ (Number.isNaN (getUTCSunset this zenith) = true ->
      getSunsetOffsetByDegrees this zenith = Ret None)
  /\ getTemporalHour None time = Long_MIN_VALUE
  /\ getTemporalHour time None = Long_MIN_VALUE
  /\ Number.isNaN Long_MIN_VALUE = true
  /\ (forall a b : option ZonedDateTime,
        getSeaLevelSunrise this = Ret a -> getSeaLevelSunset this = Ret b ->
        a = None \/ b = None -> getSunTransit_default this = Ret None)
  /\ getTimeOffset None offset = Ret None
  /\ (Number.isNaN offset = true -> getTimeOffset time offset = Ret None)
  /\ (forall (t : ZonedDateTime) (q : Q),
        getTimeOffset (Some t) (Fin q)
        = Ret (Some (mkZonedDateTime (epochMilliseconds t + Math.Qtrunc q) (timeZone t))))
  /\ (forall (t : ZonedDateTime) (ms : Z),
        getTimeOffset (Some t) (lit ms)
        = Ret (Some (mkZonedDateTime (epochMilliseconds t + ms) (timeZone t)))).
Proof.
  repeat match goal with |- _ /\ _ => split end;
    try (unfold getSunrise, getSunset, getSeaLevelSunrise, getSeaLevelSunset,
           getSunriseOffsetByDegrees, getSunsetOffsetByDegrees;
         cbv zeta; intros ->; reflexivity).
  - reflexivity.
  - destruct time; reflexivity.
  - reflexivity.
  - intros a b Ha Hb Hab. unfold getSunTransit_default. rewrite Ha, Hb. cbn [bind].
    apply getSunTransit_absent. exact Hab.
  - reflexivity.
  - apply getTimeOffset_absent.
  - apply getTimeOffset_finite.
  - apply getTimeOffset_whole.
Qed.

Lemma absence_propagates_witness :
  getSunrise polar = Ret None /\ getSunset polar = Ret None
  /\ getSeaLevelSunrise polar = Ret None /\ getSeaLevelSunset polar = Ret None
  /\ getSunriseOffsetByDegrees polar CIVIL_ZENITH = Ret None
  /\ getSunsetOffsetByDegrees polar CIVIL_ZENITH = Ret None
  /\ getSunTransit_default polar = Ret None
  /\ getTimeOffset (Some (mkZonedDateTime 0 "UTC")) NaN = Ret None.
Proof.
  destruct (absence_propagates polar CIVIL_ZENITH NaN (Some (mkZonedDateTime 0 "UTC")))
    as (H1 & H2 & H3 & H4 & H5 & H6 & _ & _ & _ & H10 & _ & H12 & _).
  exact (conj (H1 eq_refl) (conj (H2 eq_refl) (conj (H3 eq_refl) (conj (H4 eq_refl)
           (conj (H5 eq_refl) (conj (H6 eq_refl)
              (conj (H10 None None eq_refl eq_refl (or_introl eq_refl))
                 (H12 eq_refl)))))))).
Defined.

(** ** [SunTimesCalculator] *)

Lemma ltb_true (x y : Q) : (Fin x <? Fin y)%num = true <-> (x < y)%Q.
Proof.
  unfold Number.ltb. rewrite Qlt_alt. destruct (Qcompare x y); split; congruence.
Qed.

Lemma ltb_false (x y : Q) : (Fin x <? Fin y)%num = false <-> (y <= x)%Q.
Proof.
  rewrite <- not_true_iff_false, ltb_true. split; [apply Qnot_lt_le | apply Qle_not_lt].
Qed.

Lemma geb_true (x y : Q) : (Fin x >=? Fin y)%num = true <-> (y <= x)%Q.
Proof.
  unfold Number.geb. destruct (Qcompare x y) eqn:E; split; intros H; try reflexivity.
  - apply Qeq_alt in E. lra.
  - discriminate.
  - apply Qlt_alt in E. lra.
  - apply Qgt_alt in E. lra.
Qed.

Lemma geb_false (x y : Q) : (Fin x >=? Fin y)%num = false <-> (x < y)%Q.
Proof.
  rewrite <- not_true_iff_false, geb_true. split; [apply Qnot_le_lt | apply Qlt_not_le].
Qed.

Lemma add24_while_negative_spec (p : number) :
  match p with
  | NaN => SunTimesCalculator.add24_while_negative p = NaN
  | Fin q =>
      exists (t : Q) (k : Z),
        SunTimesCalculator.add24_while_negative p = Fin t /\ (0 <= t)%Q /\ 0 <= k
        /\ (t == q + 24 * inject_Z k)%Q /\ ((q < 24)%Q -> (t < 24)%Q)
  end.
Proof.
  funelim (SunTimesCalculator.add24_while_negative p).
  - destruct processedTime as [|q]; [discriminate|].
    pose proof (proj1 (ltb_true q 0) Hlt) as Hq.
    change (Fin q + lit 24)%num with (Fin (q + 24)) in *.
    destruct H as (t & k & E & Ht & Hk & Hc & Hb).
    exists t, (k + 1). rewrite E. repeat split; try assumption; try lia.
    + rewrite Hc, inject_Z_plus. change (inject_Z 1) with 1%Q. ring.
    + intros _. apply Hb. lra.
  - destruct processedTime as [|q]; [reflexivity|].
    pose proof (proj1 (ltb_false q 0) e) as Hq.
    exists q, 0. repeat split; try assumption; try lia.
    + change (inject_Z 0) with 0%Q. ring.
    + tauto.
Qed.

Lemma sub24_while_at_least_24_spec (p : number) :
  match p with
  | NaN => SunTimesCalculator.sub24_while_at_least_24 p = NaN
  | Fin q =>
      exists (t : Q) (k : Z),
        SunTimesCalculator.sub24_while_at_least_24 p = Fin t /\ (t < 24)%Q /\ 0 <= k
        /\ (t == q - 24 * inject_Z k)%Q /\ ((0 <= q)%Q -> (0 <= t)%Q)
  end.
Proof.
  funelim (SunTimesCalculator.sub24_while_at_least_24 p).
  - destruct processedTime as [|q]; [discriminate|].
    pose proof (proj1 (geb_true q 24) Hge) as Hq.
    change (Fin q - lit 24)%num with (Fin (q - 24)) in *.
    destruct H as (t & k & E & Ht & Hk & Hc & Hb).
    exists t, (k + 1). rewrite E. repeat split; try assumption; try lia.
    + rewrite Hc, inject_Z_plus. change (inject_Z 1) with 1%Q. ring.
    + intros _. apply Hb. lra.
  - destruct processedTime as [|q]; [reflexivity|].
    pose proof (proj1 (geb_false q 24) e) as Hq.
    exists q, 0. repeat split; try assumption; try lia.
    + change (inject_Z 0) with 0%Q. ring.
    + tauto.
Qed.

Lemma wrapped_absent_or_within_day (p r : number) :
  wrapped_into_day p r -> absent_or_within_day r.
Proof.
  destruct p as [|x]; simpl.
  - intros ->. left. reflexivity.
  - intros (t & k & -> & Ht & _). right. exists t. split; [reflexivity | exact Ht].
Qed.

Lemma lift2_NaN_r (f : Q -> Q -> Q) (a : number) : Number.lift2 f a NaN = NaN.
Proof. destruct a; reflexivity. Qed.

Lemma div_NaN_l (b : number) : (NaN / b)%num = NaN.
Proof. reflexivity. Qed.

Lemma wraps (p : number) :
  wrapped_into_day p (SunTimesCalculator.sub24_while_at_least_24 (SunTimesCalculator.add24_while_negative p)).
Proof.
  pose proof (add24_while_negative_spec p) as A.
  destruct p as [|q]; simpl in *.
  - rewrite A. apply (sub24_while_at_least_24_spec NaN).
  - destruct A as (t & k & -> & Ht & Hk & Hc & _).
    destruct (sub24_while_at_least_24_spec (Fin t)) as (u & j & -> & Hu & Hj & Hd & Hpos).
    exists u, (k - j). split; [reflexivity|]. split; [split; [apply Hpos; exact Ht | exact Hu]|].
    rewrite Hd, Hc. unfold Z.sub. rewrite inject_Z_plus, inject_Z_opp. ring.
Qed.

Section Calculator.

Context {M : MathLibrary}.
Variable adjustZenith : number -> number -> number.

Lemma getTimeUTC_wraps (date : PlainDate) (longitude latitude zenith : number)
    (isSunrise : bool) :
  wrapped_into_day (SunTimesCalculator.getTimeUTC_unwrapped date longitude latitude zenith isSunrise)
    (SunTimesCalculator.getTimeUTC date longitude latitude zenith isSunrise).
Proof. unfold SunTimesCalculator.getTimeUTC. cbv zeta. apply wraps. Qed.

Lemma getTimeUTC_unwrapped_unreachable (date : PlainDate)
    (longitude latitude zenith : number) (isSunrise : bool) :
  let sunTrueLong :=
    SunTimesCalculator.getSunTrueLongitude (SunTimesCalculator.getMeanAnomaly (lit (dayOfYear date)) longitude isSunrise) in
  Math.acos (SunTimesCalculator.getCosLocalHourAngle sunTrueLong latitude zenith) = NaN ->
  SunTimesCalculator.getTimeUTC_unwrapped date longitude latitude zenith isSunrise = NaN.
Proof.
  intros sunTrueLong H. unfold SunTimesCalculator.getTimeUTC_unwrapped. cbv zeta. fold sunTrueLong.
  unfold SunTimesCalculator.acosDeg, MathUtils.radiansToDegrees. rewrite H.
  unfold SunTimesCalculator.getLocalMeanTime.
  destruct isSunrise; cbn [Number.mul Number.lift2 Number.div Number.sub Number.add];
    rewrite ?lift2_NaN_r; reflexivity.
Qed.

Lemma getTimeUTC_unreachable (date : PlainDate) (longitude latitude zenith : number)
    (isSunrise : bool) :
  absent_when_unreachable
    (SunTimesCalculator.getCosLocalHourAngle
       (SunTimesCalculator.getSunTrueLongitude (SunTimesCalculator.getMeanAnomaly (lit (dayOfYear date)) longitude isSunrise))
       latitude zenith)
    (SunTimesCalculator.getTimeUTC date longitude latitude zenith isSunrise).
Proof.
  pose proof (getTimeUTC_wraps date longitude latitude zenith isSunrise) as W.
  pose proof (getTimeUTC_unwrapped_unreachable date longitude latitude zenith isSunrise) as U.
  cbv zeta in U. unfold absent_when_unreachable.
  destruct (SunTimesCalculator.getCosLocalHourAngle _ latitude zenith) as [|c].
  - rewrite (U eq_refl) in W. exact W.
  - destruct (Math.within_unit c) eqn:E; [exact I|].
    assert (A : Math.acos (Fin c) = NaN) by (unfold Math.acos; rewrite E; reflexivity).
    rewrite (U A) in W. exact W.
Qed.

Lemma calculator_within_day (date : PlainDate) (geoLocation : GeoLocation.t)
    (zenith : number) (adjustForElevation : bool) :
  absent_or_within_day
    (AstronomicalCalculator.getUTCSunrise (SunTimesCalculator.calculator adjustZenith)
       date geoLocation zenith adjustForElevation)
  /\ absent_or_within_day
       (AstronomicalCalculator.getUTCSunset (SunTimesCalculator.calculator adjustZenith)
          date geoLocation zenith adjustForElevation).
Proof.
  split; eapply wrapped_absent_or_within_day, getTimeUTC_wraps.
Qed.

(** C3.  Whatever the date, location, zenith and elevation flag, the sunrise
    and the sunset of the almanac calculator are total functions (nothing is
    raised) whose answer is [NaN] or a fractional hour in [0, 24): [NaN] when
    the value before the two loops is, which is the case when the cosine of
    the local hour angle lies outside [-1, 1]; otherwise that value (local
    mean time minus the meridian offset) moved by a whole multiple of 24. *)
Theorem utc_times_are_absent_or_within_the_day (date : PlainDate)
    (geoLocation : GeoLocation.t) (zenith : number) (adjustForElevation : bool) :
  let sunrise := SunTimesCalculator.getUTCSunrise adjustZenith date geoLocation zenith adjustForElevation in
  let sunset := SunTimesCalculator.getUTCSunset adjustZenith date geoLocation zenith adjustForElevation in
  let elevation :=
    if adjustForElevation then GeoLocation.getElevation geoLocation else lit 0 in
  let adjustedZenith := adjustZenith zenith elevation in
  let longitude := GeoLocation.getLongitude geoLocation in
  let latitude := GeoLocation.getLatitude geoLocation in
  let cosLocalHourAngle isSunrise :=
    SunTimesCalculator.getCosLocalHourAngle
      (SunTimesCalculator.getSunTrueLongitude (SunTimesCalculator.getMeanAnomaly (lit (dayOfYear date)) longitude isSunrise))
      latitude adjustedZenith in
  absent_or_within_day sunrise
  /\ absent_or_within_day sunset
  /\ wrapped_into_day (SunTimesCalculator.getTimeUTC_unwrapped date longitude latitude adjustedZenith true) sunrise
  /\ wrapped_into_day (SunTimesCalculator.getTimeUTC_unwrapped date longitude latitude adjustedZenith false) sunset
  /\ absent_when_unreachable (cosLocalHourAngle true) sunrise
  /\ absent_when_unreachable (cosLocalHourAngle false) sunset.
Proof.
  cbv zeta. unfold SunTimesCalculator.getUTCSunrise, SunTimesCalculator.getUTCSunset. cbv zeta.
  repeat match goal with |- _ /\ _ => split end.
  - eapply wrapped_absent_or_within_day, getTimeUTC_wraps.
  - eapply wrapped_absent_or_within_day, getTimeUTC_wraps.
  - apply getTimeUTC_wraps.
  - apply getTimeUTC_wraps.
  - apply getTimeUTC_unreachable.
  - apply getTimeUTC_unreachable.
Qed.

End Calculator.

(** ** The solar-dip searches *)

Section Loops.

Context {S : Type}.
Variables (cond : S -> bool) (body : S -> outcome S).

Lemma iterate_body_snoc (n : nat) (s s' s'' : S) :
  iterate_body n body s = Ret s' -> body s' = Ret s'' ->
  iterate_body (Datatypes.S n) body s = Ret s''.
Proof.
  revert s. induction n as [|n IH]; intros s H1 H2; cbn [iterate_body] in *.
  - injection H1 as ->. rewrite H2. reflexivity.
  - destruct (body s) as [s1|e]; cbn [bind] in *; [|discriminate].
    apply IH; assumption.
Qed.

Lemma while_loop_exit (fuel : nat) (s s' : S) :
  while_loop fuel cond body s = Some (Ret s') ->
  exists n : nat,
    (n < fuel)%nat /\ iterate_body n body s = Ret s' /\ cond s' = false
    /\ forall j : nat, (j < n)%nat ->
         exists sj : S, iterate_body j body s = Ret sj /\ cond sj = true.
Proof.
  revert s. induction fuel as [|fuel IH]; intros s H; cbn [while_loop] in H; [discriminate|].
  destruct (cond s) eqn:Hc.
  - destruct (body s) as [s1|e] eqn:Hb; [|discriminate].
    destruct (IH s1 H) as (n & Hn & Hit & Hex & Hbefore).
    exists (Datatypes.S n). repeat split.
    + lia.
    + cbn [iterate_body]. rewrite Hb. exact Hit.
    + exact Hex.
    + intros [|j] Hj.
      * exists s. split; [reflexivity | exact Hc].
      * destruct (Hbefore j ltac:(lia)) as (sj & Hsj & Hcj).
        exists sj. split; [|exact Hcj]. cbn [iterate_body]. rewrite Hb. exact Hsj.
  - injection H as ->. exists O. repeat split.
    + lia.
    + exact Hc.
    + intros j Hj. lia.
Qed.

Lemma while_loop_diverges (I : S -> Prop) :
  (forall s, I s -> cond s = true /\ exists s', body s = Ret s' /\ I s') ->
  forall (fuel : nat) (s : S), I s -> while_loop fuel cond body s = None.
Proof.
  intros Hinv fuel. induction fuel as [|fuel IH]; intros s Hs; cbn [while_loop]; [reflexivity|].
  destruct (Hinv s Hs) as (Hc & s' & Hb & Hs'). rewrite Hc, Hb. apply IH. exact Hs'.
Qed.

End Loops.

Lemma step_degrees_eq (minutes : number) (incrementor degrees : Q) :
  (step_degrees minutes incrementor degrees == degrees + dip_direction minutes * incrementor)%Q.
Proof.
  unfold step_degrees, dip_direction, Big.add, Big.sub.
  destruct (minutes >? lit 0)%num; rewrite Qred_correct; unfold Big.t in *; ring.
Qed.

Lemma sunrise_dip_body_ret (this : AstronomicalCalendar.t) (minutes : number)
    (s s' : dip_state) :
  sunrise_dip_body this minutes s = Ret s' ->
  degrees s' = step_degrees minutes sunrise_incrementor (degrees s)
  /\ getSunriseOffsetByDegrees this (GEOMETRIC_ZENITH + Big.toNumber (degrees s'))%num
     = Ret (offsetByDegrees s').
Proof.
  unfold sunrise_dip_body. cbv zeta.
  destruct (getSunriseOffsetByDegrees _ _) as [o|e] eqn:E; cbn [bind]; [|discriminate].
  intros H. injection H as <-. cbn [degrees offsetByDegrees]. split; [reflexivity | exact E].
Qed.

Lemma sunset_dip_body_ret (this : AstronomicalCalendar.t) (minutes : number)
    (s s' : dip_state) :
  sunset_dip_body this minutes s = Ret s' ->
  degrees s' = step_degrees minutes sunset_incrementor (degrees s)
  /\ getSunsetOffsetByDegrees this (GEOMETRIC_ZENITH + Big.toNumber (degrees s'))%num
     = Ret (offsetByDegrees s').
Proof.
  unfold sunset_dip_body. cbv zeta.
  destruct (getSunsetOffsetByDegrees _ _) as [o|e] eqn:E; cbn [bind]; [|discriminate].
  intros H. injection H as <-. cbn [degrees offsetByDegrees]. split; [reflexivity | exact E].
Qed.

Lemma iterate_degrees (body : dip_state -> outcome dip_state) (minutes : number)
    (incrementor : Q) :
  (forall s s', body s = Ret s' ->
     degrees s' = step_degrees minutes incrementor (degrees s)) ->
  forall (n : nat) (s s' : dip_state),
    iterate_body n body s = Ret s' ->
    (degrees s' == degrees s + dip_direction minutes * inject_Z (Z.of_nat n) * incrementor)%Q.
Proof.
  intros Hbody n. induction n as [|n IH]; intros s s' H; cbn [iterate_body] in H.
  - injection H as ->. change (inject_Z (Z.of_nat 0)) with 0%Q.
    generalize (degrees s'). unfold Big.t. intros d. ring.
  - destruct (body s) as [s1|e] eqn:Hb; cbn [bind] in H; [|discriminate].
    rewrite (IH s1 s' H), (Hbody s s1 Hb), step_degrees_eq.
    rewrite Nat2Z.inj_succ. unfold Z.succ. rewrite inject_Z_plus.
    change (inject_Z 1) with 1%Q.
    generalize (degrees s). unfold Big.t. intros d. ring.
Qed.

Lemma dip_search_exit_intro (body : dip_state -> outcome dip_state)
    (cond : dip_state -> bool) (minutes : number) (incrementor : Q)
    (start : option ZonedDateTime) (fuel : nat) (final : dip_state) :
  (forall s s', body s = Ret s' ->
     degrees s' = step_degrees minutes incrementor (degrees s)) ->
  while_loop fuel cond body (mkDip Big.zero start) = Some (Ret final) ->
  dip_search_exit body cond minutes incrementor start fuel (Fin (degrees final)).
Proof.
  intros Hbody H.
  destruct (while_loop_exit cond body fuel _ _ H) as (n & Hn & Hit & Hex & Hbefore).
  exists n, final. repeat split; try assumption.
  rewrite (iterate_degrees body minutes incrementor Hbody n _ _ Hit).
  cbn [degrees]. unfold Big.zero. ring.
Qed.

Lemma sunrise_search_exit (fuel : nat) (this : AstronomicalCalendar.t)
    (minutes d : number) :
  getSunriseSolarDipFromOffset fuel this minutes = Some (Ret (Some d)) ->
  exists start target : option ZonedDateTime,
    getSeaLevelSunrise this = Ret start
    /\ getTimeOffset start (- (minutes * MINUTE_MILLIS))%num = Ret target
    /\ dip_search_exit (sunrise_dip_body this minutes) (sunrise_dip_cond minutes target)
         minutes (1 # 10000) start fuel d.
Proof.
  unfold getSunriseSolarDipFromOffset.
  destruct (Number.isNaN minutes); [discriminate|].
  destruct (getSeaLevelSunrise this) as [start|e]; cbn [bind_run]; [|discriminate].
  destruct (getTimeOffset start _) as [target|e] eqn:Et; cbn [bind_run]; [|discriminate].
  destruct (while_loop fuel _ _ _) as [[final|e]|] eqn:W; cbn [bind_run]; try discriminate.
  intros H. injection H as <-.
  exists start, target. split; [reflexivity|]. split; [exact Et|].
  apply dip_search_exit_intro; [|exact W].
  intros s s' Hb. apply (sunrise_dip_body_ret this minutes s s' Hb).
Qed.

Lemma sunset_search_exit (fuel : nat) (this : AstronomicalCalendar.t)
    (minutes d : number) :
  getSunsetSolarDipFromOffset fuel this minutes = Some (Ret (Some d)) ->
  exists start target : option ZonedDateTime,
    getSeaLevelSunset this = Ret start
    /\ getTimeOffset start (minutes * MINUTE_MILLIS)%num = Ret target
    /\ dip_search_exit (sunset_dip_body this minutes) (sunset_dip_cond minutes target)
         minutes (1 # 1000) start fuel d.
Proof.
  unfold getSunsetSolarDipFromOffset.
  destruct (Number.isNaN minutes); [discriminate|].
  destruct (getSeaLevelSunset this) as [start|e]; cbn [bind_run]; [|discriminate].
  destruct (getTimeOffset start _) as [target|e] eqn:Et; cbn [bind_run]; [|discriminate].
  destruct (while_loop fuel _ _ _) as [[final|e]|] eqn:W; cbn [bind_run]; try discriminate.
  intros H. injection H as <-.
  exists start, target. split; [reflexivity|]. split; [exact Et|].
  apply dip_search_exit_intro; [|exact W].
  intros s s' Hb. apply (sunset_dip_body_ret this minutes s s' Hb).
Qed.

Lemma sunrise_search_diverges (this : AstronomicalCalendar.t) (minutes : number) :
  Number.isNaN minutes = false ->
  (forall zenith adjust,
     AstronomicalCalculator.getUTCSunrise (getAstronomicalCalculator this)
       (getAdjustedDate this) (getGeoLocation this) zenith adjust = NaN) ->
  forall fuel : nat, getSunriseSolarDipFromOffset fuel this minutes = None.
Proof.
  intros Hm Hnone fuel. unfold getSunriseSolarDipFromOffset. rewrite Hm.
  assert (E : getSeaLevelSunrise this = Ret None).
  { unfold getSeaLevelSunrise, getUTCSeaLevelSunrise. rewrite Hnone. reflexivity. }
  rewrite E. cbn [bind_run getTimeOffset].
  rewrite (while_loop_diverges _ _ (fun s => offsetByDegrees s = None)); [reflexivity | | reflexivity].
  intros s Hs. split.
  - unfold sunrise_dip_cond. rewrite Hs. reflexivity.
  - unfold sunrise_dip_body, getSunriseOffsetByDegrees, getUTCSunrise. cbv zeta.
    rewrite Hnone. cbn [Number.isNaN bind]. eexists. split; reflexivity.
Qed.

Lemma sunset_search_diverges (this : AstronomicalCalendar.t) (minutes : number) :
  Number.isNaN minutes = false ->
  (forall zenith adjust,
     AstronomicalCalculator.getUTCSunset (getAstronomicalCalculator this)
       (getAdjustedDate this) (getGeoLocation this) zenith adjust = NaN) ->
  forall fuel : nat, getSunsetSolarDipFromOffset fuel this minutes = None.
Proof.
  intros Hm Hnone fuel. unfold getSunsetSolarDipFromOffset. rewrite Hm.
  assert (E : getSeaLevelSunset this = Ret None).
  { unfold getSeaLevelSunset, getUTCSeaLevelSunset. rewrite Hnone. reflexivity. }
  rewrite E. cbn [bind_run getTimeOffset].
  rewrite (while_loop_diverges _ _ (fun s => offsetByDegrees s = None)); [reflexivity | | reflexivity].
  intros s Hs. split.
  - unfold sunset_dip_cond. rewrite Hs. reflexivity.
  - unfold sunset_dip_body, getSunsetOffsetByDegrees, getUTCSunset. cbv zeta.
    rewrite Hnone. cbn [Number.isNaN bind]. eexists. split; reflexivity.
Qed.

(** *** Targets out of reach

    A calculator answers times of day, and [getDateFromTime] moves a sunrise
    back by at most a day and a sunset forward by at most a day: a target two
    days or more away from the sea-level event is never crossed. *)

Lemma clock_fields_total (T : Z) :
  hour (clock_fields T) * 3600000 + minute (clock_fields T) * 60000
  + second (clock_fields T) * 1000 + millisecond (clock_fields T) = T.
Proof.
  unfold clock_fields. cbn [hour minute second millisecond].
  assert (A : T / 60000 = T / 1000 / 60) by (rewrite Z.div_div by lia; reflexivity).
  assert (B : T / 3600000 = T / 1000 / 60 / 60) by (rewrite !Z.div_div by lia; reflexivity).
  rewrite A, B, !Z.mod_eq by lia. lia.
Qed.

Lemma day_correction_sunrise (this : AstronomicalCalendar.t) (h : Z) :
  -1 <= day_correction this h true <= 0.
Proof.
  unfold day_correction. cbn [andb negb].
  destruct (localOffsetHours this + lit h >? lit 18)%num; lia.
Qed.

Lemma day_correction_sunset (this : AstronomicalCalendar.t) (h : Z) :
  0 <= day_correction this h false <= 1.
Proof.
  unfold day_correction. cbn [andb negb].
  destruct (localOffsetHours this + lit h <? lit 6)%num; lia.
Qed.

Lemma getDateFromTime_epochMilliseconds (this : AstronomicalCalendar.t) (q : Q)
    (isSunrise : bool) :
  (0 <= q < 24)%Q ->
  exists t : ZonedDateTime,
    getDateFromTime this (Fin q) isSunrise = Ret (Some t)
    /\ epochMilliseconds t
       = (epochDay (getAdjustedDate this) + day_correction this (Qfloor q) isSunrise)
         * MS_PER_DAY + time_of_day_ms q.
Proof.
  intros Hq. rewrite (getDateFromTime_fields this q isSunrise Hq).
  eexists. split; [reflexivity|].
  unfold withTimeZone, toZonedDateTimeUTC. cbn [epochMilliseconds epochDay add_days].
  pose proof (clock_fields_total (time_of_day_ms q)). lia.
Qed.

Lemma event_within_a_day (this : AstronomicalCalendar.t) (r : number) (isSunrise : bool) :
  absent_or_within_day r ->
  let event := if Number.isNaN r then Ret None else getDateFromTime this r isSunrise in
  let day := epochDay (getAdjustedDate this) in
  event = Ret None
  \/ exists t : ZonedDateTime,
       event = Ret (Some t)
       /\ if isSunrise
          then (day - 1) * MS_PER_DAY <= epochMilliseconds t < (day + 1) * MS_PER_DAY
          else day * MS_PER_DAY <= epochMilliseconds t < (day + 2) * MS_PER_DAY.
Proof.
  intros [-> | (q & -> & Hq)]; cbv zeta; cbn [Number.isNaN]; [left; reflexivity|].
  right.
  destruct (getDateFromTime_epochMilliseconds this q isSunrise Hq) as (t & Ht & Et).
  exists t. split; [exact Ht|]. rewrite Et.
  pose proof (time_of_day_ms_bounds q Hq) as HT.
  unfold MS_PER_DAY.
  destruct isSunrise.
  - pose proof (day_correction_sunrise this (Qfloor q)). lia.
  - pose proof (day_correction_sunset this (Qfloor q)). lia.
Qed.

Lemma minutes_out_of_reach (minutes : Q) :
  (2880 <= minutes)%Q ->
  (Fin minutes >? lit 0)%num = true
  /\ (Fin minutes <? lit 0)%num = false
  /\ 172800000 <= Math.Qtrunc (minutes * (inject_Z 60 * inject_Z 1000))
  /\ Math.Qtrunc (- (minutes * (inject_Z 60 * inject_Z 1000))) <= -172800000.
Proof.
  intros H. change (inject_Z 60) with 60%Q. change (inject_Z 1000) with 1000%Q.
  repeat split.
  - apply ltb_true. change (inject_Z 0) with 0%Q. lra.
  - apply ltb_false. change (inject_Z 0) with 0%Q. lra.
  - rewrite <- (Qtrunc_Z 172800000). apply Qtrunc_resp_le.
    change (inject_Z 172800000) with 172800000%Q. lra.
  - rewrite <- (Qtrunc_Z (-172800000)). apply Qtrunc_resp_le.
    change (inject_Z (-172800000)) with (-172800000)%Q. lra.
Qed.

Lemma sunrise_search_out_of_reach (this : AstronomicalCalendar.t) (minutes : Q) :
  (forall zenith adjust,
     absent_or_within_day
       (AstronomicalCalculator.getUTCSunrise (getAstronomicalCalculator this)
          (getAdjustedDate this) (getGeoLocation this) zenith adjust)) ->
  Number.isNaN (getUTCSeaLevelSunrise this GEOMETRIC_ZENITH) = false ->
  (2880 <= minutes)%Q ->
  forall fuel : nat, getSunriseSolarDipFromOffset fuel this (Fin minutes) = None.
Proof.
  intros Hday Hsr Hm fuel.
  destruct (minutes_out_of_reach minutes Hm) as (Hpos & Hneg & _ & Hfar).
  unfold getSunriseSolarDipFromOffset. cbn [Number.isNaN].
  pose proof (event_within_a_day this _ true (Hday GEOMETRIC_ZENITH false)) as E.
  cbv zeta in E.
  change (getSeaLevelSunrise this)
    with (if Number.isNaN (getUTCSeaLevelSunrise this GEOMETRIC_ZENITH) then Ret None
          else getDateFromTime this (getUTCSeaLevelSunrise this GEOMETRIC_ZENITH) true).
  change (AstronomicalCalculator.getUTCSunrise (getAstronomicalCalculator this)
            (getAdjustedDate this) (getGeoLocation this) GEOMETRIC_ZENITH false)
    with (getUTCSeaLevelSunrise this GEOMETRIC_ZENITH) in E.
  rewrite Hsr in *.
  destruct E as [E | (sr & E & Hlo & Hhi)].
  { exfalso.
    destruct (Hday GEOMETRIC_ZENITH false) as [A | (q & A & Hq)];
      change (AstronomicalCalculator.getUTCSunrise (getAstronomicalCalculator this)
                (getAdjustedDate this) (getGeoLocation this) GEOMETRIC_ZENITH false)
        with (getUTCSeaLevelSunrise this GEOMETRIC_ZENITH) in A;
      rewrite A in *.
    - discriminate Hsr.
    - destruct (getDateFromTime_epochMilliseconds this q true Hq) as (t & Ht & _).
      rewrite Ht in E. discriminate E. }
  rewrite E. cbn [bind_run].
  change (- (Fin minutes * MINUTE_MILLIS))%num
    with (Fin (- (minutes * (inject_Z 60 * inject_Z 1000)))).
  rewrite getTimeOffset_finite. cbn [bind_run].
  set (day := epochDay (getAdjustedDate this)) in *.
  set (target := mkZonedDateTime _ (timeZone sr)).
  assert (Htarget : epochMilliseconds target < (day - 1) * MS_PER_DAY).
  { unfold target. cbn [epochMilliseconds]. unfold MS_PER_DAY in *. lia. }
  rewrite (while_loop_diverges _ _
             (fun s => match offsetByDegrees s with
                       | Some t => (day - 1) * MS_PER_DAY <= epochMilliseconds t
                       | None => True
                       end)); [reflexivity | | exact Hlo].
  intros s Hs. split.
  - unfold sunrise_dip_cond. rewrite Hpos, Hneg.
    destruct (offsetByDegrees s) as [t|]; [|reflexivity].
    cbn [andb orb after before]. apply Z.ltb_lt. lia.
  - unfold sunrise_dip_body. cbv zeta.
    destruct (event_within_a_day this _ true
                (Hday (GEOMETRIC_ZENITH
                       + Big.toNumber (step_degrees (Fin minutes) sunrise_incrementor (degrees s)))%num
                      true))
      as [C | (t & C & Clo & _)]; cbv zeta in C;
      change (getSunriseOffsetByDegrees this
                (GEOMETRIC_ZENITH
                 + Big.toNumber (step_degrees (Fin minutes) sunrise_incrementor (degrees s)))%num
              = Ret None) in C
      || change (getSunriseOffsetByDegrees this
                (GEOMETRIC_ZENITH
                 + Big.toNumber (step_degrees (Fin minutes) sunrise_incrementor (degrees s)))%num
              = Ret (Some t)) in C;
      rewrite C; cbn [bind]; eexists; (split; [reflexivity|]); cbn [offsetByDegrees].
    + exact I.
    + exact Clo.
Qed.

Lemma sunset_search_out_of_reach (this : AstronomicalCalendar.t) (minutes : Q) :
  (forall zenith adjust,
     absent_or_within_day
       (AstronomicalCalculator.getUTCSunset (getAstronomicalCalculator this)
          (getAdjustedDate this) (getGeoLocation this) zenith adjust)) ->
  Number.isNaN (getUTCSeaLevelSunset this GEOMETRIC_ZENITH) = false ->
  (2880 <= minutes)%Q ->
  forall fuel : nat, getSunsetSolarDipFromOffset fuel this (Fin minutes) = None.
Proof.
  intros Hday Hss Hm fuel.
  destruct (minutes_out_of_reach minutes Hm) as (Hpos & Hneg & Hfar & _).
  unfold getSunsetSolarDipFromOffset. cbn [Number.isNaN].
  pose proof (event_within_a_day this _ false (Hday GEOMETRIC_ZENITH false)) as E.
  cbv zeta in E.
  change (getSeaLevelSunset this)
    with (if Number.isNaN (getUTCSeaLevelSunset this GEOMETRIC_ZENITH) then Ret None
          else getDateFromTime this (getUTCSeaLevelSunset this GEOMETRIC_ZENITH) false).
  change (AstronomicalCalculator.getUTCSunset (getAstronomicalCalculator this)
            (getAdjustedDate this) (getGeoLocation this) GEOMETRIC_ZENITH false)
    with (getUTCSeaLevelSunset this GEOMETRIC_ZENITH) in E.
  rewrite Hss in *.
  destruct E as [E | (ss & E & Hlo & Hhi)].
  { exfalso.
    destruct (Hday GEOMETRIC_ZENITH false) as [A | (q & A & Hq)];
      change (AstronomicalCalculator.getUTCSunset (getAstronomicalCalculator this)
                (getAdjustedDate this) (getGeoLocation this) GEOMETRIC_ZENITH false)
        with (getUTCSeaLevelSunset this GEOMETRIC_ZENITH) in A;
      rewrite A in *.
    - discriminate Hss.
    - destruct (getDateFromTime_epochMilliseconds this q false Hq) as (t & Ht & _).
      rewrite Ht in E. discriminate E. }
  rewrite E. cbn [bind_run].
  change (Fin minutes * MINUTE_MILLIS)%num
    with (Fin (minutes * (inject_Z 60 * inject_Z 1000))).
  rewrite getTimeOffset_finite. cbn [bind_run].
  set (day := epochDay (getAdjustedDate this)) in *.
  set (target := mkZonedDateTime _ (timeZone ss)).
  assert (Htarget : (day + 2) * MS_PER_DAY <= epochMilliseconds target).
  { unfold target. cbn [epochMilliseconds]. unfold MS_PER_DAY in *. lia. }
  rewrite (while_loop_diverges _ _
             (fun s => match offsetByDegrees s with
                       | Some t => epochMilliseconds t < (day + 2) * MS_PER_DAY
                       | None => True
                       end)); [reflexivity | | exact Hhi].
  intros s Hs. split.
  - unfold sunset_dip_cond. rewrite Hpos, Hneg.
    destruct (offsetByDegrees s) as [t|]; [|reflexivity].
    cbn [andb orb after before]. rewrite orb_false_r. apply Z.ltb_lt. lia.
  - unfold sunset_dip_body. cbv zeta.
    destruct (event_within_a_day this _ false
                (Hday (GEOMETRIC_ZENITH
                       + Big.toNumber (step_degrees (Fin minutes) sunset_incrementor (degrees s)))%num
                      true))
      as [C | (t & C & _ & Chi)]; cbv zeta in C;
      change (getSunsetOffsetByDegrees this
                (GEOMETRIC_ZENITH
                 + Big.toNumber (step_degrees (Fin minutes) sunset_incrementor (degrees s)))%num
              = Ret None) in C
      || change (getSunsetOffsetByDegrees this
                (GEOMETRIC_ZENITH
                 + Big.toNumber (step_degrees (Fin minutes) sunset_incrementor (degrees s)))%num
              = Ret (Some t)) in C;
      rewrite C; cbn [bind]; eexists; (split; [reflexivity|]); cbn [offsetByDegrees].
    + exact I.
    + exact Chi.
Qed.


(** With the linear calculator, 18 seconds are 0.05 degree. *)
Example sunrise_dip_greenwich :
  getSunriseSolarDipFromOffset 1000 greenwich (dec 3 10) = Some (Ret (Some (Fin (1 # 20)))).
Proof. vm_compute. reflexivity. Qed.

Example sunset_dip_greenwich :
  getSunsetSolarDipFromOffset 100 greenwich (dec 3 10) = Some (Ret (Some (Fin (1 # 20)))).
Proof. vm_compute. reflexivity. Qed.


(** ** [Zman] and [setDate] *)

Lemma compare_finite (x y : Q) :
  IntegerUtils.compare (Fin x) (Fin y) = lit (Qsign_compare x y).
Proof.
  unfold IntegerUtils.compare, Qsign_compare, Number.eqb, Number.gtb, Number.ltb.
  destruct (Qcompare x y) eqn:E.
  - apply Qeq_alt in E. apply Qeq_bool_iff in E. rewrite E. reflexivity.
  - assert (N : Qeq_bool x y = false).
    { apply not_true_iff_false. intro H. apply Qeq_bool_iff, Qeq_alt in H. congruence. }
    rewrite N. apply Qlt_alt in E.
    destruct (Qcompare y x) eqn:E'; try reflexivity.
    apply Qlt_alt in E'. lra.
  - assert (N : Qeq_bool x y = false).
    { apply not_true_iff_false. intro H. apply Qeq_bool_iff, Qeq_alt in H. congruence. }
    rewrite N. apply Qgt_alt in E.
    destruct (Qcompare y x) eqn:E'; try reflexivity.
    + apply Qeq_alt in E'. lra.
    + apply Qgt_alt in E'. lra.
Qed.

Lemma Qsign_compare_refl (x : Q) : Qsign_compare x x = 0.
Proof.
  unfold Qsign_compare. assert (E : Qcompare x x = Eq) by (apply Qeq_alt; reflexivity).
  rewrite E. reflexivity.
Qed.

Lemma Qsign_compare_spec (x y : Q) :
  (Qsign_compare x y = 0 /\ (x == y)%Q)
  \/ (Qsign_compare x y = -1 /\ (x < y)%Q)
  \/ (Qsign_compare x y = 1 /\ (y < x)%Q).
Proof.
  unfold Qsign_compare. destruct (Qcompare x y) eqn:E.
  - left. split; [reflexivity | apply Qeq_alt; exact E].
  - right. left. split; [reflexivity | apply Qlt_alt; exact E].
  - right. right. split; [reflexivity | apply Qgt_alt; exact E].
Qed.

Lemma Qsign_compare_antisym (x y : Q) : Qsign_compare y x = - Qsign_compare x y.
Proof.
  destruct (Qsign_compare_spec x y) as [[-> H]|[[-> H]|[-> H]]];
    destruct (Qsign_compare_spec y x) as [[-> H']|[[-> H']|[-> H']]];
    try reflexivity; lra.
Qed.

Lemma Qsign_compare_trans (x y z : Q) :
  Qsign_compare x y <= 0 -> Qsign_compare y z <= 0 -> Qsign_compare x z <= 0.
Proof.
  destruct (Qsign_compare_spec x y) as [[-> H]|[[-> H]|[-> H]]];
    destruct (Qsign_compare_spec y z) as [[-> H']|[[-> H']|[-> H']]];
    destruct (Qsign_compare_spec x z) as [[-> H'']|[[-> H'']|[-> H'']]];
    intros; try lia; lra.
Qed.

Lemma compareTo_from_shift (n k : nat) (a b : ascii) (s1 s2 : string) :
  StringUtils.compareTo_from n (S k) (String a s1) (String b s2)
  = StringUtils.compareTo_from n k s1 s2.
Proof.
  revert k. induction n as [|n IH]; intros k; cbn [StringUtils.compareTo_from].
  - cbn [String.length]. f_equal. lia.
  - cbn [substring]. rewrite IH. unfold StringUtils.charCodeAt. cbn [String.get].
    reflexivity.
Qed.

Lemma compareTo_is_rec (s1 s2 : string) :
  StringUtils.compareTo s1 s2 = lit (compareTo_rec s1 s2).
Proof.
  revert s2. induction s1 as [|a s1 IH]; intros [|b s2]; try reflexivity.
  unfold StringUtils.compareTo. cbn [String.length Nat.min StringUtils.compareTo_from].
  cbn [substring String.eqb compareTo_rec].
  assert (E : String.eqb (substring 0 0 s1) (substring 0 0 s2) = true).
  { destruct s1, s2; reflexivity. }
  rewrite E. destruct (Ascii.eqb a b) eqn:Eab.
  - rewrite compareTo_from_shift. apply IH.
  - reflexivity.
Qed.

Lemma ascii_code_neq (a b : ascii) :
  Ascii.eqb a b = false -> Z.of_nat (nat_of_ascii a) <> Z.of_nat (nat_of_ascii b).
Proof.
  intros H E. apply Nat2Z.inj in E.
  assert (a = b) by (rewrite <- (ascii_nat_embedding a), <- (ascii_nat_embedding b), E; reflexivity).
  subst. rewrite Ascii.eqb_refl in H. discriminate.
Qed.

Lemma compareTo_rec_refl (s : string) : compareTo_rec s s = 0.
Proof.
  induction s as [|a s IH]; cbn [compareTo_rec]; [reflexivity|].
  rewrite Ascii.eqb_refl. exact IH.
Qed.

Lemma compareTo_rec_antisym (s1 s2 : string) : compareTo_rec s2 s1 = - compareTo_rec s1 s2.
Proof.
  revert s2. induction s1 as [|a s1 IH]; intros [|b s2]; cbn [compareTo_rec String.length];
    try lia.
  rewrite (Ascii.eqb_sym b a). destruct (Ascii.eqb a b); [apply IH | lia].
Qed.

Lemma compareTo_rec_trans (s1 s2 s3 : string) :
  compareTo_rec s1 s2 <= 0 -> compareTo_rec s2 s3 <= 0 -> compareTo_rec s1 s3 <= 0.
Proof.
  revert s2 s3. induction s1 as [|a s1 IH]; intros [|b s2] [|c s3];
    cbn [compareTo_rec String.length]; try lia.
  destruct (Ascii.eqb a b) eqn:Eab; destruct (Ascii.eqb b c) eqn:Ebc.
  - apply Ascii.eqb_eq in Eab, Ebc. subst. rewrite Ascii.eqb_refl. apply IH.
  - apply Ascii.eqb_eq in Eab. subst. rewrite Ebc. lia.
  - apply Ascii.eqb_eq in Ebc. subst. rewrite Eab. lia.
  - pose proof (ascii_code_neq _ _ Eab). pose proof (ascii_code_neq _ _ Ebc).
    intros. destruct (Ascii.eqb a c) eqn:Eac.
    + apply Ascii.eqb_eq in Eac. subst. lia.
    + lia.
Qed.

Lemma epochMilliseconds_or_0_finite (z : Zman.t) :
  Zman.epochMilliseconds_or_0 z
  = lit (match Zman.zman z with Some date => epochMilliseconds date | None => 0 end).
Proof.
  unfold Zman.epochMilliseconds_or_0. destruct (Zman.zman z) as [date|]; [|reflexivity].
  cbv zeta. destruct (Number.truthy (lit (epochMilliseconds date))) eqn:E; [reflexivity|].
  unfold Number.truthy, lit, Number.of_Z in E. apply negb_false_iff, Qeq_bool_iff in E.
  unfold Qeq in E. cbn in E. f_equal. lia.
Qed.

Lemma duration_or_0_finite (z : Zman.t) :
  Zman.duration_or_0 z = Fin (duration_value z).
Proof.
  unfold Zman.duration_or_0, duration_value.
  destruct (Zman.duration z) as [[|d]|]; try reflexivity.
  unfold Number.truthy. destruct (Qeq_bool d 0); reflexivity.
Qed.

(** C9.  The three comparators are total and answer whole numbers that order
    their arguments consistently (zero on equal arguments, antisymmetric,
    transitive), -1, 0 or 1 for the date and duration orders; a missing
    instant compares as the epoch, a missing label as the empty string, a
    missing (or [NaN]) duration as 0. *)
Theorem comparators_are_total_with_fallbacks :
  consistent_comparator Zman.compareDateOrder
  /\ consistent_comparator Zman.compareNameOrder
  /\ consistent_comparator Zman.compareDurationOrder
  /\ three_valued Zman.compareDateOrder
  /\ three_valued Zman.compareDurationOrder
  /\ (forall l d desc g tz other,
        Zman.compareDateOrder (Zman.make l None d desc g) other
        = Zman.compareDateOrder (Zman.make l (Some (mkZonedDateTime 0 tz)) d desc g) other
        /\ Zman.compareDateOrder other (Zman.make l None d desc g)
           = Zman.compareDateOrder other (Zman.make l (Some (mkZonedDateTime 0 tz)) d desc g))
  /\ (forall z d desc g other,
        Zman.compareNameOrder (Zman.make None z d desc g) other
        = Zman.compareNameOrder (Zman.make (Some EmptyString) z d desc g) other
        /\ Zman.compareNameOrder other (Zman.make None z d desc g)
           = Zman.compareNameOrder other (Zman.make (Some EmptyString) z d desc g))
  /\ (forall l z desc g other,
        Zman.compareDurationOrder (Zman.make l z None desc g) other
        = Zman.compareDurationOrder (Zman.make l z (Some (lit 0)) desc g) other
        /\ Zman.compareDurationOrder other (Zman.make l z None desc g)
           = Zman.compareDurationOrder other (Zman.make l z (Some (lit 0)) desc g)
        /\ Zman.compareDurationOrder (Zman.make l z (Some NaN) desc g) other
           = Zman.compareDurationOrder (Zman.make l z (Some (lit 0)) desc g) other).
Proof.
  repeat match goal with |- _ /\ _ => split end.
  - exists (fun a b =>
              Qsign_compare
                (inject_Z (match Zman.zman a with Some t => epochMilliseconds t | None => 0 end))
                (inject_Z (match Zman.zman b with Some t => epochMilliseconds t | None => 0 end))).
    repeat split.
    + intros a b. unfold Zman.compareDateOrder. cbv zeta.
      rewrite !epochMilliseconds_or_0_finite. apply compare_finite.
    + intros a. apply Qsign_compare_refl.
    + intros a b. apply Qsign_compare_antisym.
    + intros a b c. apply Qsign_compare_trans.
  - exists (fun a b =>
              compareTo_rec (Zman.string_or_empty (Zman.nonempty (Zman.label a)))
                (Zman.string_or_empty (Zman.nonempty (Zman.label b)))).
    repeat split.
    + intros a b. apply compareTo_is_rec.
    + intros a. apply compareTo_rec_refl.
    + intros a b. apply compareTo_rec_antisym.
    + intros a b c. apply compareTo_rec_trans.
  - exists (fun a b => Qsign_compare (duration_value a) (duration_value b)).
    repeat split.
    + intros a b. unfold Zman.compareDurationOrder.
      rewrite !duration_or_0_finite. apply compare_finite.
    + intros a. apply Qsign_compare_refl.
    + intros a b. apply Qsign_compare_antisym.
    + intros a b c. apply Qsign_compare_trans.
  - intros a b. unfold Zman.compareDateOrder. cbv zeta.
    rewrite !epochMilliseconds_or_0_finite.
    change (IntegerUtils.compare (lit ?x) (lit ?y))
      with (IntegerUtils.compare (Fin (inject_Z x)) (Fin (inject_Z y))).
    rewrite compare_finite.
    destruct (Qsign_compare_spec
                (inject_Z (match Zman.zman a with Some t => epochMilliseconds t | None => 0 end))
                (inject_Z (match Zman.zman b with Some t => epochMilliseconds t | None => 0 end)))
      as [[-> _]|[[-> _]|[-> _]]]; auto.
  - intros a b. unfold Zman.compareDurationOrder.
    rewrite !duration_or_0_finite, compare_finite.
    destruct (Qsign_compare_spec (duration_value a) (duration_value b))
      as [[-> _]|[[-> _]|[-> _]]]; auto.
  - intros; split; reflexivity.
  - intros; split; reflexivity.
  - intros; repeat split; reflexivity.
Qed.

Example compareNameOrder_sunrise_sunset :
  Zman.compareNameOrder
    (Zman.new (inr (mkZonedDateTime 0 "UTC")) (inl (Some "Sunrise"%string)) None)
    (Zman.new (inl (lit 4462965)) (inl (Some "Sunset"%string)) None)
  = lit (-1)
  /\ Zman.compareDateOrder
       (Zman.new (inl (lit 4462965)) (inl (Some "Shaah zmanis"%string)) None)
       (Zman.new (inr (mkZonedDateTime 1591356746007 "America/Denver")) (inl None) None)
     = lit (-1)
  /\ Zman.compareDurationOrder
       (Zman.new (inl NaN) (inl None) None)
       (Zman.new (inr (mkZonedDateTime 0 "UTC")) (inl (Some "Sunrise"%string)) None)
     = lit 0.
Proof. repeat split; reflexivity. Qed.

(** C10.  [setDate] with an argument that is neither a [Temporal.PlainDate],
    a [Date], a string nor a number returns normally and leaves the calendar,
    and so its date, as it was. *)
Theorem setDate_ignores_other_shapes (PlainDate_from : string -> outcome PlainDate)
    (this : AstronomicalCalendar.t) (date : jsvalue) :
  supported date = false ->
  setDate PlainDate_from this date = Ret this
  /\ forall after, setDate PlainDate_from this date = Ret after -> getDate after = getDate this.
Proof.
  intros H. destruct date; try discriminate H; split; try reflexivity;
    intros after E; injection E as <-; reflexivity.
Qed.

Lemma setDate_ignores_other_shapes_witness :
  setDate (fun _ => Throw RangeError) denver JUndefined = Ret denver
  /\ setDate (fun _ => Throw RangeError) denver JNull = Ret denver
  /\ setDate (fun _ => Throw RangeError) denver (JBoolean true) = Ret denver.
Proof.
  split; [|split].
  - apply (setDate_ignores_other_shapes (fun _ => Throw RangeError) denver JUndefined).
    reflexivity.
  - apply (setDate_ignores_other_shapes (fun _ => Throw RangeError) denver JNull).
    reflexivity.
  - apply (setDate_ignores_other_shapes (fun _ => Throw RangeError) denver (JBoolean true)).
    reflexivity.
Defined.

Example setDate_supported_shapes :
  setDate (fun _ => Throw RangeError) denver (JPlainDate (PlainDate_of 2021 1 1))
  = Ret (AstronomicalCalendar.make (PlainDate_of 2021 1 1) denver_location fixture_calculator)
  /\ setDate (fun _ => Throw RangeError) denver (JNumber (lit 1591356746007))
     = Ret denver
  /\ setDate (fun _ => Throw RangeError) denver (JNumber (dec 1 2)) = Throw RangeError
  /\ setDate (fun _ => Throw RangeError) denver (JDate NaN) = Throw RangeError
  /\ setDate (fun _ => Throw RangeError) denver (JString "2020-13-45") = Throw RangeError.
Proof. repeat split; reflexivity. Qed.

(** ** Elevation *)

(** In Denver the almanac calculator is within seconds of the times the test
    pins down for the NOAA calculator, and elevation widens the day. *)
Example denver_almanac_times :
  getSunrise denver_almanac
  = Ret (Some (mkZonedDateTime (18418 * 86400000 + 41062550) "America/Denver"))
  /\ getSeaLevelSunrise denver_almanac
     = Ret (Some (mkZonedDateTime (18418 * 86400000 + 41538371) "America/Denver"))
  /\ getSeaLevelSunset denver_almanac
     = Ret (Some (mkZonedDateTime (18419 * 86400000 + 8705239) "America/Denver"))
  /\ getSunset denver_almanac
     = Ret (Some (mkZonedDateTime (18419 * 86400000 + 9181426) "America/Denver")).
Proof. repeat (apply conj); vm_compute; reflexivity. Qed.

(** C7 fails on the code.  On Wrangel Island (71.2 N, longitude -180, 1000 m)
    on 2020-01-22 the sea-level sunrise is 48.07 h before the loops of
    [getTimeUTC] and the elevation-adjusted one 46.87 h, so earlier; the loops
    wrap the first to 00:04:33.839 and the second to 22:52:38.183 UTC,
    [getDateFromTime] corrects neither date (with [localOffsetHours = -12]
    its test for a sunrise never fires, and it has no correction forward for
    a sunrise), and the elevation-adjusted sunrise comes out 22 h 48 min
    after the sea-level sunrise.  The same happens to the sunset with the
    longitude written 180, on 2020-11-19: the elevation-adjusted sunset comes
    out before the sea-level one. *)
Theorem elevation_order_fails_at_the_antimeridian :
  Math.floor
    (SunTimesCalculator.getTimeUTC_unwrapped (M := series_math) (PlainDate_of 2020 1 22)
       (lit (-180)) (dec 712 10) (adjustZenith_model (M := series_math) (lit 90) (lit 0)) true)
  = lit 48
  /\ Math.floor
       (SunTimesCalculator.getTimeUTC_unwrapped (M := series_math) (PlainDate_of 2020 1 22)
          (lit (-180)) (dec 712 10)
          (adjustZenith_model (M := series_math) (lit 90) (lit 1000)) true)
     = lit 46
  /\ localOffsetHours wrangel_west = lit (-12)
  /\ getSeaLevelSunrise wrangel_west
     = Ret (Some (mkZonedDateTime (18283 * 86400000 + 273839) "Etc/GMT+12"))
  /\ getSunrise wrangel_west
     = Ret (Some (mkZonedDateTime (18283 * 86400000 + 82358183) "Etc/GMT+12"))
  /\ getSeaLevelSunset wrangel_east
     = Ret (Some (mkZonedDateTime (18585 * 86400000 + 86016057) "Etc/GMT-12"))
  /\ getSunset wrangel_east
     = Ret (Some (mkZonedDateTime (18585 * 86400000 + 3881347) "Etc/GMT-12")).
Proof. repeat (apply conj); vm_compute; reflexivity. Qed.

(** * Further properties *)

(** ** [getDateFromTime] outside the day *)

Lemma Qtrunc_negative (x : Q) :
  (x < 0)%Q -> Math.Qtrunc x <= 0 /\ (Math.Qtrunc x = 0 -> (-1 < x)%Q).
Proof.
  intros H. rewrite (Qtrunc_neg x H).
  pose proof (Qceiling_lt x) as Hc. pose proof (Qle_ceiling x) as Hl.
  split.
  - apply Z.lt_succ_r. unfold Z.succ. 
    assert (inject_Z (Qceiling x - 1) < inject_Z 0)%Q by (change (inject_Z 0) with 0%Q; lra).
    rewrite <- Zlt_Qlt in H0. lia.
  - intros E. rewrite E in Hc. change (inject_Z (0 - 1)) with (-1)%Q in Hc. lra.
Qed.

Lemma PlainTime_new_lit (h m s ms : Z) :
  PlainTime_new (lit h) (lit m) (lit s) (lit ms)
  = if in_range 0 23 h && in_range 0 59 m && in_range 0 59 s && in_range 0 999 ms
    then Ret (mkPlainTime h m s ms) else Throw RangeError.
Proof.
  unfold PlainTime_new. rewrite !toIntegerWithTruncation_lit. reflexivity.
Qed.

Lemma getDateFromTime_throws (this : AstronomicalCalendar.t) (q : Q) (isSunrise : bool) :
  let h := Math.Qtrunc q in
  let c1 := ((q - inject_Z h) * inject_Z 60)%Q in
  let m := Math.Qtrunc c1 in
  let c2 := ((c1 - inject_Z m) * inject_Z 60)%Q in
  let s := Math.Qtrunc c2 in
  let ms := Math.Qtrunc ((c2 - inject_Z s) * inject_Z 1000) in
  in_range 0 23 h && in_range 0 59 m && in_range 0 59 s && in_range 0 999 ms = false ->
  getDateFromTime this (Fin q) isSunrise = Throw RangeError.
Proof.
  intros h c1 m c2 s ms H.
  unfold getDateFromTime. cbv zeta. cbn [Number.isNaN].
  change (Math.trunc (Fin q)) with (lit h).
  change (Fin q - lit h)%num with (Fin (q - inject_Z h)).
  change (Fin (q - inject_Z h) * lit 60)%num with (Fin c1).
  change (Math.trunc (Fin c1)) with (lit m).
  change (Fin c1 - lit m)%num with (Fin (c1 - inject_Z m)).
  change (Fin (c1 - inject_Z m) * lit 60)%num with (Fin c2).
  change (Math.trunc (Fin c2)) with (lit s).
  change (Fin c2 - lit s)%num with (Fin (c2 - inject_Z s)).
  change (Fin (c2 - inject_Z s) * lit 1000)%num with (Fin ((c2 - inject_Z s) * inject_Z 1000)).
  change (Math.trunc (Fin ((c2 - inject_Z s) * inject_Z 1000))) with (lit ms).
  rewrite PlainTime_new_lit, H. reflexivity.
Qed.

(** X1.  [getDateFromTime] raises a [RangeError] (of [Temporal.PlainTime])
    for a time of 24 hours or more, and for a negative time of a
    millisecond or more: a calculator has to answer within [0, 24). *)
Theorem getDateFromTime_outside_the_day (this : AstronomicalCalendar.t) (q : Q)
    (isSunrise : bool) :
  (24 <= q)%Q \/ (q * 3600000 <= -1)%Q ->
  getDateFromTime this (Fin q) isSunrise = Throw RangeError.
Proof.
  intros H. apply getDateFromTime_throws.
  destruct H as [H | H].
  - assert (Hh : 24 <= Math.Qtrunc q).
    { rewrite <- (Qtrunc_Z 24). apply Qtrunc_resp_le. exact H. }
    unfold in_range at 1.
    replace (Math.Qtrunc q <=? 23) with false by (symmetry; apply Z.leb_gt; lia).
    rewrite andb_false_r. reflexivity.
  - assert (Hq : (q < 0)%Q) by lra.
    destruct (Qtrunc_negative q Hq) as [Hh Hh0].
    set (h := Math.Qtrunc q) in *.
    destruct (Z.eq_dec h 0) as [E | N].
    2:{ unfold in_range at 1. replace (0 <=? h) with false by (symmetry; apply Z.leb_gt; lia).
        reflexivity. }
    specialize (Hh0 E). rewrite E.
    set (c1 := ((q - inject_Z 0) * inject_Z 60)%Q).
    assert (Hc1 : (c1 == q * 60)%Q) by (unfold c1; change (inject_Z 0) with 0%Q; change (inject_Z 60) with 60%Q; ring).
    assert (Hc1n : (c1 < 0)%Q) by lra.
    destruct (Qtrunc_negative c1 Hc1n) as [Hm Hm0].
    set (m := Math.Qtrunc c1) in *.
    destruct (Z.eq_dec m 0) as [Em | Nm].
    2:{ unfold in_range at 2. replace (0 <=? m) with false by (symmetry; apply Z.leb_gt; lia).
        rewrite andb_false_r. reflexivity. }
    specialize (Hm0 Em). rewrite Em.
    set (c2 := ((c1 - inject_Z 0) * inject_Z 60)%Q).
    assert (Hc2 : (c2 == q * 3600)%Q) by (unfold c2; rewrite Hc1; change (inject_Z 0) with 0%Q; change (inject_Z 60) with 60%Q; ring).
    assert (Hc2n : (c2 < 0)%Q) by lra.
    destruct (Qtrunc_negative c2 Hc2n) as [Hs Hs0].
    set (s := Math.Qtrunc c2) in *.
    destruct (Z.eq_dec s 0) as [Es | Ns].
    2:{ unfold in_range at 3. replace (0 <=? s) with false by (symmetry; apply Z.leb_gt; lia).
        rewrite !andb_false_r. reflexivity. }
    rewrite Es.
    assert (Hms : Math.Qtrunc ((c2 - inject_Z 0) * inject_Z 1000) <= -1).
    { rewrite <- (Qtrunc_Z (-1)). apply Qtrunc_resp_le.
      rewrite Hc2. change (inject_Z 0) with 0%Q. change (inject_Z 1000) with 1000%Q.
      change (inject_Z (-1)) with (-1)%Q. lra. }
    unfold in_range at 4.
    replace (0 <=? Math.Qtrunc ((c2 - inject_Z 0) * inject_Z 1000)) with false
      by (symmetry; apply Z.leb_gt; lia).
    rewrite !andb_false_r. reflexivity.
Qed.

Lemma getDateFromTime_outside_the_day_witness :
  getDateFromTime denver (lit 24) true = Throw RangeError
  /\ getDateFromTime denver (dec (-1) 3600000) false = Throw RangeError.
Proof.
  split.
  - apply (getDateFromTime_outside_the_day denver (inject_Z 24) true).
    left. apply Qle_refl.
  - apply (getDateFromTime_outside_the_day denver (-1 # 3600000) false).
    right. unfold Qle. simpl. lia.
Defined.

(** ** The dates of the events *)

Lemma event_null_or_dated (this : AstronomicalCalendar.t) (r : number) (isSunrise : bool) :
  absent_or_within_day r ->
  null_or_dated
    (epochDay (getAdjustedDate this) - (if isSunrise then 1 else 0)) 2
    (GeoLocation.getTimeZone (getGeoLocation this))
    (if Number.isNaN r then Ret None else getDateFromTime this r isSunrise).
Proof.
  intros [-> | (q & -> & Hq)]; cbn [Number.isNaN]; [left; reflexivity|].
  right. rewrite (getDateFromTime_fields this q isSunrise Hq).
  eexists. split; [reflexivity|]. split; [|reflexivity].
  unfold withTimeZone, toZonedDateTimeUTC. cbn [epochMilliseconds epochDay add_days].
  pose proof (clock_fields_total (time_of_day_ms q)) as HT.
  pose proof (time_of_day_ms_bounds q Hq) as HB.
  unfold MS_PER_DAY.
  destruct isSunrise.
  - pose proof (day_correction_sunrise this (Qfloor q)). lia.
  - pose proof (day_correction_sunset this (Qfloor q)). lia.
Qed.

(** X2.  With a calculator that answers [NaN] or times of day, no event
    method raises, and an event that is not [null] is shown in the time zone
    of the location and falls, in UTC, on the adjusted date or the day before
    it for the sunrise, the sea-level sunrise and every sunrise offset by
    degrees, and on the adjusted date or the day after it for the sunsets. *)
Theorem events_are_dated_within_a_day (this : AstronomicalCalendar.t) (zenith : number) :
  answers_times_of_day this ->
  let day := epochDay (getAdjustedDate this) in
  let tz := GeoLocation.getTimeZone (getGeoLocation this) in
  null_or_dated (day - 1) 2 tz (getSunrise this)
  /\ null_or_dated (day - 1) 2 tz (getSeaLevelSunrise this)
  /\ null_or_dated (day - 1) 2 tz (getSunriseOffsetByDegrees this zenith)
  /\ null_or_dated day 2 tz (getSunset this)
  /\ null_or_dated day 2 tz (getSeaLevelSunset this)
  /\ null_or_dated day 2 tz (getSunsetOffsetByDegrees this zenith).
Proof.
  intros H day tz.
  repeat match goal with |- _ /\ _ => split end.
  - apply (event_null_or_dated this _ true (proj1 (H GEOMETRIC_ZENITH true))).
  - apply (event_null_or_dated this _ true (proj1 (H GEOMETRIC_ZENITH false))).
  - apply (event_null_or_dated this _ true (proj1 (H zenith true))).
  - replace day with (day - 0) by lia.
    apply (event_null_or_dated this _ false (proj2 (H GEOMETRIC_ZENITH true))).
  - replace day with (day - 0) by lia.
    apply (event_null_or_dated this _ false (proj2 (H GEOMETRIC_ZENITH false))).
  - replace day with (day - 0) by lia.
    apply (event_null_or_dated this _ false (proj2 (H zenith true))).
Qed.

Lemma events_are_dated_within_a_day_witness :
  null_or_dated 18417 2 "America/Denver" (getSunrise denver_almanac)
  /\ null_or_dated 18418 2 "America/Denver" (getSunset denver_almanac).
Proof.
  destruct (events_are_dated_within_a_day denver_almanac CIVIL_ZENITH) as (H1 & _ & _ & H4 & _).
  - intros zenith adjust.
    exact (@calculator_within_day series_math (@adjustZenith_model series_math) _ _ zenith adjust).
  - exact (conj H1 H4).
Defined.

(** ** Offsets and temporal hours *)

(** X3.  [getTimeOffset] by whole milliseconds: 0 changes nothing, two offsets
    in a row are the offset by their sum, and an offset is undone by its
    opposite.  Offsets with a fraction are each cut toward zero first, so two
    offsets of half a millisecond are not the offset of one millisecond. *)
Theorem getTimeOffset_composes (t : ZonedDateTime) :
  getTimeOffset (Some t) (lit 0) = Ret (Some t)
  /\ (forall a b : Z,
        (r <- getTimeOffset (Some t) (lit a) ;; getTimeOffset r (lit b))
        = getTimeOffset (Some t) (lit (a + b)))
  /\ (forall a : Z,
        (r <- getTimeOffset (Some t) (lit a) ;; getTimeOffset r (lit (- a))) = Ret (Some t))
  /\ (forall x y : Q,
        (r <- getTimeOffset (Some t) (Fin x) ;; getTimeOffset r (Fin y))
        = Ret (Some (mkZonedDateTime
                       (epochMilliseconds t + (Math.Qtrunc x + Math.Qtrunc y)) (timeZone t))))
  /\ (r <- getTimeOffset (Some t) (dec 1 2) ;; getTimeOffset r (dec 1 2))
     <> getTimeOffset (Some t) (dec 1 2 + dec 1 2)%num.
Proof.
  destruct t as [ms tz].
  repeat match goal with |- _ /\ _ => split end.
  - rewrite getTimeOffset_whole. cbn [epochMilliseconds timeZone]. rewrite Z.add_0_r. reflexivity.
  - intros a b. rewrite !getTimeOffset_whole. cbn [bind]. rewrite getTimeOffset_whole.
    cbn [epochMilliseconds timeZone]. rewrite Z.add_assoc. reflexivity.
  - intros a. rewrite !getTimeOffset_whole. cbn [bind]. rewrite getTimeOffset_whole.
    cbn [epochMilliseconds timeZone]. f_equal. f_equal. f_equal. lia.
  - intros x y. rewrite getTimeOffset_finite. cbn [bind]. rewrite getTimeOffset_finite.
    cbn [epochMilliseconds timeZone]. rewrite Z.add_assoc. reflexivity.
  - change (dec 1 2 + dec 1 2)%num with (Fin ((1 # 2) + (1 # 2))).
    unfold dec. rewrite !getTimeOffset_finite. cbn [bind]. rewrite getTimeOffset_finite.
    cbn [epochMilliseconds timeZone].
    change (Math.Qtrunc (1 # 2)) with 0.
    change (Math.Qtrunc ((1 # 2) + (1 # 2))) with 1.
    intros H. injection H as H. lia.
Qed.

(** X4.  Twelve temporal hours from the start of the day end at the end of
    the day or less than 12 ms before it, whatever the order of the two
    instants; the temporal hour is negative when the end is before the start
    and 0 only when the end is less than 12 ms after the start. *)
Theorem twelve_temporal_hours_span_the_day (a b : ZonedDateTime) :
  exists h : Z,
    getTemporalHour (Some a) (Some b) = lit h
    /\ epochMilliseconds a + 12 * h <= epochMilliseconds b < epochMilliseconds a + 12 * h + 12
    /\ getTimeOffset (Some a) (lit 12 * getTemporalHour (Some a) (Some b))%num
       = Ret (Some (mkZonedDateTime (epochMilliseconds a + 12 * h) (timeZone a)))
    /\ (epochMilliseconds b < epochMilliseconds a -> h < 0)
    /\ (h = 0 <-> epochMilliseconds a <= epochMilliseconds b < epochMilliseconds a + 12).
Proof.
  exists ((epochMilliseconds b - epochMilliseconds a) / 12).
  rewrite getTemporalHour_some.
  set (h := (epochMilliseconds b - epochMilliseconds a) / 12).
  pose proof (Z.div_mod (epochMilliseconds b - epochMilliseconds a) 12 ltac:(lia)) as Hd.
  pose proof (Z.mod_pos_bound (epochMilliseconds b - epochMilliseconds a) 12 ltac:(lia)) as Hm.
  fold h in Hd.
  split; [reflexivity|]. split; [lia|]. split.
  - change (lit 12 * lit h)%num with (Fin (inject_Z 12 * inject_Z h)).
    rewrite getTimeOffset_finite, <- inject_Z_mult, Qtrunc_Z. reflexivity.
  - split; [lia|]. split; lia.
Qed.

(** ** [setDate] with an instant *)

Lemma toIntegerIfIntegral_fraction (q : Q) :
  ~ (q == inject_Z (Qfloor q))%Q -> toIntegerIfIntegral (Fin q) = Throw RangeError.
Proof.
  intros H. unfold toIntegerIfIntegral.
  destruct (Qeq_bool q (inject_Z (Qfloor q))) eqn:E; [|reflexivity].
  apply Qeq_bool_iff in E. contradiction.
Qed.

(** X5.  [setDate] with a number of epoch milliseconds, or a [Date] holding
    it, stores the UTC day the instant falls on, also before 1970; so the
    instant of a date and a time of day in UTC gives the date back.  A number
    with a fraction and [NaN] (an invalid [Date]) raise a [RangeError]. *)
Theorem setDate_takes_the_UTC_day (PlainDate_from : string -> outcome PlainDate)
    (this : AstronomicalCalendar.t) :
  (forall n : Z,
     exists d : PlainDate,
       setDate PlainDate_from this (JNumber (lit n))
       = Ret (AstronomicalCalendar.make d (getGeoLocation this) (getAstronomicalCalculator this))
       /\ setDate PlainDate_from this (JDate (lit n))
          = Ret (AstronomicalCalendar.make d (getGeoLocation this) (getAstronomicalCalculator this))
       /\ epochDay d * MS_PER_DAY <= n < (epochDay d + 1) * MS_PER_DAY)
  /\ (forall (d : PlainDate) (h m s ms : Z),
        in_range 0 23 h && in_range 0 59 m && in_range 0 59 s && in_range 0 999 ms = true ->
        setDate PlainDate_from this
          (JNumber (lit (epochMilliseconds (toZonedDateTimeUTC d (mkPlainTime h m s ms)))))
        = Ret (AstronomicalCalendar.make d (getGeoLocation this) (getAstronomicalCalculator this)))
  /\ (forall q : Q,
        ~ (q == inject_Z (Qfloor q))%Q ->
        setDate PlainDate_from this (JNumber (Fin q)) = Throw RangeError
        /\ setDate PlainDate_from this (JDate (Fin q)) = Throw RangeError)
  /\ setDate PlainDate_from this (JNumber NaN) = Throw RangeError
  /\ setDate PlainDate_from this (JDate NaN) = Throw RangeError.
Proof.
  repeat match goal with |- _ /\ _ => split end.
  - intros n. exists (mkPlainDate (n / MS_PER_DAY)).
    unfold setDate, plainDate_of_epochMilliseconds. rewrite toIntegerIfIntegral_lit. cbn [bind].
    split; [reflexivity|]. split; [reflexivity|].
    cbn [epochDay]. unfold MS_PER_DAY.
    pose proof (Z.div_mod n 86400000 ltac:(lia)).
    pose proof (Z.mod_pos_bound n 86400000 ltac:(lia)). lia.
  - intros [d] h m s ms H.
    unfold setDate, plainDate_of_epochMilliseconds. rewrite toIntegerIfIntegral_lit. cbn [bind].
    do 3 f_equal.
    unfold toZonedDateTimeUTC. cbn [epochMilliseconds epochDay hour minute second millisecond].
    unfold in_range in H.
    repeat (apply andb_true_iff in H; destruct H as [H ?]).
    repeat match goal with H : (_ <=? _) = true |- _ => apply Z.leb_le in H end.
    unfold MS_PER_DAY.
    symmetry. apply Z.div_unique with (r := h * 3600000 + m * 60000 + s * 1000 + ms); lia.
  - intros q H. unfold setDate, plainDate_of_epochMilliseconds.
    rewrite (toIntegerIfIntegral_fraction q H). split; reflexivity.
  - reflexivity.
  - reflexivity.
Qed.

Lemma setDate_takes_the_UTC_day_witness :
  setDate (fun _ => Throw RangeError) denver
    (JNumber (lit (epochMilliseconds
                     (toZonedDateTimeUTC (PlainDate_of 2020 6 6) (mkPlainTime 2 32 57 848)))))
  = Ret (AstronomicalCalendar.make (PlainDate_of 2020 6 6) denver_location fixture_calculator)
  /\ setDate (fun _ => Throw RangeError) denver (JNumber (dec 3 2)) = Throw RangeError.
Proof.
  destruct (setDate_takes_the_UTC_day (fun _ => Throw RangeError) denver) as (_ & H2 & H3 & _).
  split.
  - apply (H2 (PlainDate_of 2020 6 6) 2 32 57 848). reflexivity.
  - apply (H3 (3 # 2)%Q). intros E. vm_compute in E. discriminate E.
Defined.

(** ** More on the solar-dip searches *)

Lemma Qtrunc_small (x : Q) : (-1 < x < 1)%Q -> Math.Qtrunc x = 0.
Proof.
  intros [Hlo Hhi]. unfold Math.Qtrunc.
  destruct (Qcompare x 0) eqn:E.
  - apply Qeq_alt in E. apply Qfloor_unique; change (inject_Z 0) with 0%Q;
      change (inject_Z (0 + 1)) with 1%Q; lra.
  - apply Qlt_alt in E.
    pose proof (Qceiling_lt x) as Hc. pose proof (Qle_ceiling x) as Hl.
    assert (A : (inject_Z (-1) < inject_Z (Qceiling x))%Q)
      by (change (inject_Z (-1)) with (-1)%Q; lra).
    assert (B : (inject_Z (Qceiling x - 1) < inject_Z 0)%Q)
      by (change (inject_Z 0) with 0%Q; lra).
    rewrite <- Zlt_Qlt in A, B. lia.
  - apply Qgt_alt in E. apply Qfloor_unique; change (inject_Z 0) with 0%Q;
      change (inject_Z (0 + 1)) with 1%Q; lra.
Qed.



Lemma iterate_body_last {S : Type} (body : S -> outcome S) (n : nat) (s final : S) :
  iterate_body (Datatypes.S n) body s = Ret final ->
  exists s' : S, iterate_body n body s = Ret s' /\ body s' = Ret final.
Proof.
  revert s. induction n as [|n IH]; intros s H.
  - cbn [iterate_body] in *. destruct (body s) as [s1|e] eqn:E; cbn [bind] in H; [|discriminate].
    exists s. split; [reflexivity|]. rewrite E. exact H.
  - change (iterate_body (Datatypes.S (Datatypes.S n)) body s)
      with (bind (body s) (iterate_body (Datatypes.S n) body)) in H.
    destruct (body s) as [s1|e] eqn:E; cbn [bind] in H; [|discriminate].
    destruct (IH s1 H) as (s' & H1 & H2).
    exists s'. split; [|exact H2]. cbn [iterate_body]. rewrite E. exact H1.
Qed.



(** ** The numbers of the almanac calculator *)

Section AlmanacNumbers.

Context {M : MathLibrary}.
Variable adjustZenith : number -> number -> number.

Lemma add24_NaN : SunTimesCalculator.add24_while_negative NaN = NaN.
Proof. apply (add24_while_negative_spec NaN). Qed.

Lemma sub24_NaN : SunTimesCalculator.sub24_while_at_least_24 NaN = NaN.
Proof. apply (sub24_while_at_least_24_spec NaN). Qed.

Lemma getTimeUTC_of_NaN (date : PlainDate) (longitude latitude zenith : number)
    (isSunrise : bool) :
  SunTimesCalculator.getTimeUTC_unwrapped date longitude latitude zenith isSunrise = NaN ->
  SunTimesCalculator.getTimeUTC date longitude latitude zenith isSunrise = NaN.
Proof.
  intros H. unfold SunTimesCalculator.getTimeUTC. cbv zeta. rewrite H, add24_NaN, sub24_NaN.
  reflexivity.
Qed.

Lemma lift2_NaN_l (f : Q -> Q -> Q) (b : number) : Number.lift2 f NaN b = NaN.
Proof. reflexivity. Qed.

Lemma div_NaN_r (a : number) : (a / NaN)%num = NaN.
Proof. destruct a; reflexivity. Qed.

Lemma getCosLocalHourAngle_NaN (sunTrueLongitude latitude zenith : number) :
  latitude = NaN \/ zenith = NaN ->
  SunTimesCalculator.getCosLocalHourAngle sunTrueLongitude latitude zenith = NaN.
Proof.
  intros [-> | ->]; unfold SunTimesCalculator.getCosLocalHourAngle; cbv zeta.
  - change (SunTimesCalculator.cosDeg NaN) with NaN.
    unfold Number.mul at 3. rewrite lift2_NaN_r. apply div_NaN_r.
  - change (SunTimesCalculator.cosDeg NaN) with NaN.
    unfold Number.sub. rewrite lift2_NaN_l. reflexivity.
Qed.

(** X8.  A [NaN] latitude, longitude or adjusted zenith gives [NaN] for the
    sunrise and the sunset of the almanac calculator: nothing is raised and
    the two loops of [getTimeUTC] are not entered. *)
Theorem almanac_times_of_NaN_are_NaN (date : PlainDate) (geoLocation : GeoLocation.t)
    (zenith : number) (adjustForElevation : bool) :
  GeoLocation.getLatitude geoLocation = NaN
  \/ GeoLocation.getLongitude geoLocation = NaN
  \/ adjustZenith zenith
       (if adjustForElevation then GeoLocation.getElevation geoLocation else lit 0) = NaN ->
  SunTimesCalculator.getUTCSunrise adjustZenith date geoLocation zenith adjustForElevation = NaN
  /\ SunTimesCalculator.getUTCSunset adjustZenith date geoLocation zenith adjustForElevation = NaN.
Proof.
  intros H.
  unfold SunTimesCalculator.getUTCSunrise, SunTimesCalculator.getUTCSunset. cbv zeta.
  split; apply getTimeUTC_of_NaN.
  all: destruct H as [H | [H | H]].
  all: try (apply getTimeUTC_unwrapped_unreachable; cbv zeta;
            rewrite getCosLocalHourAngle_NaN by (rewrite H; tauto); reflexivity).
  all: rewrite H; unfold SunTimesCalculator.getTimeUTC_unwrapped; cbv zeta;
    change (SunTimesCalculator.getHoursFromMeridian NaN) with NaN;
    unfold Number.sub at 1; apply lift2_NaN_r.
Qed.

Lemma sinDeg_finite (x : Q) :
  SunTimesCalculator.sinDeg (Fin x) = Fin (sin_fin (x * (884279719003555 # 281474976710656) / inject_Z 180)).
Proof. reflexivity. Qed.

Lemma getMeanAnomaly_finite (doy : Z) (lon : Q) (isSunrise : bool) :
  exists a : Q,
    SunTimesCalculator.getMeanAnomaly (lit doy) (Fin lon) isSunrise = Fin a
    /\ (a == (9856 # 10000)
             * (inject_Z doy + ((if isSunrise then 6 else 18) - lon / 15) / 24)
            - (3289 # 1000))%Q.
Proof.
  destruct isSunrise; eexists; (split; [reflexivity|]);
    unfold Qdiv; change (inject_Z 6) with 6%Q; change (inject_Z 18) with 18%Q;
    change (inject_Z 24) with 24%Q; change (inject_Z 360) with 360%Q; field.
Qed.

(** X9.  For a day of the year from 1 to 366 and a longitude from -180 to
    180, with sines between -1 and 1, [getSunTrueLongitude] of the mean
    anomaly is at least 0 and less than 360, as its comment says: the one
    subtraction or addition of 360 it makes is enough there. *)
Theorem sun_true_longitude_is_within_the_circle (doy : Z) (lon : Q) (isSunrise : bool) :
  1 <= doy <= 366 -> (-180 <= lon <= 180)%Q ->
  let sunMeanAnomaly := SunTimesCalculator.getMeanAnomaly (lit doy) (Fin lon) isSunrise in
  (forall s : Q, SunTimesCalculator.sinDeg sunMeanAnomaly = Fin s -> (-1 <= s <= 1)%Q) ->
  (forall s : Q, SunTimesCalculator.sinDeg (lit 2 * sunMeanAnomaly) = Fin s -> (-1 <= s <= 1)%Q) ->
  exists l : Q,
    SunTimesCalculator.getSunTrueLongitude sunMeanAnomaly = Fin l /\ (0 <= l < 360)%Q.
Proof.
  intros Hd Hl.
  destruct (getMeanAnomaly_finite doy lon isSunrise) as (a & -> & Ha).
  cbv zeta. intros H1 H2.
  change (lit 2 * Fin a)%num with (Fin (inject_Z 2 * a)) in H2.
  rewrite sinDeg_finite in H1, H2.
  specialize (H1 _ eq_refl). specialize (H2 _ eq_refl).
  unfold SunTimesCalculator.getSunTrueLongitude.
  change (lit 2 * Fin a)%num with (Fin (inject_Z 2 * a)).
  rewrite !sinDeg_finite.
  set (s1 := sin_fin (a * _ / _)) in *.
  set (s2 := sin_fin (inject_Z 2 * a * _ / _)) in *.
  change (Fin a + dec 1916 1000 * Fin s1 + dec 20 1000 * Fin s2 + dec 282634 1000)%num
    with (Fin (a + (1916 # 1000) * s1 + (20 # 1000) * s2 + (282634 # 1000))).
  set (l := (a + (1916 # 1000) * s1 + (20 # 1000) * s2 + (282634 # 1000))%Q).
  assert (Hdq : (1 <= inject_Z doy <= 366)%Q).
  { split; [change 1%Q with (inject_Z 1) | change 366%Q with (inject_Z 366)];
      rewrite <- Zle_Qle; lia. }
  assert (Hrange : (270 <= l < 650)%Q).
  { unfold l. rewrite Ha.
    assert (E : (lon / 15 == lon * (1 # 15))%Q) by (field).
    destruct isSunrise; rewrite E; unfold Qdiv;
      change (/ 24)%Q with (1 # 24)%Q; lra. }
  cbv zeta.
  destruct (Fin l >=? lit 360)%num eqn:G.
  - apply geb_true in G. change (inject_Z 360) with 360%Q in G.
    change (Fin l - lit 360)%num with (Fin (l - 360)).
    assert (L : (Fin (l - 360) <? lit 0)%num = false)
      by (apply ltb_false; change (inject_Z 0) with 0%Q; lra).
    rewrite L. exists (l - 360)%Q. split; [reflexivity | lra].
  - apply geb_false in G. change (inject_Z 360) with 360%Q in G.
    assert (L : (Fin l <? lit 0)%num = false)
      by (apply ltb_false; change (inject_Z 0) with 0%Q; lra).
    rewrite L. exists l. split; [reflexivity | lra].
Qed.


End AlmanacNumbers.

Lemma almanac_times_of_NaN_are_NaN_witness :
  SunTimesCalculator.getUTCSunrise (M := series_math) (adjustZenith_model (M := series_math))
    (PlainDate_of 2020 6 5) denver_location NaN true = NaN
  /\ SunTimesCalculator.getUTCSunset (M := series_math) (adjustZenith_model (M := series_math))
       (PlainDate_of 2020 6 5) denver_location NaN true = NaN.
Proof.
  apply (almanac_times_of_NaN_are_NaN (M := series_math)
           (adjustZenith_model (M := series_math)) (PlainDate_of 2020 6 5) denver_location
           NaN true).
  right. right. reflexivity.
Defined.

Lemma sun_true_longitude_is_within_the_circle_witness :
  exists l : Q,
    SunTimesCalculator.getSunTrueLongitude (M := series_math)
      (SunTimesCalculator.getMeanAnomaly (lit 157) (Fin (-1049847 # 10000)) true) = Fin l
    /\ (0 <= l < 360)%Q.
Proof.
  apply (sun_true_longitude_is_within_the_circle (M := series_math) 157 (-1049847 # 10000) true).
  - lia.
  - split; unfold Qle; simpl; lia.
  - intros s E. vm_compute in E. injection E as <-. split; unfold Qle; simpl; lia.
  - intros s E. vm_compute in E. injection E as <-. split; unfold Qle; simpl; lia.
Defined.


(** ** More on the comparators *)

Lemma lit_inj (x y : Z) : lit x = lit y -> x = y.
Proof.
  unfold lit, Number.of_Z. intros H. injection H as H. exact H.
Qed.

Lemma compareTo_rec_zero (s1 s2 : string) : compareTo_rec s1 s2 = 0 <-> s1 = s2.
Proof.
  split; [|intros ->; apply compareTo_rec_refl].
  revert s2. induction s1 as [|a s1 IH]; intros [|b s2]; cbn [compareTo_rec String.length].
  - reflexivity.
  - lia.
  - lia.
  - destruct (Ascii.eqb a b) eqn:E.
    + apply Ascii.eqb_eq in E. subst b. intros H. f_equal. apply IH. exact H.
    + pose proof (ascii_code_neq a b E). lia.
Qed.

Lemma compareTo_rec_app (p s1 s2 : string) :
  compareTo_rec (p ++ s1) (p ++ s2) = compareTo_rec s1 s2.
Proof.
  induction p as [|a p IH]; [reflexivity|].
  cbn [append compareTo_rec]. rewrite Ascii.eqb_refl. exact IH.
Qed.

(** X11.  [StringUtils.compareTo] is 0 exactly on equal strings; a common
    prefix does not count; a string against itself with more characters
    appended is minus the number of characters appended; and two strings
    that differ in their first character compare as the character codes. *)
Theorem compareTo_orders_strings (string1 string2 : string) :
  (StringUtils.compareTo string1 string2 = lit 0 <-> string1 = string2)
  /\ (forall prefix : string,
        StringUtils.compareTo (prefix ++ string1) (prefix ++ string2)
        = StringUtils.compareTo string1 string2)
  /\ StringUtils.compareTo string1 (string1 ++ string2)
     = lit (- Z.of_nat (String.length string2))
  /\ (forall c1 c2 : ascii,
        c1 <> c2 ->
        StringUtils.compareTo (String c1 string1) (String c2 string2)
        = lit (Z.of_nat (nat_of_ascii c1) - Z.of_nat (nat_of_ascii c2))).
Proof.
  repeat match goal with |- _ /\ _ => split end.
  - rewrite compareTo_is_rec. split.
    + intros H. apply compareTo_rec_zero. apply (lit_inj _ 0 H).
    + intros ->. rewrite compareTo_rec_refl. reflexivity.
  - intros prefix. rewrite !compareTo_is_rec, compareTo_rec_app. reflexivity.
  - rewrite compareTo_is_rec. f_equal.
    induction string1 as [|a s IH]; cbn [append compareTo_rec].
    + destruct string2; cbn [String.length]; lia.
    + rewrite Ascii.eqb_refl. exact IH.
  - intros c1 c2 N. rewrite compareTo_is_rec. cbn [compareTo_rec].
    destruct (Ascii.eqb c1 c2) eqn:E; [|reflexivity].
    apply Ascii.eqb_eq in E. contradiction.
Qed.

(** X12.  [IntegerUtils.compare] answers -1 as soon as an argument is [NaN],
    in either position (so it is not antisymmetric there); on two finite
    numbers it is 0, 1 or -1 exactly as they are equal, the first greater, or
    the first less. *)
Theorem compare_of_NaN_is_minus_one (x : number) :
  IntegerUtils.compare NaN x = lit (-1)
  /\ IntegerUtils.compare x NaN = lit (-1)
  /\ (forall a b : Q,
        IntegerUtils.compare (Fin a) (Fin b) = lit 0 <-> (a == b)%Q)
  /\ (forall a b : Q,
        IntegerUtils.compare (Fin a) (Fin b) = lit 1 <-> (b < a)%Q)
  /\ (forall a b : Q,
        IntegerUtils.compare (Fin a) (Fin b) = lit (-1) <-> (a < b)%Q).
Proof.
  repeat match goal with |- _ /\ _ => split end.
  - destruct x; reflexivity.
  - destruct x; reflexivity.
  - intros a b. rewrite compare_finite.
    destruct (Qsign_compare_spec a b) as [[-> H]|[[-> H]|[-> H]]]; split; intros H';
      try exact H; try reflexivity; try (apply lit_inj in H'; discriminate H'); lra.
  - intros a b. rewrite compare_finite.
    destruct (Qsign_compare_spec a b) as [[-> H]|[[-> H]|[-> H]]]; split; intros H';
      try exact H; try reflexivity; try (apply lit_inj in H'; discriminate H'); lra.
  - intros a b. rewrite compare_finite.
    destruct (Qsign_compare_spec a b) as [[-> H]|[[-> H]|[-> H]]]; split; intros H';
      try exact H; try reflexivity; try (apply lit_inj in H'; discriminate H'); lra.
Qed.

(** X13.  In the date order a [Zman] that holds a duration counts as the
    epoch: it comes before a dated [Zman] exactly when that date is after
    1970-01-01T00:00Z, and all of them compare equal among themselves;
    likewise all dated ones are equal in the duration order. *)
Theorem date_order_puts_durations_at_the_epoch (duration : number) (date : ZonedDateTime)
    (l1 l2 : option string) :
  let byDuration := Zman.new (inl duration) (inl l1) None in
  let byDate := Zman.new (inr date) (inl l2) None in
  (Zman.compareDateOrder byDuration byDate = lit (-1) <-> 0 < epochMilliseconds date)
  /\ (Zman.compareDateOrder byDuration byDate = lit 0 <-> epochMilliseconds date = 0)
  /\ (Zman.compareDateOrder byDuration byDate = lit 1 <-> epochMilliseconds date < 0)
  /\ (forall (other : number) (l3 : option string),
        Zman.compareDateOrder byDuration (Zman.new (inl other) (inl l3) None) = lit 0)
  /\ (forall (other : ZonedDateTime) (l3 : option string),
        Zman.compareDurationOrder byDate (Zman.new (inr other) (inl l3) None) = lit 0).
Proof.
  cbv zeta.
  assert (E : forall z : Z,
             IntegerUtils.compare (lit 0) (lit z)
             = lit (Qsign_compare (inject_Z 0) (inject_Z z))).
  { intros z. apply compare_finite. }
  assert (D : Zman.compareDateOrder (Zman.new (inl duration) (inl l1) None)
                (Zman.new (inr date) (inl l2) None)
              = lit (Qsign_compare (inject_Z 0) (inject_Z (epochMilliseconds date)))).
  { unfold Zman.compareDateOrder. cbv zeta. rewrite !epochMilliseconds_or_0_finite.
    cbn [Zman.new Zman.zman]. apply E. }
  rewrite D.
  assert (S : (lit 0 = lit (-1) <-> False) /\ (lit 1 = lit (-1) <-> False)
              /\ (lit (-1) = lit 0 <-> False) /\ (lit 1 = lit 0 <-> False)
              /\ (lit (-1) = lit 1 <-> False) /\ (lit 0 = lit 1 <-> False)).
  { repeat split; try tauto; intros H'; apply lit_inj in H'; discriminate H'. }
  destruct S as (S1 & S2 & S3 & S4 & S5 & S6).
  destruct (Qsign_compare_spec (inject_Z 0) (inject_Z (epochMilliseconds date)))
    as [[-> H]|[[-> H]|[-> H]]].
  - assert (H0 : epochMilliseconds date = 0) by (unfold Qeq in H; cbn in H; lia).
    rewrite S1, S6.
    repeat match goal with |- _ /\ _ => split end;
      try (intros other l3; reflexivity);
      try (split; [intros _; lia | intros _; reflexivity]);
      try (split; [tauto | intros; lia]).
  - rewrite <- Zlt_Qlt in H.
    rewrite S3, S5.
    repeat match goal with |- _ /\ _ => split end;
      try (intros other l3; reflexivity);
      try (split; [intros _; lia | intros _; reflexivity]);
      try (split; [tauto | intros; lia]).
  - rewrite <- Zlt_Qlt in H.
    rewrite S2, S4.
    repeat match goal with |- _ /\ _ => split end;
      try (intros other l3; reflexivity);
      try (split; [intros _; lia | intros _; reflexivity]);
      try (split; [tauto | intros; lia]).
Qed.

(** ** Whole numbers *)

Lemma all_from_spec (n : nat) (lo : Z) (f : Z -> bool) :
  all_from n lo f = true -> forall z, lo <= z < lo + Z.of_nat n -> f z = true.
Proof.
  revert lo. induction n as [|n IH]; intros lo H z Hz; [lia|].
  cbn [all_from] in H. apply andb_true_iff in H. destruct H as [H1 H2].
  destruct (Z.eq_dec z lo) as [-> | N]; [exact H1|].
  apply (IH (lo + 1) H2). lia.
Qed.

Lemma lit_sub (a b : Z) : (lit a - lit b)%num = lit (a - b).
Proof.
  unfold lit, Number.of_Z, Number.sub, Number.lift2, Z.sub, Qminus.
  rewrite inject_Z_plus, inject_Z_opp. reflexivity.
Qed.

Lemma geb_lit (a b : Z) : (lit a >=? lit b)%num = (b <=? a).
Proof.
  unfold lit, Number.of_Z. destruct (b <=? a) eqn:E.
  - apply geb_true. rewrite <- Zle_Qle. apply Z.leb_le. exact E.
  - apply geb_false. rewrite <- Zlt_Qlt. apply Z.leb_gt. exact E.
Qed.

(** ** [padZeros] *)

Lemma decimal_value_app (acc : Z) (s1 s2 : string) :
  decimal_value acc (s1 ++ s2) = decimal_value (decimal_value acc s1) s2.
Proof.
  revert acc. induction s1 as [|c s1 IH]; intros acc; cbn [append decimal_value];
    [reflexivity | apply IH].
Qed.

Lemma digit_char_value (d : Z) :
  0 <= d < 10 -> Z.of_nat (nat_of_ascii (JSString.digit_char d)) - 48 = d.
Proof.
  intros H. unfold JSString.digit_char. rewrite nat_ascii_embedding by lia. lia.
Qed.

Lemma decimal_value_digits (n : Z) : 0 <= n -> decimal_value 0 (JSString.digits n) = n.
Proof.
  funelim (JSString.digits n); intros Hn.
  - match goal with E : (_ <? 10) = true |- _ => pose proof (proj1 (Z.ltb_lt _ _) E) as Hlt end.
    cbn [decimal_value].
    rewrite digit_char_value by lia. lia.
  - match goal with E : (_ <? 10) = false |- _ => pose proof (proj1 (Z.ltb_ge _ _) E) as Hge end.
    match goal with IH : _ -> decimal_value _ _ = _ |- _ =>
      rewrite decimal_value_app, IH by (apply Z.div_pos; lia) end.
    cbn [decimal_value]. rewrite digit_char_value by (apply Z.mod_pos_bound; lia).
    pose proof (Z.div_mod n 10 ltac:(lia)). lia.
Qed.

Lemma length_append (s1 s2 : string) :
  String.length (s1 ++ s2) = (String.length s1 + String.length s2)%nat.
Proof.
  induction s1 as [|c s1 IH]; cbn [append String.length]; [reflexivity | rewrite IH; reflexivity].
Qed.

Lemma length_digits (n : Z) (k : nat) :
  0 <= n < 10 ^ Z.of_nat (S k) -> (String.length (JSString.digits n) <= S k)%nat.
Proof.
  revert k. funelim (JSString.digits n); intros k Hn.
  - cbn [String.length]. lia.
  - match goal with E : (_ <? 10) = false |- _ => pose proof (proj1 (Z.ltb_ge _ _) E) as Hge end.
    rewrite length_append. cbn [String.length].
    destruct k as [|k].
    + change (10 ^ Z.of_nat 1) with 10 in Hn. lia.
    + assert (String.length (JSString.digits (n / 10)) <= S k)%nat.
      { match goal with IH : forall _, _ -> (_ <= _)%nat |- _ => apply IH end. split; [apply Z.div_pos; lia|].
        apply Z.div_lt_upper_bound; [lia|].
        rewrite <- Z.pow_succ_r by lia. rewrite <- Nat2Z.inj_succ. lia. }
      lia.
Qed.

Lemma repeat_string_length (c : ascii) (n : nat) :
  String.length (JSString.repeat_string (String c EmptyString) n) = n.
Proof. induction n as [|n IH]; cbn; [reflexivity | rewrite IH; reflexivity]. Qed.

Lemma substring_all (s : string) : String.substring 0 (String.length s) s = s.
Proof. induction s as [|c s IH]; cbn; [reflexivity | rewrite IH; reflexivity]. Qed.

Lemma substring_drop_zeros (c : ascii) (k p : nat) (d : string) :
  (k <= p)%nat ->
  String.substring k (p - k + String.length d)
    (JSString.repeat_string (String c EmptyString) p ++ d)
  = (JSString.repeat_string (String c EmptyString) (p - k) ++ d)%string.
Proof.
  revert p. induction k as [|k IH]; intros p H.
  - rewrite Nat.sub_0_r.
    rewrite <- (repeat_string_length c p) at 1. rewrite <- length_append.
    apply substring_all.
  - destruct p as [|p]; [lia|].
    cbn [JSString.repeat_string append String.substring].
    rewrite Nat.sub_succ. apply IH. lia.
Qed.

Lemma decimal_value_zeros (n : nat) (s : string) :
  decimal_value 0 (JSString.repeat_string "0" n ++ s) = decimal_value 0 s.
Proof.
  induction n as [|n IH]; [reflexivity|].
  cbn [JSString.repeat_string append decimal_value]. exact IH.
Qed.

Lemma pow10_whole (places : Z) :
  0 <= places -> pow10 places = Fin (inject_Z (10 ^ places)).
Proof.
  intros H. unfold pow10. f_equal.
  destruct places as [|p|p]; [reflexivity| |lia].
  unfold Qpower, inject_Z. rewrite Qpower_decomp_positive.
  f_equal. apply Pos2Z.inj. rewrite Pos2Z.inj_pow. apply Z.pow_1_l. lia.
Qed.

Lemma geb_lit_pow10 (n places : Z) :
  0 <= places -> (lit n >=? pow10 places)%num = (10 ^ places <=? n).
Proof.
  intros H. rewrite pow10_whole by exact H. apply geb_lit.
Qed.

Lemma toString_lit (n : Z) : 0 <= n -> JSString.toString (lit n) = JSString.digits n.
Proof.
  intros H. unfold lit, Number.of_Z, JSString.toString.
  rewrite Qfloor_Z. destruct (n <? 0) eqn:E; [apply Z.ltb_lt in E; lia | reflexivity].
Qed.

Lemma pow10_negative (p : positive) :
  exists q, pow10 (Z.neg p) = Fin q /\ (0 < q < 1)%Q.
Proof.
  unfold pow10. eexists. split; [reflexivity|].
  change (Qpower (inject_Z 10) (Z.neg p)) with (/ Qpower_positive (inject_Z 10) p)%Q.
  unfold inject_Z. rewrite Qpower_decomp_positive.
  assert (P1 : (1 ^ p)%positive = 1%positive)
    by (apply Pos2Z.inj; rewrite Pos2Z.inj_pow; apply Z.pow_1_l; lia).
  rewrite P1.
  assert (G : 1 < 10 ^ Z.pos p) by (apply Z.pow_gt_1; lia).
  assert (Q1 : (1 < 10 ^ Z.pos p # 1)%Q) by (unfold Qlt; cbn; lia).
  split.
  - apply Qinv_lt_0_compat. lra.
  - apply Qlt_shift_inv_r; lra.
Qed.

Lemma slice_pads (places : nat) (d : string) :
  (String.length d <= places)%nat ->
  JSString.slice (JSString.repeat_string "0" places ++ d) (- Z.of_nat places)
  = (JSString.repeat_string "0" (places - String.length d) ++ d)%string.
Proof.
  intros H. unfold JSString.slice.
  rewrite length_append, repeat_string_length.
  destruct places as [|k].
  - assert (L : String.length d = 0%nat) by lia.
    destruct d; [reflexivity | discriminate L].
  - assert (E : (- Z.of_nat (S k) <? 0) = true) by (apply Z.ltb_lt; lia).
    rewrite E.
    replace (Z.to_nat (Z.max (Z.of_nat (S k + String.length d) + - Z.of_nat (S k)) 0))
      with (String.length d) by lia.
    replace (Z.to_nat (Z.of_nat (S k + String.length d)
               - Z.max (Z.of_nat (S k + String.length d) + - Z.of_nat (S k)) 0))
      with (S k - String.length d + String.length d)%nat by lia.
    apply substring_drop_zeros. exact H.
Qed.



(** ** The Julian day *)

Lemma trunc_of_Z_div (n m : Z) :
  0 <= n -> 0 < m -> Math.trunc (lit n / lit m)%num = lit (n / m).
Proof.
  intros Hn Hm. unfold Number.div, lit, Number.of_Z.
  assert (E : Qeq_bool (inject_Z m) 0 = false).
  { apply not_true_iff_false. intro H. apply Qeq_bool_iff in H.
    unfold Qeq in H. simpl in H. lia. }
  rewrite E. unfold Math.trunc. rewrite Qtrunc_nonneg.
  - unfold Number.of_Z. rewrite <- Zdiv_Qdiv. reflexivity.
  - apply Qle_shift_div_l.
    + change 0%Q with (inject_Z 0). rewrite <- Zlt_Qlt. exact Hm.
    + rewrite Qmult_0_l. change 0%Q with (inject_Z 0). rewrite <- Zle_Qle. exact Hn.
Qed.

Lemma floor_of_decimal (n : Z) (d : positive) (k : Z) :
  Math.floor (dec n d * lit k)%num = lit ((n * k) / Z.pos d).
Proof.
  unfold Math.floor, dec, lit, Number.of_Z, Number.mul, Number.lift2.
  f_equal. f_equal. unfold Qfloor, Qmult, inject_Z. cbn [Qnum Qden].
  rewrite Pos.mul_1_r. reflexivity.
Qed.

Lemma getJulianDay_whole (date : PlainDate) :
  0 <= (if month date <=? 2 then year date - 1 else year date) ->
  1 <= month date -> 1 <= day date ->
  YomiCalculator.getJulianDay date
  = lit (julian_day_of_civil (year date) (month date) (day date)).
Proof.
  intros Hy Hm Hd. unfold YomiCalculator.getJulianDay, julian_day_of_civil.
  set (y := year date) in *. set (m := month date) in *. set (d := day date) in *.
  cbv zeta.
  rewrite geb_lit.
  assert (A : forall a b, (lit a + lit b)%num = lit (a + b)).
  { intros a b. unfold lit, Number.of_Z, Number.add, Number.lift2. rewrite inject_Z_plus. reflexivity. }
  pose proof lit_sub as S.
  set (y' := if m <=? 2 then y - 1 else y).
  set (m' := if m <=? 2 then m + 12 else m).
  assert (E : (if m <=? 2 then ((lit y - lit 1)%num, (lit m + lit 12)%num) else (lit y, lit m))
              = (lit y', lit m')).
  { unfold y', m'. destruct (m <=? 2); rewrite ?A, ?S; reflexivity. }
  rewrite E.
  assert (Hy' : 0 <= y') by exact Hy.
  rewrite (trunc_of_Z_div y' 100) by lia.
  assert (Ha : 0 <= y' / 100) by (apply Z.div_pos; lia).
  rewrite (trunc_of_Z_div (y' / 100) 4) by lia.
  rewrite !A, !S, !A, !floor_of_decimal, !A.
  set (X := 36525 * (y' + 4716) / 100 + 306001 * (m' + 1) / 10000 + d + (2 - y' / 100 + y' / 100 / 4)).
  assert (Hm' : 1 <= m') by (unfold m'; destruct (m <=? 2); lia).
  assert (HX : 1525 <= X).
  { unfold X.
    assert (0 <= 306001 * (m' + 1) / 10000) by (apply Z.div_pos; lia).
    assert (365 * (y' + 4716) <= 36525 * (y' + 4716) / 100)
      by (apply Z.div_le_lower_bound; lia).
    assert (y' / 100 <= y') by (apply Z.div_le_upper_bound; lia).
    assert (0 <= y' / 100 / 4) by (apply Z.div_pos; lia).
    lia. }
  clearbody X.
  change (lit X - dec 15245 10)%num with (Fin (inject_Z X - (15245 # 10))).
  unfold Math.trunc, lit, Number.of_Z. f_equal. f_equal.
  assert (P : (0 <= inject_Z X - (15245 # 10))%Q).
  { assert (inject_Z 1525 <= inject_Z X)%Q by (rewrite <- Zle_Qle; exact HX).
    change (inject_Z 1525) with 1525%Q in H. lra. }
  rewrite (Qtrunc_nonneg _ P).
  apply Qfloor_unique.
  - unfold Z.sub. rewrite inject_Z_plus. change (inject_Z (- (1525))) with (-1525)%Q. lra.
  - unfold Z.sub. rewrite !inject_Z_plus. change (inject_Z (- (1525))) with (-1525)%Q.
    change (inject_Z 1) with 1%Q. lra.
Qed.

Lemma julian_day_of_civil_from_days (z : Z) :
  epochDay (PlainDate_of 0 3 1) <= z ->
  let '(y, m, d) := civil_from_days z in
  julian_day_of_civil y m d = z + 2440587
  /\ 0 <= (if m <=? 2 then y - 1 else y) /\ 1 <= m <= 12 /\ 1 <= d <= 31.
Proof.
  change (epochDay (PlainDate_of 0 3 1)) with (-719468). intros H.
  unfold civil_from_days. cbv zeta.
  set (z' := z + 719468).
  set (era := z' / 146097).
  set (doe := z' - era * 146097).
  set (yoe := (doe - doe / 1460 + doe / 36524 - doe / 146096) / 365).
  set (doy := doe - (365 * yoe + yoe / 4 - yoe / 100)).
  set (mp := (5 * doy + 2) / 153).
  set (d := doy - (153 * mp + 2) / 5 + 1).
  assert (Hera : 0 <= era) by (apply Z.div_pos; unfold z'; lia).
  assert (Hdoe : 0 <= doe <= 146096).
  { unfold doe, era. pose proof (Z.div_mod z' 146097 ltac:(lia)).
    pose proof (Z.mod_pos_bound z' 146097 ltac:(lia)). lia. }
  assert (Hyoe : 0 <= yoe <= 399) by (unfold yoe; Z.div_mod_to_equations; lia).
  assert (Hdoy : 0 <= doy <= 365) by (unfold doy, yoe; Z.div_mod_to_equations; lia).
  assert (Hmp : 0 <= mp <= 11) by (unfold mp; Z.div_mod_to_equations; lia).
  assert (Hd : 1 <= d <= 31) by (unfold d, mp; Z.div_mod_to_equations; lia).
  assert (M : 306001 * (mp + 4) / 10000 - (153 * mp + 2) / 5 = 122)
    by (Z.div_mod_to_equations; lia).
  unfold julian_day_of_civil. cbv zeta.
  set (m := if mp <? 10 then mp + 3 else mp - 9).
  assert (Em : (if m <=? 2 then m + 12 else m) = mp + 3).
  { unfold m. destruct (mp <? 10) eqn:E.
    - apply Z.ltb_lt in E. replace (mp + 3 <=? 2) with false by (symmetry; apply Z.leb_gt; lia).
      reflexivity.
    - apply Z.ltb_ge in E. replace (mp - 9 <=? 2) with true by (symmetry; apply Z.leb_le; lia).
      ring. }
  assert (Ey : (if m <=? 2 then (if m <=? 2 then yoe + era * 400 + 1 else yoe + era * 400) - 1
                else (if m <=? 2 then yoe + era * 400 + 1 else yoe + era * 400))
               = yoe + era * 400).
  { destruct (m <=? 2); ring. }
  rewrite Em, Ey.
  assert (Hm : 1 <= m <= 12) by (unfold m; destruct (mp <? 10) eqn:E;
    [apply Z.ltb_lt in E | apply Z.ltb_ge in E]; lia).
  split; [|lia].
  replace (mp + 3 + 1) with (mp + 4) by ring.
  assert (A1 : 36525 * (yoe + era * 400 + 4716) / 100
               = 365 * (yoe + era * 400 + 4716) + 100 * era + yoe / 4 + 1179)
    by (Z.div_mod_to_equations; lia).
  assert (A2 : (yoe + era * 400) / 100 = 4 * era + yoe / 100)
    by (Z.div_mod_to_equations; lia).
  assert (A3 : (4 * era + yoe / 100) / 4 = era)
    by (Z.div_mod_to_equations; lia).
  rewrite A1, A2, A3. unfold d, doy, doe, z'. fold z'. fold era. lia.
Qed.

Lemma getJulianDay_of_epochDay (date : PlainDate) :
  -719468 <= epochDay date ->
  YomiCalculator.getJulianDay date = lit (epochDay date + 2440587).
Proof.
  intros H.
  pose proof (julian_day_of_civil_from_days (epochDay date) H) as C.
  destruct (civil_from_days (epochDay date)) as [[y m] d] eqn:E.
  destruct C as (C & Hy & Hm & Hd).
  assert (Ey : year date = y) by (unfold year; rewrite E; reflexivity).
  assert (Em : month date = m) by (unfold month; rewrite E; reflexivity).
  assert (Ed : day date = d) by (unfold day; rewrite E; reflexivity).
  rewrite getJulianDay_whole by (rewrite ?Ey, ?Em, ?Ed; lia).
  rewrite Ey, Em, Ed, C. reflexivity.
Qed.

(** X15.  From 1 March of the year 0 on, [getJulianDay] is a whole number,
    the number of the day since 1970-01-01 plus 2440587: it grows by one with
    every day of the calendar, over the ends of months, years and
    centuries. *)
Theorem getJulianDay_counts_the_days (date : PlainDate) :
  epochDay (PlainDate_of 0 3 1) <= epochDay date ->
  YomiCalculator.getJulianDay date = lit (epochDay date + 2440587).
Proof.
  change (epochDay (PlainDate_of 0 3 1)) with (-719468).
  apply getJulianDay_of_epochDay.
Qed.

Lemma getJulianDay_counts_the_days_witness :
  YomiCalculator.getJulianDay (PlainDate_of 2020 6 5)
  = lit (epochDay (PlainDate_of 2020 6 5) + 2440587).
Proof.
  apply (getJulianDay_counts_the_days (PlainDate_of 2020 6 5)).
  apply Z.leb_le. vm_compute. reflexivity.
Defined.

(** ** The daf of the day *)

Lemma whole_daf_some (table : list Z) (dafNo m b : Z) :
  whole_daf table dafNo = Some (m, b) ->
  YomiCalculator.find_daf table (lit dafNo) 0 (-1) = Some (Daf.make (lit m) (lit b)).
Proof.
  unfold whole_daf.
  destruct (YomiCalculator.find_daf table (lit dafNo) 0 (-1)) as [[[|[mn [| |]]] [|[bn [| |]]]]|];
    try discriminate.
  intros H. injection H as -> ->. reflexivity.
Qed.

Lemma Number_rem_lit (a b : Z) :
  0 <= a -> 0 < b -> Number_rem (lit a) (lit b) = lit (a mod b).
Proof.
  intros Ha Hb. unfold Number_rem, lit, Number.of_Z.
  assert (E : Qeq_bool (inject_Z b) 0 = false).
  { apply not_true_iff_false. intro H. apply Qeq_bool_iff in H.
    unfold Qeq in H. simpl in H. lia. }
  rewrite E.
  assert (T : Math.Qtrunc (inject_Z a / inject_Z b) = a / b).
  { pose proof (trunc_of_Z_div a b Ha Hb) as H.
    unfold Number.div, lit, Number.of_Z in H. rewrite E in H.
    unfold Math.trunc, Number.of_Z in H. injection H as H. exact H. }
  rewrite T. unfold inject_Z, Qminus, Qplus, Qopp, Qmult. cbn [Qnum Qden].
  f_equal. f_equal. change (Z.pos (1 * 1)) with 1. rewrite Z.mod_eq by lia. ring.
Qed.

Lemma getDafYomiBavli_new_cycles (date : PlainDate) :
  epochDay YomiCalculator.shekalimChangeDate <= epochDay date ->
  YomiCalculator.getDafYomiBavli date
  = Ok (YomiCalculator.find_daf YomiCalculator.blattPerMasechta
          (lit ((epochDay date - 2000) mod 2711)) 0 (-1)).
Proof.
  change (epochDay YomiCalculator.shekalimChangeDate) with 2000. intros H.
  unfold YomiCalculator.getDafYomiBavli. cbv zeta.
  change (epochDay YomiCalculator.shekalimChangeDate) with 2000.
  change (epochDay YomiCalculator.dafYomiStartDate) with (-16914).
  replace (epochDay date <? -16914) with false by (symmetry; apply Z.ltb_ge; lia).
  replace ((2000 <? epochDay date) || (epochDay date =? 2000)) with true.
  2:{ symmetry. apply orb_true_iff. destruct (Z.eq_dec (epochDay date) 2000) as [E | N].
      - right. apply Z.eqb_eq. exact E.
      - left. apply Z.ltb_lt. lia. }
  rewrite getJulianDay_of_epochDay by lia.
  change YomiCalculator.shekalimJulianChangeDay with (lit 2442587).
  rewrite lit_sub.
  replace (epochDay date + 2440587 - 2442587) with (epochDay date - 2000) by ring.
  rewrite Number_rem_lit by lia.
  set (diff := epochDay date - 2000).
  assert (C : (lit 7 >=? lit 8 + lit diff / lit 2711)%num = false).
  { unfold lit, Number.of_Z. cbn [Number.div Number.add Number.lift2].
    change (Qeq_bool (inject_Z 2711) 0) with false. cbv iota.
    apply geb_false.
    assert (0 <= inject_Z diff / inject_Z 2711)%Q.
    { apply Qle_shift_div_l; [reflexivity|]. rewrite Qmult_0_l.
      change 0%Q with (inject_Z 0). rewrite <- Zle_Qle. unfold diff. lia. }
    change (inject_Z 7) with 7%Q. change (inject_Z 8) with 8%Q. lra. }
  rewrite C. reflexivity.
Qed.

Lemma getDafYomiBavli_old_cycles (date : PlainDate) :
  epochDay YomiCalculator.dafYomiStartDate <= epochDay date
  < epochDay YomiCalculator.shekalimChangeDate ->
  YomiCalculator.getDafYomiBavli date
  = Ok (YomiCalculator.find_daf
          (if epochDay date + 16914 <=? 16212 then old_table
           else YomiCalculator.blattPerMasechta)
          (lit ((epochDay date + 16914) mod 2702)) 0 (-1)).
Proof.
  change (epochDay YomiCalculator.shekalimChangeDate) with 2000.
  change (epochDay YomiCalculator.dafYomiStartDate) with (-16914). intros H.
  unfold YomiCalculator.getDafYomiBavli. cbv zeta.
  change (epochDay YomiCalculator.shekalimChangeDate) with 2000.
  change (epochDay YomiCalculator.dafYomiStartDate) with (-16914).
  replace (epochDay date <? -16914) with false by (symmetry; apply Z.ltb_ge; lia).
  replace ((2000 <? epochDay date) || (epochDay date =? 2000)) with false.
  2:{ symmetry. apply orb_false_iff. split; [apply Z.ltb_ge | apply Z.eqb_neq]; lia. }
  rewrite getJulianDay_of_epochDay by lia.
  change YomiCalculator.dafYomiJulianStartDay with (lit 2423673).
  rewrite lit_sub.
  replace (epochDay date + 2440587 - 2423673) with (epochDay date + 16914) by ring.
  rewrite Number_rem_lit by lia.
  set (diff := epochDay date + 16914).
  assert (C : (lit 7 >=? lit 1 + lit diff / lit 2702)%num = (diff <=? 16212)).
  { unfold lit, Number.of_Z. cbn [Number.div Number.add Number.lift2].
    change (Qeq_bool (inject_Z 2702) 0) with false. cbv iota.
    assert (E : (inject_Z diff / inject_Z 2702 == inject_Z diff * (1 # 2702))%Q)
      by (change (inject_Z 2702) with 2702%Q; field).
    change (inject_Z 7) with 7%Q. change (inject_Z 1) with 1%Q.
    destruct (diff <=? 16212) eqn:D.
    - apply geb_true. rewrite E. apply Z.leb_le in D.
      assert (inject_Z diff <= inject_Z 16212)%Q by (rewrite <- Zle_Qle; exact D).
      change (inject_Z 16212) with 16212%Q in H0. lra.
    - apply geb_false. rewrite E. apply Z.leb_gt in D.
      assert (inject_Z 16212 < inject_Z diff)%Q by (rewrite <- Zlt_Qlt; exact D).
      change (inject_Z 16212) with 16212%Q in H0. lra. }
  rewrite C. reflexivity.
Qed.

Lemma new_table_in_range :
  all_from (Z.to_nat 2711) 0 (daf_in_range YomiCalculator.blattPerMasechta) = true.
Proof. vm_compute. reflexivity. Qed.

Lemma old_table_in_range :
  all_from (Z.to_nat 2702) 0 (daf_in_range old_table) = true.
Proof. vm_compute. reflexivity. Qed.

Lemma new_table_increases :
  all_from (Z.to_nat 2710) 0
    (fun r => daf_code YomiCalculator.blattPerMasechta r
              <? daf_code YomiCalculator.blattPerMasechta (r + 1)) = true.
Proof. vm_compute. reflexivity. Qed.

Lemma daf_in_range_some (table : list Z) (r : Z) :
  daf_in_range table r = true ->
  exists m b : Z,
    YomiCalculator.find_daf table (lit r) 0 (-1) = Some (Daf.make (lit m) (lit b))
    /\ 0 <= m <= 39 /\ 2 <= b <= 176.
Proof.
  unfold daf_in_range. destruct (whole_daf table r) as [[m b]|] eqn:E; [|discriminate].
  intros H. repeat (apply andb_true_iff in H; destruct H as [H ?]).
  repeat match goal with H : (_ <=? _) = true |- _ => apply Z.leb_le in H end.
  exists m, b. split; [apply whole_daf_some; exact E | lia].
Qed.

(** X16.  [getDafYomiBavli] raises [IllegalArgumentException] for every date
    before 11 September 1923, and from that day on it finds a daf for every
    date: the loop never ends without one, the masechta is from 0 to 39 and
    the daf a whole number from 2 to 176. *)
Theorem getDafYomiBavli_always_finds_a_daf (date : PlainDate) :
  (epochDay date < epochDay (PlainDate_of 1923 9 11) ->
   YomiCalculator.getDafYomiBavli date = Raise IllegalArgumentException)
  /\ (epochDay (PlainDate_of 1923 9 11) <= epochDay date ->
      exists m b : Z,
        YomiCalculator.getDafYomiBavli date = Ok (Some (Daf.make (lit m) (lit b)))
        /\ 0 <= m <= 39 /\ 2 <= b <= 176).
Proof.
  change (epochDay (PlainDate_of 1923 9 11)) with (-16914).
  split; intros H.
  - unfold YomiCalculator.getDafYomiBavli. cbv zeta.
    change (epochDay YomiCalculator.dafYomiStartDate) with (-16914).
    replace (epochDay date <? -16914) with true by (symmetry; apply Z.ltb_lt; lia).
    reflexivity.
  - destruct (Z_lt_le_dec (epochDay date) 2000) as [Hold | Hnew].
    + rewrite getDafYomiBavli_old_cycles
        by (change (epochDay YomiCalculator.shekalimChangeDate) with 2000;
            change (epochDay YomiCalculator.dafYomiStartDate) with (-16914); lia).
      pose proof (Z.mod_pos_bound (epochDay date + 16914) 2702 ltac:(lia)) as Hr.
      set (r := (epochDay date + 16914) mod 2702) in *.
      destruct (epochDay date + 16914 <=? 16212).
      * destruct (daf_in_range_some old_table r) as (m & b & E & Hm & Hb).
        { apply (all_from_spec _ _ _ old_table_in_range). rewrite Z2Nat.id by lia. lia. }
        exists m, b. rewrite E. split; [reflexivity | lia].
      * destruct (daf_in_range_some YomiCalculator.blattPerMasechta r) as (m & b & E & Hm & Hb).
        { apply (all_from_spec _ _ _ new_table_in_range). rewrite Z2Nat.id by lia. lia. }
        exists m, b. rewrite E. split; [reflexivity | lia].
    + rewrite getDafYomiBavli_new_cycles
        by (change (epochDay YomiCalculator.shekalimChangeDate) with 2000; lia).
      pose proof (Z.mod_pos_bound (epochDay date - 2000) 2711 ltac:(lia)) as Hr.
      set (r := (epochDay date - 2000) mod 2711) in *.
      destruct (daf_in_range_some YomiCalculator.blattPerMasechta r) as (m & b & E & Hm & Hb).
      { apply (all_from_spec _ _ _ new_table_in_range). rewrite Z2Nat.id by lia. lia. }
      exists m, b. rewrite E. split; [reflexivity | lia].
Qed.

Lemma daf_code_increases (r1 r2 : Z) :
  0 <= r1 -> r1 < r2 -> r2 < 2711 ->
  daf_code YomiCalculator.blattPerMasechta r1 < daf_code YomiCalculator.blattPerMasechta r2.
Proof.
  intros H1 H12 H2.
  assert (G : forall n : nat,
             r1 + 1 + Z.of_nat n < 2711 ->
             daf_code YomiCalculator.blattPerMasechta r1
             < daf_code YomiCalculator.blattPerMasechta (r1 + 1 + Z.of_nat n)).
  { induction n as [|n IH]; intros Hn.
    - rewrite Z.add_0_r. apply Z.ltb_lt.
      apply (all_from_spec _ _ _ new_table_increases r1). rewrite Z2Nat.id by lia. lia.
    - eapply Z.lt_trans; [apply IH; lia|].
      replace (r1 + 1 + Z.of_nat (S n)) with (r1 + 1 + Z.of_nat n + 1) by lia.
      apply Z.ltb_lt.
      apply (all_from_spec _ _ _ new_table_increases (r1 + 1 + Z.of_nat n)).
      rewrite Z2Nat.id by lia. lia. }
  replace r2 with (r1 + 1 + Z.of_nat (Z.to_nat (r2 - r1 - 1))) by lia.
  apply G. lia.
Qed.

Lemma find_daf_code (r1 r2 : Z) :
  YomiCalculator.find_daf YomiCalculator.blattPerMasechta (lit r1) 0 (-1)
  = YomiCalculator.find_daf YomiCalculator.blattPerMasechta (lit r2) 0 (-1) ->
  daf_code YomiCalculator.blattPerMasechta r1 = daf_code YomiCalculator.blattPerMasechta r2.
Proof. intros H. unfold daf_code, whole_daf. rewrite H. reflexivity. Qed.

(** X17.  From 24 June 1975 on the daf comes back every 2711 days and on no
    day in between: a cycle starts with masechta 0, daf 2, on every day that
    is a multiple of 2711 days after that date, and two dates with the same
    daf are a multiple of 2711 days apart. *)
Theorem getDafYomiBavli_repeats_every_2711_days (date : PlainDate) :
  epochDay (PlainDate_of 1975 6 24) <= epochDay date ->
  YomiCalculator.getDafYomiBavli (add_days date 2711) = YomiCalculator.getDafYomiBavli date
  /\ ((epochDay date - epochDay (PlainDate_of 1975 6 24)) mod 2711 = 0 ->
      YomiCalculator.getDafYomiBavli date = Ok (Some (Daf.make (lit 0) (lit 2))))
  /\ (forall other : PlainDate,
        epochDay (PlainDate_of 1975 6 24) <= epochDay other ->
        YomiCalculator.getDafYomiBavli other = YomiCalculator.getDafYomiBavli date ->
        (epochDay other - epochDay date) mod 2711 = 0).
Proof.
  change (epochDay (PlainDate_of 1975 6 24)) with 2000. intros H.
  rewrite (getDafYomiBavli_new_cycles date)
    by (change (epochDay YomiCalculator.shekalimChangeDate) with 2000; lia).
  repeat match goal with |- _ /\ _ => split end.
  - rewrite getDafYomiBavli_new_cycles
      by (change (epochDay YomiCalculator.shekalimChangeDate) with 2000;
          unfold add_days; cbn [epochDay]; lia).
    unfold add_days. cbn [epochDay].
    replace (epochDay date + 2711 - 2000) with (epochDay date - 2000 + 1 * 2711) by ring.
    rewrite Z.mod_add by lia. reflexivity.
  - intros ->. reflexivity.
  - intros other Ho.
    rewrite (getDafYomiBavli_new_cycles other)
      by (change (epochDay YomiCalculator.shekalimChangeDate) with 2000; lia).
    intros E. injection E as E. apply find_daf_code in E.
    pose proof (Z.mod_pos_bound (epochDay date - 2000) 2711 ltac:(lia)) as Hr.
    pose proof (Z.mod_pos_bound (epochDay other - 2000) 2711 ltac:(lia)) as Hs.
    set (r := (epochDay date - 2000) mod 2711) in *.
    set (s := (epochDay other - 2000) mod 2711) in *.
    assert (Ers : s = r).
    { destruct (Z.lt_trichotomy s r) as [L | [L | L]]; [|exact L|].
      - pose proof (daf_code_increases s r ltac:(lia) L ltac:(lia)). lia.
      - pose proof (daf_code_increases r s ltac:(lia) L ltac:(lia)). lia. }
    replace (epochDay other - epochDay date)
      with ((epochDay other - 2000) - (epochDay date - 2000)) by ring.
    rewrite Zminus_mod. fold r s. rewrite Ers, Z.sub_diag. reflexivity.
Qed.

Lemma getDafYomiBavli_repeats_every_2711_days_witness :
  YomiCalculator.getDafYomiBavli (add_days (PlainDate_of 2020 6 5) 2711)
  = YomiCalculator.getDafYomiBavli (PlainDate_of 2020 6 5)
  /\ ((epochDay (PlainDate_of 2020 6 5) - epochDay (PlainDate_of 1975 6 24)) mod 2711 = 0 ->
      YomiCalculator.getDafYomiBavli (PlainDate_of 2020 6 5)
      = Ok (Some (Daf.make (lit 0) (lit 2))))
  /\ (forall other : PlainDate,
        epochDay (PlainDate_of 1975 6 24) <= epochDay other ->
        YomiCalculator.getDafYomiBavli other
        = YomiCalculator.getDafYomiBavli (PlainDate_of 2020 6 5) ->
        (epochDay other - epochDay (PlainDate_of 2020 6 5)) mod 2711 = 0).
Proof.
  apply (getDafYomiBavli_repeats_every_2711_days (PlainDate_of 2020 6 5)).
  apply Z.leb_le. vm_compute. reflexivity.
Defined.

Lemma old_table_shekalim :
  all_from (Z.to_nat 2702) 0 (shekalim_check old_table) = true.
Proof. vm_compute. reflexivity. Qed.

Lemma whole_daf_found (table : list Z) (dafNo m b : Z) :
  YomiCalculator.find_daf table (lit dafNo) 0 (-1) = Some (Daf.make (lit m) (lit b)) ->
  whole_daf table dafNo = Some (m, b).
Proof. intros H. unfold whole_daf. rewrite H. reflexivity. Qed.

(** X18.  Before 24 June 1975.  In the first six cycles, of 2702 days each,
    Shekalim (masechta 4) gets no daf above 13 and the daf comes back after
    2702 days.  The seventh cycle is different: but for its first day,
    [cycleNo] is above 7 there, being the quotient of a division that is not
    cut to a whole number, so that a date of it gets the daf of the same day
    of the cycle that starts on 24 June 1975, where Shekalim has 22 blatt; on
    its 464th day the daf is Shekalim 22.  Seven cycles of 2702 days end on 23
    June 1975. *)
Theorem shekalim_pagination_before_1975 (date : PlainDate) :
  (0 <= epochDay date - epochDay (PlainDate_of 1923 9 11) <= 6 * 2702 ->
   (forall b : Z,
      YomiCalculator.getDafYomiBavli date = Ok (Some (Daf.make (lit 4) (lit b))) ->
      b <= 13)
   /\ (epochDay date - epochDay (PlainDate_of 1923 9 11) <= 5 * 2702 ->
       YomiCalculator.getDafYomiBavli (add_days date 2702)
       = YomiCalculator.getDafYomiBavli date))
  /\ (6 * 2702 < epochDay date - epochDay (PlainDate_of 1923 9 11) < 7 * 2702 ->
      YomiCalculator.getDafYomiBavli date
      = YomiCalculator.getDafYomiBavli
          (add_days (PlainDate_of 1975 6 24)
             ((epochDay date - epochDay (PlainDate_of 1923 9 11)) mod 2702))
      /\ (epochDay date - epochDay (PlainDate_of 1923 9 11) = 6 * 2702 + 463 ->
          YomiCalculator.getDafYomiBavli date = Ok (Some (Daf.make (lit 4) (lit 22)))))
  /\ epochDay (PlainDate_of 1923 9 11) + 7 * 2702 = epochDay (PlainDate_of 1975 6 24).
Proof.
  change (epochDay (PlainDate_of 1923 9 11)) with (-16914).
  change (epochDay (PlainDate_of 1975 6 24)) with 2000.
  assert (O : forall d : PlainDate, -16914 <= epochDay d < 2000 ->
                YomiCalculator.getDafYomiBavli d
                = Ok (YomiCalculator.find_daf
                        (if epochDay d + 16914 <=? 16212 then old_table
                         else YomiCalculator.blattPerMasechta)
                        (lit ((epochDay d + 16914) mod 2702)) 0 (-1))).
  { intros d Hd. apply getDafYomiBavli_old_cycles.
    change (epochDay YomiCalculator.shekalimChangeDate) with 2000.
    change (epochDay YomiCalculator.dafYomiStartDate) with (-16914). exact Hd. }
  split; [intros H6; split | split; [intros H7; split | reflexivity]].
  - intros b. rewrite O by lia.
    replace (epochDay date + 16914 <=? 16212) with true by (symmetry; apply Z.leb_le; lia).
    pose proof (Z.mod_pos_bound (epochDay date + 16914) 2702 ltac:(lia)) as Hr.
    set (r := (epochDay date + 16914) mod 2702) in *.
    intros E.
    assert (E' : YomiCalculator.find_daf old_table (lit r) 0 (-1)
                 = Some (Daf.make (lit 4) (lit b))) by congruence.
    clear E. apply whole_daf_found in E'. rename E' into E.
    assert (C : shekalim_check old_table r = true).
    { apply (all_from_spec _ _ _ old_table_shekalim). rewrite Z2Nat.id by lia. lia. }
    unfold shekalim_check in C. rewrite E in C. cbn in C. apply Z.leb_le. exact C.
  - intros H5. rewrite (O date) by lia.
    rewrite O by (unfold add_days; cbn [epochDay]; lia).
    unfold add_days. cbn [epochDay].
    replace (epochDay date + 16914 <=? 16212) with true by (symmetry; apply Z.leb_le; lia).
    replace (epochDay date + 2702 + 16914 <=? 16212) with true
      by (symmetry; apply Z.leb_le; lia).
    replace (epochDay date + 2702 + 16914) with (epochDay date + 16914 + 1 * 2702) by ring.
    rewrite Z.mod_add by lia. reflexivity.
  - rewrite O by lia.
    replace (epochDay date + 16914 <=? 16212) with false by (symmetry; apply Z.leb_gt; lia).
    replace (epochDay date - -16914) with (epochDay date + 16914) by ring.
    pose proof (Z.mod_pos_bound (epochDay date + 16914) 2702 ltac:(lia)) as Hr.
    set (r := (epochDay date + 16914) mod 2702) in *.
    rewrite getDafYomiBavli_new_cycles
      by (change (epochDay YomiCalculator.shekalimChangeDate) with 2000;
          unfold add_days; cbn [epochDay]; change (epochDay (PlainDate_of 1975 6 24)) with 2000;
          lia).
    unfold add_days. cbn [epochDay]. change (epochDay (PlainDate_of 1975 6 24)) with 2000.
    replace (2000 + r - 2000) with r by ring.
    rewrite (Z.mod_small r 2711) by lia. reflexivity.
  - intros E. rewrite O by lia.
    replace (epochDay date + 16914) with (6 * 2702 + 463) by lia.
    reflexivity.
Qed.

(** ** Hebrew numbers *)

Lemma formatWholeNumber_hebrewFormat (hf lg gg ff : bool) (n : Z) :
  HebrewDateFormatter.formatWholeNumber (HebrewDateFormatter.make hf lg gg ff) n
  = HebrewDateFormatter.formatWholeNumber (HebrewDateFormatter.make false lg gg ff) n.
Proof. reflexivity. Qed.

Lemma hebrew_number_check_hebrewFormat (hf lg gg ff : bool) (n : Z) :
  hebrew_number_check (HebrewDateFormatter.make hf lg gg ff) n
  = hebrew_number_check (HebrewDateFormatter.make false lg gg ff) n.
Proof. reflexivity. Qed.

Lemma hebrew_number_check_plain (lg gg ff : bool) :
  all_from (Z.to_nat 9999) 1
    (hebrew_number_check (HebrewDateFormatter.make false lg gg ff)) = true.
Proof.
  destruct lg, gg, ff; vm_compute; reflexivity.
Qed.

Lemma hebrew_number_check_all (this : HebrewDateFormatter.t) (n : Z) :
  1 <= n <= 9999 -> hebrew_number_check this n = true.
Proof.
  intros H. destruct this as [hf lg gg ff].
  rewrite hebrew_number_check_hebrewFormat.
  apply (all_from_spec _ _ _ (hebrew_number_check_plain lg gg ff)).
  rewrite Z2Nat.id by lia. lia.
Qed.

Lemma formatHebrewNumber_whole (this : HebrewDateFormatter.t) (n : Z) :
  0 <= n <= 9999 ->
  HebrewDateFormatter.formatHebrewNumber this (lit n)
  = Ok (HebrewDateFormatter.formatWholeNumber this n).
Proof.
  intros H. unfold HebrewDateFormatter.formatHebrewNumber. cbv zeta.
  rewrite trunc_lit.
  assert (E : (lit n === lit n)%num = true).
  { unfold lit, Number.of_Z, Number.eqb. apply Qeq_bool_iff. reflexivity. }
  rewrite E. cbn [negb].
  assert (L : (lit n <? lit 0)%num = false).
  { unfold lit, Number.of_Z. apply ltb_false. rewrite <- Zle_Qle. lia. }
  rewrite L.
  assert (G : (lit n >? lit 9999)%num = false).
  { unfold Number.gtb, lit, Number.of_Z. apply ltb_false. rewrite <- Zle_Qle. lia. }
  rewrite G. unfold lit, Number.of_Z. rewrite Qfloor_Z. reflexivity.
Qed.

(** X19.  [formatHebrewNumber] of a whole number [n] from 1 to 9999 writes
    its value: the letters add up to [n] without its thousands, plus the
    thousands when these are written (long years and [n] from 1000 on); a
    number of whole thousands is its thousands and the word alafim.  Yod is
    never followed by he or vav (15 and 16 are tet-vav and tet-zayin).
    Without geresh and gershayim the string holds only letters and at most
    the one space after the thousands. *)
Theorem formatHebrewNumber_keeps_the_value (this : HebrewDateFormatter.t) (n : Z) :
  1 <= n <= 9999 ->
  exists s : ustring,
    HebrewDateFormatter.formatHebrewNumber this (lit n) = Ok s
    /\ (n mod 1000 <> 0 ->
        letter_sum s
        = n mod 1000
          + (if HebrewDateFormatter.useLonghebrewYears this && (1000 <=? n)
             then n / 1000 else 0))
    /\ (n mod 1000 = 0 ->
        letter_sum s = n / 1000 + letter_sum HebrewDateFormatter.ALAFIM)
    /\ spares_the_name (letters s) = true
    /\ (HebrewDateFormatter.useGershGershayim this = false ->
        (List.length (letters s) + (if existsb (Z.eqb 0x20) s then 1 else 0))%nat
        = List.length s).
Proof.
  intros H. exists (HebrewDateFormatter.formatWholeNumber this n).
  split; [apply formatHebrewNumber_whole; lia|].
  pose proof (hebrew_number_check_all this n H) as C.
  unfold hebrew_number_check in C. cbv zeta in C.
  set (s := HebrewDateFormatter.formatWholeNumber this n) in *.
  apply andb_true_iff in C. destruct C as [C C3].
  apply andb_true_iff in C. destruct C as [C1 C2].
  repeat match goal with |- _ /\ _ => split end.
  - intros N. apply Z.eqb_neq in N. rewrite N in C1. apply Z.eqb_eq. exact C1.
  - intros N. apply Z.eqb_eq in N. rewrite N in C1. apply Z.eqb_eq. exact C1.
  - exact C2.
  - intros G. rewrite G in C3. cbn [orb] in C3. apply Nat.eqb_eq. exact C3.
Qed.

Lemma formatHebrewNumber_keeps_the_value_witness :
  exists s : ustring,
    HebrewDateFormatter.formatHebrewNumber
      (HebrewDateFormatter.make false false true false) (lit 5780) = Ok s
    /\ (5780 mod 1000 <> 0 ->
        letter_sum s
        = 5780 mod 1000
          + (if HebrewDateFormatter.useLonghebrewYears
                  (HebrewDateFormatter.make false false true false) && (1000 <=? 5780)
             then 5780 / 1000 else 0))
    /\ (5780 mod 1000 = 0 ->
        letter_sum s = 5780 / 1000 + letter_sum HebrewDateFormatter.ALAFIM)
    /\ spares_the_name (letters s) = true
    /\ (HebrewDateFormatter.useGershGershayim
          (HebrewDateFormatter.make false false true false) = false ->
        (List.length (letters s) + (if existsb (Z.eqb 0x20) s then 1 else 0))%nat
        = List.length s).
Proof.
  apply (formatHebrewNumber_keeps_the_value
           (HebrewDateFormatter.make false false true false) 5780).
  lia.
Defined.

(** X20.  [formatHebrewNumber] raises [IllegalArgumentException] for [NaN],
    for a number with a fraction, for a negative number and for a number
    above 9999; for 0 it answers the word efes. *)
Theorem formatHebrewNumber_rejects (this : HebrewDateFormatter.t) :
  HebrewDateFormatter.formatHebrewNumber this NaN = Raise IllegalArgumentException
  /\ (forall q : Q,
        ~ (q == inject_Z (Qfloor q))%Q \/ (q < 0)%Q \/ (9999 < q)%Q ->
        HebrewDateFormatter.formatHebrewNumber this (Fin q) = Raise IllegalArgumentException)
  /\ HebrewDateFormatter.formatHebrewNumber this (lit 0) = Ok HebrewDateFormatter.EFES.
Proof.
  repeat match goal with |- _ /\ _ => split end.
  - reflexivity.
  - intros q H. unfold HebrewDateFormatter.formatHebrewNumber. cbv zeta.
    destruct (Fin q === Math.trunc (Fin q))%num eqn:E; [|reflexivity].
    cbn [negb].
    destruct (Fin q <? lit 0)%num eqn:L; [reflexivity|].
    destruct (Fin q >? lit 9999)%num eqn:G; [reflexivity|].
    exfalso.
    apply ltb_false in L. change (inject_Z 0) with 0%Q in L.
    unfold Number.gtb in G. apply ltb_false in G. change (inject_Z 9999) with 9999%Q in G.
    unfold Math.trunc, Number.of_Z, Number.eqb in E. apply Qeq_bool_iff in E.
    rewrite (Qtrunc_nonneg q L) in E.
    destruct H as [H | [H | H]]; [contradiction | lra | lra].
  - reflexivity.
Qed.
